(** * BusTub buffer pool manager: a shallow embedding of
      [src/buffer/buffer_pool_manager.cpp] and the properties of its
      six public operations.

    The manager is modelled as a record of its member variables and every
    member function as a function from the state before the call to the
    returned value and the state after it.  [latch_] is held for the whole of
    every public function, so the calls are atomic and a sequential model
    loses nothing; the latch itself is not represented.

    The classes the manager uses and whose code is not in the file, [Page],
    [DiskManager] and the replacer, are modelled from the specification: the
    first two as records, the replacer as an interface with the contract the
    manager relies on, of which the clock policy is one instance.  The
    theorems about the manager hold for every policy that meets the contract.

    The first part of the file is the embedding and the vocabulary of the
    properties, the second their proofs, the third applies the theorems to
    the clock policy on a pool of one frame. *)

From Stdlib Require Import ZArith Lia.
From Stdlib Require Import Init.Byte.
From stdpp Require Import gmap list.

Local Open Scope Z_scope.
Set Warnings "-clear-no-such-hyp".

(* ===================================================================== *)
(** ** Pages (frames) *)
(* ===================================================================== *)

(** [page_id_t] and [frame_id_t] are both the same C++ integer type; both are
    [Z] here, which is what lets [replacer_->Pin(page_id)] be written as it is
    in the source. *)
Abbreviation page_id_t := Z (only parsing).
Abbreviation frame_id_t := Z (only parsing).

(** Modelled from the spec: the sentinel of [common/config.h] (a reserved value
    that denotes "invalid/no page"); the source initialises a frame index with
    the same value, [-1]. *)
Definition INVALID_PAGE_ID : page_id_t := -1.

(** Modelled from the spec: the class [Page] of [storage/page/page.h], which is
    not among the sources: a fixed-size byte buffer with the id of the page it
    holds, a pin count and a dirty flag.  The pin count is the C++ [int]; it is
    kept as an unbounded integer, so that "never negative" is a statement and
    not a typing fact. *)
Record Page := mkPage {
  data_ : list byte;
  page_id_ : page_id_t;
  pin_count_ : Z;
  is_dirty_ : bool
}.

Definition GetData (pg : Page) : list byte := data_ pg.
Definition GetPageId (pg : Page) : page_id_t := page_id_ pg.
Definition GetPinCount (pg : Page) : Z := pin_count_ pg.
Definition IsDirty (pg : Page) : bool := is_dirty_ pg.

Definition set_data (d : list byte) (pg : Page) : Page :=
  mkPage d (page_id_ pg) (pin_count_ pg) (is_dirty_ pg).
Definition set_page_id (p : page_id_t) (pg : Page) : Page :=
  mkPage (data_ pg) p (pin_count_ pg) (is_dirty_ pg).
Definition set_pin_count (n : Z) (pg : Page) : Page :=
  mkPage (data_ pg) (page_id_ pg) n (is_dirty_ pg).
Definition set_is_dirty (b : bool) (pg : Page) : Page :=
  mkPage (data_ pg) (page_id_ pg) (pin_count_ pg) b.

(** A buffer of [n] zero bytes. *)
Definition zeroed (n : nat) : list byte := replicate n x00.

(** Modelled from the spec: [Page::ResetMemory] zeroes the frame's buffer and
    touches nothing else. *)
Definition ResetMemory (pg : Page) : Page := set_data (zeroed (length (data_ pg))) pg.

(** The default-constructed [Page] of [new Page[pool_size_]]. *)
Definition Page_new (page_size : nat) : Page :=
  mkPage (zeroed page_size) INVALID_PAGE_ID 0 false.

(* ===================================================================== *)
(** ** The storage collaborator *)
(* ===================================================================== *)

(** The calls the manager makes on the disk manager, in the order made. *)
Inductive disk_call :=
| CallReadPage (p : page_id_t)
| CallWritePage (p : page_id_t) (d : list byte)
| CallAllocatePage (p : page_id_t)
| CallDeallocatePage (p : page_id_t).

(** Modelled from the spec: the class [DiskManager], which is not among the
    sources.  [ReadPage] fills the buffer with the page's persisted bytes (and
    leaves the buffer as it is when nothing was persisted under that id),
    [WritePage] persists the buffer, [AllocatePage] returns a fresh identifier
    and [DeallocatePage] is the no-op placeholder.  [calls_] records every call. *)
Record DiskManager := mkDisk {
  stored_ : gmap Z (list byte);
  next_page_id_ : page_id_t;
  calls_ : list disk_call
}.

Definition DiskManager_new : DiskManager := mkDisk ∅ 0 [].

Definition ReadPage (p : page_id_t) (buf : list byte) (dm : DiskManager)
  : list byte * DiskManager :=
  (default buf (stored_ dm !! p),
   mkDisk (stored_ dm) (next_page_id_ dm) (calls_ dm ++ [CallReadPage p])).

Definition WritePage (p : page_id_t) (buf : list byte) (dm : DiskManager) : DiskManager :=
  mkDisk (<[p := buf]> (stored_ dm)) (next_page_id_ dm) (calls_ dm ++ [CallWritePage p buf]).

Definition AllocatePage (dm : DiskManager) : page_id_t * DiskManager :=
  (next_page_id_ dm,
   mkDisk (stored_ dm) (next_page_id_ dm + 1) (calls_ dm ++ [CallAllocatePage (next_page_id_ dm)])).

Definition DeallocatePage (p : page_id_t) (dm : DiskManager) : DiskManager :=
  mkDisk (stored_ dm) (next_page_id_ dm) (calls_ dm ++ [CallDeallocatePage p]).

Definition is_write (c : disk_call) : bool :=
  match c with CallWritePage _ _ => true | _ => false end.

Definition is_allocate (c : disk_call) : bool :=
  match c with CallAllocatePage _ => true | _ => false end.

(* ===================================================================== *)
(** ** The replacement policy *)
(* ===================================================================== *)

(** Modelled from the spec: the interface [Replacer] (the source constructs a
    [ClockReplacer], whose code is not among the sources).  [Victim] returns
    the chosen frame and the policy's next state, or [None] (the C++ [false])
    when it has nothing to evict, which leaves the policy as it was. *)
Class Replacer (R : Type) := {
  Replacer_new : nat → R;
  Pin : frame_id_t → R → R;
  Unpin : frame_id_t → R → R;
  Victim : R → option (frame_id_t * R)
}.

(** Modelled from the spec: the contract the manager consumes.  A policy
    tracks a set of eviction-eligible frames: [Unpin] adds a frame to it, [Pin]
    removes one, and [Victim] returns one of its members and removes it, and
    fails only when the set is empty. *)
Class ReplacerContract (R : Type) `{Replacer R} := {
  evictable : R → gset Z;
  evictable_new n : evictable (Replacer_new n) = ∅;
  evictable_Pin f r : evictable (Pin f r) = evictable r ∖ {[f]};
  evictable_Unpin f r : evictable (Unpin f r) = evictable r ∪ {[f]};
  Victim_None r : Victim r = None ↔ evictable r = ∅;
  Victim_Some r f r' :
    Victim r = Some (f, r') → f ∈ evictable r ∧ evictable r' = evictable r ∖ {[f]}
}.

(** Modelled from the spec: the circular-sweep ("clock") policy.  The clock
    face is the list of eviction-eligible frames, each with its reference
    flag, starting at the sweep pointer. *)
Abbreviation ClockReplacer := (list (Z * bool)).

Definition clock_tracks (f : frame_id_t) (c : ClockReplacer) : bool :=
  existsb (λ e, Z.eqb (fst e) f) c.

(** On unpin the reference flag is set; a frame not yet on the face joins it
    just behind the pointer. *)
Definition clock_Unpin (f : frame_id_t) (c : ClockReplacer) : ClockReplacer :=
  if clock_tracks f c
  then (λ e, if Z.eqb (fst e) f then (fst e, true) else e) <$> c
  else c ++ [(f, true)].

Definition clock_Pin (f : frame_id_t) (c : ClockReplacer) : ClockReplacer :=
  filter (λ e, fst e ≠ f) c.

(** The sweep: a set flag is cleared and the frame skipped once, the first
    frame found with a clear flag is evicted, which takes it off the face. *)
Fixpoint clock_sweep (fuel : nat) (c : ClockReplacer) : option (frame_id_t * ClockReplacer) :=
  match fuel with
  | O => None
  | S fuel' =>
    match c with
    | [] => None
    | (f, true) :: rest => clock_sweep fuel' (rest ++ [(f, false)])
    | (f, false) :: rest => Some (f, clock_Pin f rest)
    end
  end.

(** One turn of the face clears every flag, so one more step finds a victim. *)
Definition clock_Victim (c : ClockReplacer) : option (frame_id_t * ClockReplacer) :=
  clock_sweep (S (length c)) c.

#[export] Instance Clock : Replacer ClockReplacer := {
  Replacer_new := λ _, [];
  Pin := clock_Pin;
  Unpin := clock_Unpin;
  Victim := clock_Victim
}.

(* ===================================================================== *)
(** ** The buffer pool manager *)
(* ===================================================================== *)

(** The calls the manager makes on the policy to mark a frame, in order. *)
Inductive mark_call :=
| CallPin (f : frame_id_t)
| CallUnpin (f : frame_id_t).

(** The member variables of [BufferPoolManager].  [pool_size_] is the length
    of the array [pages_]; [marks_] is a history variable (the source has no
    such member): the [Pin] and [Unpin] calls made on [replacer_] so far. *)
Record BufferPoolManager (R : Type) := mkBPM {
  pages_ : list Page;
  disk_manager_ : DiskManager;
  page_table_ : gmap Z Z;
  replacer_ : R;
  free_list_ : list frame_id_t;
  marks_ : list mark_call
}.
Arguments mkBPM {R}.
Arguments pages_ {R}.
Arguments disk_manager_ {R}.
Arguments page_table_ {R}.
Arguments replacer_ {R}.
Arguments free_list_ {R}.
Arguments marks_ {R}.

(** [std::unordered_map::insert] keeps the entry of a key that is present. *)
Definition table_insert (k v : Z) (m : gmap Z Z) : gmap Z Z :=
  match m !! k with
  | Some _ => m
  | None => <[k := v]> m
  end.

(** [pages_[f]].  An index outside the array is undefined behaviour in C++;
    here the read gives [None] and [page_at] turns that into [Page_new 0].
    No reachable state holds such an index ([reachable_frames_in_range]). *)
Definition frame (ps : list Page) (f : frame_id_t) : option Page :=
  if Z.leb 0 f then ps !! Z.to_nat f else None.

(** An assignment to members of [pages_[f]]; it does nothing outside the
    array. *)
Definition update_frame (f : frame_id_t) (g : Page → Page) (ps : list Page) : list Page :=
  if Z.leb 0 f then alter g (Z.to_nat f) ps else ps.

Section Manager.
Context {R : Type} `{Replacer R}.

Local Abbreviation BPM := (BufferPoolManager R).

Definition pool_size_ (s : BPM) : nat := length (pages_ s).

Definition page_at (s : BPM) (f : frame_id_t) : Page :=
  default (Page_new 0) (frame (pages_ s) f).

Definition set_pages (ps : list Page) (s : BPM) : BPM :=
  mkBPM ps (disk_manager_ s) (page_table_ s) (replacer_ s) (free_list_ s) (marks_ s).
Definition set_disk (dm : DiskManager) (s : BPM) : BPM :=
  mkBPM (pages_ s) dm (page_table_ s) (replacer_ s) (free_list_ s) (marks_ s).
Definition set_table (m : gmap Z Z) (s : BPM) : BPM :=
  mkBPM (pages_ s) (disk_manager_ s) m (replacer_ s) (free_list_ s) (marks_ s).
Definition set_replacer (r : R) (s : BPM) : BPM :=
  mkBPM (pages_ s) (disk_manager_ s) (page_table_ s) r (free_list_ s) (marks_ s).
Definition set_free (l : list frame_id_t) (s : BPM) : BPM :=
  mkBPM (pages_ s) (disk_manager_ s) (page_table_ s) (replacer_ s) l (marks_ s).

Definition with_page (f : frame_id_t) (g : Page → Page) (s : BPM) : BPM :=
  set_pages (update_frame f g (pages_ s)) s.

(** [replacer_->Pin(x)] and [replacer_->Unpin(x)], with the call recorded. *)
Definition replacer_Pin (x : frame_id_t) (s : BPM) : BPM :=
  mkBPM (pages_ s) (disk_manager_ s) (page_table_ s) (Pin x (replacer_ s))
        (free_list_ s) (marks_ s ++ [CallPin x]).
Definition replacer_Unpin (x : frame_id_t) (s : BPM) : BPM :=
  mkBPM (pages_ s) (disk_manager_ s) (page_table_ s) (Unpin x (replacer_ s))
        (free_list_ s) (marks_ s ++ [CallUnpin x]).

(** The constructor: every frame starts on the free list. *)
Definition BufferPoolManager_new (pool_size page_size : nat) (dm : DiskManager) : BPM :=
  mkBPM (replicate pool_size (Page_new page_size)) dm ∅ (Replacer_new pool_size)
        (Z.of_nat <$> seq 0 pool_size) [].

Definition FlushPageImplWithoutLock (page_id : page_id_t) (s : BPM) : bool * BPM :=
  match page_table_ s !! page_id with
  | None => (false, s)
  | Some frameId =>
    if IsDirty (page_at s frameId) then
      let s1 := set_disk (WritePage page_id (GetData (page_at s frameId)) (disk_manager_ s)) s in
      (true, with_page frameId (set_is_dirty false) s1)
    else (true, s)
  end.

Definition FlushPageImpl (page_id : page_id_t) (s : BPM) : bool * BPM :=
  FlushPageImplWithoutLock page_id s.

(** The result is the index of the returned frame ([&pages_[frameId]]), or
    [None] for [nullptr]. *)
Definition FetchPageImpl (page_id : page_id_t) (s : BPM) : option frame_id_t * BPM :=
  match page_table_ s !! page_id with
  | Some frameId =>
    let s1 := with_page frameId (λ pg, set_pin_count (pin_count_ pg + 1) pg) s in
    (Some frameId, replacer_Pin page_id s1)
  | None =>
    let obtained :=
      match free_list_ s with
      | frameId :: rest => Some (frameId, set_free rest s)
      | [] =>
        match Victim (replacer_ s) with
        | Some (frameId, r) => Some (frameId, set_replacer r s)
        | None => None
        end
      end in
    match obtained with
    | None => (None, s)
    | Some (frameId, s1) =>
      let s2 :=
        if IsDirty (page_at s1 frameId) then
          let pageIdToDelete := GetPageId (page_at s1 frameId) in
          let s' := snd (FlushPageImplWithoutLock pageIdToDelete s1) in
          set_table (delete pageIdToDelete (page_table_ s')) s'
        else s1 in
      let s3 := with_page frameId ResetMemory s2 in
      let s4 := with_page frameId (set_page_id page_id) s3 in
      let s5 := with_page frameId (set_is_dirty false) s4 in
      let s6 := with_page frameId (set_pin_count 1) s5 in
      let '(buf, dm) := ReadPage page_id (GetData (page_at s6 frameId)) (disk_manager_ s6) in
      let s7 := with_page frameId (set_data buf) (set_disk dm s6) in
      (Some frameId, set_table (table_insert page_id frameId (page_table_ s7)) s7)
    end
  end.

Definition UnpinPageImpl (page_id : page_id_t) (is_dirty : bool) (s : BPM) : bool * BPM :=
  match page_table_ s !! page_id with
  | None => (false, s)
  | Some frameId =>
    if Z.eqb (GetPinCount (page_at s frameId)) 0 then (false, s)
    else
      let s1 := with_page frameId (λ pg, set_pin_count (pin_count_ pg - 1) pg) s in
      let s2 := with_page frameId (λ pg, set_is_dirty (is_dirty_ pg || is_dirty) pg) s1 in
      let s3 :=
        if Z.eqb (GetPinCount (page_at s2 frameId)) 0
        then replacer_Unpin frameId s2 else s2 in
      (true, s3)
  end.

(** The result is the new page id (the output parameter) with the index of the
    returned frame, or [None] for [nullptr]. *)
Definition NewPageImpl (s : BPM) : option (page_id_t * frame_id_t) * BPM :=
  let obtained :=
    match free_list_ s with
    | freeFrameId :: rest => Some (freeFrameId, set_free rest s)
    | [] =>
      match Victim (replacer_ s) with
      | None => None
      | Some (freeFrameId, r) =>
        let s1 := set_replacer r s in
        let pageIdToDelete := GetPageId (page_at s1 freeFrameId) in
        let s2 :=
          if is_dirty_ (page_at s1 freeFrameId)
          then snd (FlushPageImplWithoutLock pageIdToDelete s1) else s1 in
        Some (freeFrameId, set_table (delete pageIdToDelete (page_table_ s2)) s2)
      end
    end in
  match obtained with
  | None => (None, s)
  | Some (freeFrameId, s3) =>
    let '(page_id, dm) := AllocatePage (disk_manager_ s3) in
    let s4 := set_disk dm s3 in
    let s5 := with_page freeFrameId ResetMemory s4 in
    let s6 := with_page freeFrameId (set_page_id page_id) s5 in
    let s7 := with_page freeFrameId (set_pin_count 1) s6 in
    (Some (page_id, freeFrameId),
     set_table (table_insert page_id freeFrameId (page_table_ s7)) s7)
  end.

Definition DeletePageImpl (page_id : page_id_t) (s : BPM) : bool * BPM :=
  match page_table_ s !! page_id with
  | None => (true, s)
  | Some frameId =>
    if Z.ltb 0 (GetPinCount (page_at s frameId)) then (false, s)
    else
      let s1 := set_table (delete page_id (page_table_ s)) s in
      let s2 := with_page frameId ResetMemory s1 in
      let s3 := with_page frameId (set_page_id INVALID_PAGE_ID) s2 in
      let s4 := with_page frameId (set_pin_count 0) s3 in
      let s5 := with_page frameId (set_is_dirty false) s4 in
      let s6 := set_free (free_list_ s5 ++ [frameId]) s5 in
      (true, set_disk (DeallocatePage page_id (disk_manager_ s6)) s6)
  end.

(** The loop of [FlushAllPagesImpl]: [n] iterations are left, the next one
    is for index [i]. *)
Fixpoint FlushAll_from (n : nat) (i : Z) (s : BPM) : BPM :=
  match n with
  | O => s
  | S n' =>
    let page_id := page_id_ (page_at s i) in
    let s' :=
      if Z.eqb page_id INVALID_PAGE_ID then s
      else snd (FlushPageImplWithoutLock page_id s) in
    FlushAll_from n' (i + 1) s'
  end.

Definition FlushAllPagesImpl (s : BPM) : BPM := FlushAll_from (pool_size_ s) 0 s.

(** *** Callers *)

(** What a caller does with the bytes of a frame it holds: [d] is written at
    the start of the buffer, whose size does not change. *)
Definition write_bytes (d old : list byte) : list byte :=
  take (length old) (d ++ drop (length d) old).

(** The six public operations, and a caller's write through a frame handle. *)
Inductive op :=
| OpFetch (page_id : page_id_t)
| OpUnpin (page_id : page_id_t) (is_dirty : bool)
| OpFlush (page_id : page_id_t)
| OpFlushAll
| OpNewPage
| OpDelete (page_id : page_id_t)
| OpWrite (f : frame_id_t) (d : list byte).

Definition step (o : op) (s : BPM) : BPM :=
  match o with
  | OpFetch p => snd (FetchPageImpl p s)
  | OpUnpin p d => snd (UnpinPageImpl p d s)
  | OpFlush p => snd (FlushPageImpl p s)
  | OpFlushAll => FlushAllPagesImpl s
  | OpNewPage => snd (NewPageImpl s)
  | OpDelete p => snd (DeletePageImpl p s)
  | OpWrite f d => with_page f (λ pg, set_data (write_bytes d (data_ pg)) pg) s
  end.

Definition run (os : list op) (s : BPM) : BPM := foldl (λ s o, step o s) s os.

(** The states a manager can be in: those a sequence of calls leads to from
    a newly constructed pool (of [n] frames of [k] bytes, over any disk). *)
Definition reachable (s : BPM) : Prop :=
  ∃ n k dm os, s = run os (BufferPoolManager_new n k dm).

End Manager.

(* ===================================================================== *)
(** ** Vocabulary of the properties *)
(* ===================================================================== *)

Section Vocabulary.
Context {R : Type} `{Replacer R}.

Local Abbreviation BPM := (BufferPoolManager R).

(** The pin count of frame [f]. *)
Definition pin_count_at (s : BPM) (f : Z) : Z := pin_count_ (page_at s f).

(** No frame has a negative pin count. *)
Definition pins_nonneg (s : BPM) : Prop := Forall (λ pg, 0 ≤ pin_count_ pg) (pages_ s).

(** Page [p] is resident in frame [f]: the page table sends [p] to [f] and
    frame [f] is labelled with [p]. *)
Definition resident_in (s : BPM) (p f : Z) (pg : Page) : Prop :=
  page_table_ s !! p = Some f ∧ frame (pages_ s) f = Some pg ∧ page_id_ pg = p.

(** The page-table invariant of the data model: an entry sends a page id to
    a frame labelled with that id, a frame labelled with a page id is the one
    the page table gives for it, and there are no more entries than frames.
    (That an id has one entry at most is what a map is.) *)
Definition page_table_inv (s : BPM) : Prop :=
  (∀ p f, page_table_ s !! p = Some f →
     ∃ pg, frame (pages_ s) f = Some pg ∧ page_id_ pg = p) ∧
  (∀ f pg, frame (pages_ s) f = Some pg → page_id_ pg ≠ INVALID_PAGE_ID →
     page_table_ s !! page_id_ pg = Some f) ∧
  (size (page_table_ s) ≤ pool_size_ s)%nat.

(** The page id that frame [f] is labelled with, when [f] is a frame. *)
Definition label (s : BPM) (f : Z) : option Z := page_id_ <$> frame (pages_ s) f.

(** Flushing [p] would write nothing. *)
Definition settled (s : BPM) (p : Z) : Prop :=
  p = INVALID_PAGE_ID ∨
  match page_table_ s !! p with
  | Some f => is_dirty_ (page_at s f) = false
  | None => True
  end.

(** One iteration of the loop of [FlushAllPagesImpl]. *)
Definition FlushAll_body (i : Z) (s : BPM) : BPM :=
  let page_id := page_id_ (page_at s i) in
  if Z.eqb page_id INVALID_PAGE_ID then s else snd (FlushPageImplWithoutLock page_id s).

(** The write-back of [FetchPageImpl] (source lines 72-77) on the obtained
    frame. *)
Definition fetch_write_back (frameId : Z) (s1 : BPM) : BPM :=
  if IsDirty (page_at s1 frameId) then
    let pageIdToDelete := GetPageId (page_at s1 frameId) in
    let s' := snd (FlushPageImplWithoutLock pageIdToDelete s1) in
    set_table (delete pageIdToDelete (page_table_ s')) s'
  else s1.

(** The rest of [FetchPageImpl] (source lines 78-85). *)
Definition fetch_load (page_id frameId : Z) (s2 : BPM) : BPM :=
  let s3 := with_page frameId ResetMemory s2 in
  let s4 := with_page frameId (set_page_id page_id) s3 in
  let s5 := with_page frameId (set_is_dirty false) s4 in
  let s6 := with_page frameId (set_pin_count 1) s5 in
  let '(buf, dm) := ReadPage page_id (GetData (page_at s6 frameId)) (disk_manager_ s6) in
  let s7 := with_page frameId (set_data buf) (set_disk dm s6) in
  set_table (table_insert page_id frameId (page_table_ s7)) s7.

(** The eviction of [NewPageImpl] (source lines 164-170) on the victim. *)
Definition new_write_back (freeFrameId : Z) (s1 : BPM) : BPM :=
  let pageIdToDelete := GetPageId (page_at s1 freeFrameId) in
  let s2 :=
    if is_dirty_ (page_at s1 freeFrameId)
    then snd (FlushPageImplWithoutLock pageIdToDelete s1) else s1 in
  set_table (delete pageIdToDelete (page_table_ s2)) s2.

(** The rest of [NewPageImpl] (source lines 175-180). *)
Definition new_install (freeFrameId : Z) (s3 : BPM) : BPM :=
  let '(page_id, dm) := AllocatePage (disk_manager_ s3) in
  let s4 := set_disk dm s3 in
  let s5 := with_page freeFrameId ResetMemory s4 in
  let s6 := with_page freeFrameId (set_page_id page_id) s5 in
  let s7 := with_page freeFrameId (set_pin_count 1) s6 in
  set_table (table_insert page_id freeFrameId (page_table_ s7)) s7.

(** The calls that unpin. *)
Definition is_unpin (o : op) : bool :=
  match o with OpUnpin _ _ => true | _ => false end.

(** The [Pin] and [Unpin] calls that [o] makes on the policy from [s]. *)
Definition new_marks (o : op) (s : BPM) : list mark_call :=
  drop (length (marks_ s)) (marks_ (step o s)).

(** The claim that the marks follow the pin counts: [Pin f] is called exactly
    when the pin count of frame [f] leaves zero, [Unpin f] exactly when it
    comes to zero. *)
Definition pin_marks_leave_zero (o : op) (s : BPM) : Prop :=
  ∀ f, CallPin f ∈ new_marks o s ↔ pin_count_at s f = 0 ∧ pin_count_at (step o s) f ≠ 0.

Definition unpin_marks_reach_zero (o : op) (s : BPM) : Prop :=
  ∀ f, CallUnpin f ∈ new_marks o s ↔ pin_count_at s f ≠ 0 ∧ pin_count_at (step o s) f = 0.

(** Both halves: the claim as the specification states it. *)
Definition marks_follow_pins (o : op) (s : BPM) : Prop :=
  pin_marks_leave_zero o s ∧ unpin_marks_reach_zero o s.

(** A disk that holds three pages, 10, 11 and 12. *)
Definition disk3 : DiskManager :=
  mkDisk {[10 := [x0a; x0a]; 11 := [x0b; x0b]; 12 := [x0c; x0c]]} 13 [].

(** The bytes a caller writes as page 10. *)
Definition written : list byte := [x77; x77].

(** A pool of one frame of two bytes over that disk. *)
Definition pool1 : BPM := BufferPoolManager_new 1 2 disk3.

(** *** The calls on the disk manager *)

(** The calls that [o] makes on the disk manager from [s]. *)
Definition new_calls (o : op) (s : BPM) : list disk_call :=
  drop (length (calls_ (disk_manager_ s))) (calls_ (disk_manager_ (step o s))).

(** Frame [f] holds page [p] modified: the page table sends [p] to [f] and
    [f] is dirty. *)
Definition dirty_in (s : BPM) (p f : Z) : Prop :=
  page_table_ s !! p = Some f ∧ is_dirty_ (page_at s f) = true.

(** The operations that write pages back, and the page a write of theirs
    may be for: [FlushPageImpl] writes the page flushed, [FetchPageImpl]
    writes on a miss only. *)
Definition may_write (o : op) (s : BPM) (p : Z) : Prop :=
  match o with
  | OpFlush q => p = q
  | OpFetch q => page_table_ s !! q = None
  | OpFlushAll | OpNewPage => True
  | _ => False
  end.

(** The disk calls that operation [o] may make from [s]: a write of the
    bytes of a dirty frame under the id the page table has for it, the read
    of the page a fetch misses, the allocation of the next id by
    [NewPageImpl] and the deallocation of the unpinned page that is
    deleted. *)
Definition call_allowed (o : op) (s : BPM) (c : disk_call) : Prop :=
  match c with
  | CallWritePage p d =>
    may_write o s p ∧ ∃ f, dirty_in s p f ∧ data_ (page_at s f) = d
  | CallReadPage p => o = OpFetch p ∧ page_table_ s !! p = None
  | CallAllocatePage p => o = OpNewPage ∧ p = next_page_id_ (disk_manager_ s)
  | CallDeallocatePage p =>
    o = OpDelete p ∧ ∃ f, page_table_ s !! p = Some f ∧ pin_count_at s f ≤ 0
  end.

(** What flushes do from [s] to [s']: the calls [l] are writes of dirty
    frames of [s], storage changes under the ids written only, and of the
    manager only dirty flags change, which are cleared. *)
Definition flushed (s s' : BPM) (l : list disk_call) : Prop :=
  calls_ (disk_manager_ s') = calls_ (disk_manager_ s) ++ l ∧
  Forall (λ c, ∃ p f, dirty_in s p f ∧ c = CallWritePage p (data_ (page_at s f))) l ∧
  (∀ p, stored_ (disk_manager_ s') !! p = stored_ (disk_manager_ s) !! p ∨
        ∃ f, dirty_in s p f ∧
             stored_ (disk_manager_ s') !! p = Some (data_ (page_at s f))) ∧
  next_page_id_ (disk_manager_ s') = next_page_id_ (disk_manager_ s) ∧
  page_table_ s' = page_table_ s ∧
  (∀ f, data_ (page_at s' f) = data_ (page_at s f)) ∧
  (∀ f, is_dirty_ (page_at s' f) = true → is_dirty_ (page_at s f) = true).

(** *** The loop of [FlushAllPagesImpl] *)

(** The page ids that [FlushAllPagesImpl] flushes: those of the frames, in
    the order of the array, but for [INVALID_PAGE_ID]. *)
Definition valid_labels (s : BPM) : list Z :=
  filter (λ q, q ≠ INVALID_PAGE_ID) (page_id_ <$> pages_ s).

End Vocabulary.

Section PolicyVocabulary.
Context {R : Type} `{ReplacerContract R}.

Local Abbreviation BPM := (BufferPoolManager R).

(** What holds of a pool as long as no page was unpinned: the policy has
    nothing to evict, every page in the page table is pinned, and the frames
    are either free or accounted for by the page table. *)
Definition all_pinned (s : BPM) : Prop :=
  evictable (replacer_ s) = ∅ ∧
  (∀ p f, page_table_ s !! p = Some f → 0 < pin_count_ (page_at s f)) ∧
  (length (free_list_ s) + size (page_table_ s) ≤ length (pages_ s))%nat ∧
  Forall (λ f, is_Some (frame (pages_ s) f)) (free_list_ s).

(** The policy selects no frame that is pinned. *)
Definition victims_unpinned (s : BPM) : Prop :=
  ∀ f r, Victim (replacer_ s) = Some (f, r) → ¬ 0 < pin_count_at s f.

(** The frames the policy holds eviction-eligible have pin count zero. *)
Definition evictable_unpinned (s : BPM) : Prop :=
  ∀ f, f ∈ evictable (replacer_ s) → pin_count_at s f = 0.

(** Frame [f] is a frame of the pool: an index into [pages_]. *)
Definition in_pool (s : BPM) (f : Z) : Prop := 0 ≤ f < Z.of_nat (pool_size_ s).

(** Every frame index the manager keeps, in the page table, on the free list
    or with the policy, is an index into [pages_]. *)
Definition frames_in_range (s : BPM) : Prop :=
  (∀ p f, page_table_ s !! p = Some f → in_pool s f) ∧
  (∀ f, f ∈ free_list_ s → in_pool s f) ∧
  (∀ f, f ∈ evictable (replacer_ s) → in_pool s f).

(** The invariants of the data model: page table and frame labels agree
    (but for the label [INVALID_PAGE_ID]); the free list has no frame twice,
    its frames hold no page and are not in the page table; the frames the
    policy may evict are frames of the pool. *)
Definition consistent (s : BPM) : Prop :=
  (∀ p f, page_table_ s !! p = Some f → label s f = Some p) ∧
  (∀ f p, label s f = Some p → p ≠ INVALID_PAGE_ID → page_table_ s !! p = Some f) ∧
  NoDup (free_list_ s) ∧
  (∀ f, f ∈ free_list_ s → label s f = Some INVALID_PAGE_ID) ∧
  (∀ p f, page_table_ s !! p = Some f → f ∉ free_list_ s) ∧
  (∀ f, f ∈ evictable (replacer_ s) → is_Some (label s f)).

(** The calls outside two situations: a fetch that has to evict and is given
    a clean victim, and a [NewPageImpl] when the disk's next page id is in
    the page table already. *)
Definition keeps_consistent (o : op) (s : BPM) : Prop :=
  match o with
  | OpFetch p =>
    page_table_ s !! p = None → free_list_ s = [] →
    ∀ f r, Victim (replacer_ s) = Some (f, r) → is_dirty_ (page_at s f) = true
  | OpNewPage => page_table_ s !! next_page_id_ (disk_manager_ s) = None
  | _ => True
  end.

(** Every call of a run is such a call, in the state it is made in. *)
Fixpoint keeps_consistent_run (os : list op) (s : BPM) : Prop :=
  match os with
  | [] => True
  | o :: os => keeps_consistent o s ∧ keeps_consistent_run os (step o s)
  end.

(** *** What the pool holds for a page *)

(** The bytes of page [q] as a caller of the manager sees them: those of
    its frame when the page table has the page, those in storage when it
    has not. *)
Definition content (s : BPM) (q : Z) : option (list byte) :=
  match page_table_ s !! q with
  | Some f => Some (data_ (page_at s f))
  | None => stored_ (disk_manager_ s) !! q
  end.

(** The invariants of the data model, with two more: [INVALID_PAGE_ID] is
    not in the page table, and a dirty frame is the frame of a page of the
    page table. *)
Definition sound (s : BPM) : Prop :=
  consistent s ∧ page_table_ s !! INVALID_PAGE_ID = None ∧
  (∀ f, is_dirty_ (page_at s f) = true → ∃ q, page_table_ s !! q = Some f).

(** The calls that keep the pool sound and pages intact: those of
    [keeps_consistent] that neither fetch nor allocate [INVALID_PAGE_ID],
    where the unmodified page a [NewPageImpl] evicts is as it is in storage. *)
Definition disciplined (o : op) (s : BPM) : Prop :=
  keeps_consistent o s ∧
  match o with
  | OpFetch p => p ≠ INVALID_PAGE_ID
  | OpNewPage =>
    next_page_id_ (disk_manager_ s) ≠ INVALID_PAGE_ID ∧
    (free_list_ s = [] → ∀ f r q, Victim (replacer_ s) = Some (f, r) →
       is_dirty_ (page_at s f) = false → page_table_ s !! q = Some f →
       stored_ (disk_manager_ s) !! q = Some (data_ (page_at s f)))
  | _ => True
  end.

(** The pages whose bytes a call is meant to change: the page whose frame
    the caller writes, the page deleted, the page allocated, and a page
    fetched that is neither in the pool nor in storage. *)
Definition touches (o : op) (s : BPM) (q : Z) : Prop :=
  match o with
  | OpFetch p => q = p ∧ content s q = None
  | OpNewPage => q = next_page_id_ (disk_manager_ s)
  | OpDelete p => q = p
  | OpWrite f _ => page_table_ s !! q = Some f
  | _ => False
  end.

(** A run of disciplined calls none of which touches page [q]. *)
Fixpoint leaves_alone (os : list op) (s : BPM) (q : Z) : Prop :=
  match os with
  | [] => True
  | o :: os => disciplined o s ∧ ¬ touches o s q ∧ leaves_alone os (step o s) q
  end.

(** A run of disciplined calls. *)
Fixpoint disciplined_run (os : list op) (s : BPM) : Prop :=
  match os with
  | [] => True
  | o :: os => disciplined o s ∧ disciplined_run os (step o s)
  end.

(** *** A page a caller holds *)

(** Page [p] is held in frame [f]: the page table sends [p], and no other
    page, to [f], which is labelled [p] as no other frame is; the pin count
    of [f] is positive, and [f] is neither eviction-eligible nor free. *)
Definition held_in (s : BPM) (p f : Z) : Prop :=
  page_table_ s !! p = Some f ∧ label s f = Some p ∧
  (∀ q, page_table_ s !! q = Some f → q = p) ∧
  (∀ g, label s g = Some p → g = f) ∧
  0 < pin_count_at s f ∧
  (f ∉ evictable (replacer_ s)) ∧ f ∉ free_list_ s.

End PolicyVocabulary.

(** *** The clock policy *)

(** The frames on the face of the clock. *)
Definition clock_set (c : ClockReplacer) : gset Z := list_to_set (c.*1).

(** How many reference flags are set: what bounds the sweep. *)
Definition flags_set (c : ClockReplacer) : nat := length (filter (λ e, snd e = true) c).

(** The pool of one frame under the clock policy, and three of its states:
    page 10 fetched; fetched and unpinned clean; fetched, written and
    unpinned dirty. *)
Definition clock_pool : BufferPoolManager ClockReplacer := pool1.
Definition held : BufferPoolManager ClockReplacer := run [OpFetch 10] clock_pool.
Definition released : BufferPoolManager ClockReplacer :=
  run [OpFetch 10; OpUnpin 10 false] clock_pool.
Definition modified : BufferPoolManager ClockReplacer :=
  run [OpFetch 10; OpWrite 0 written; OpUnpin 10 true] clock_pool.

(** Page 10 fetched and written, still pinned. *)
Definition edited : BufferPoolManager ClockReplacer :=
  run [OpFetch 10; OpWrite 0 written] clock_pool.

(** Page 10 fetched, written and unpinned dirty, evicted by a fetch of page
    11, and a new page allocated once page 11 is unpinned. *)
Definition dirty_round : list op :=
  [OpFetch 10; OpWrite 0 written; OpUnpin 10 true; OpFetch 11; OpUnpin 11 false; OpNewPage].

(** The calls that leave page 10 written and dirty, and a round after them
    that evicts it and the page loaded in its place. *)
Definition write_round : list op := [OpFetch 10; OpWrite 0 written; OpUnpin 10 true].
Definition evict_round : list op := [OpFetch 11; OpUnpin 11 false; OpNewPage].

(** A pool of two frames under the clock policy in which page 10 is held. *)
Definition pool2_held : BufferPoolManager ClockReplacer :=
  run [OpFetch 10] (BufferPoolManager_new 2 2 disk3).


(* ===================================================================== *)
(** * Properties *)
(* ===================================================================== *)

(** ** The frame array *)

Lemma frame_update_eq f g ps : frame (update_frame f g ps) f = g <$> frame ps f.
Proof.
  unfold frame, update_frame. destruct (0 <=? f); [|done].
  apply list_lookup_alter_eq.
Qed.

Lemma frame_update_ne f f' g ps : f ≠ f' → frame (update_frame f g ps) f' = frame ps f'.
Proof.
  intros Hne. unfold frame, update_frame.
  destruct (0 <=? f) eqn:Hf; [|done]. destruct (0 <=? f') eqn:Hf'; [|done].
  apply list_lookup_alter_ne. lia.
Qed.

Lemma frame_update f f' g ps :
  frame (update_frame f g ps) f' = if decide (f = f') then g <$> frame ps f' else frame ps f'.
Proof.
  case_decide; subst; auto using frame_update_eq, frame_update_ne.
Qed.

Lemma length_update_frame f g ps : length (update_frame f g ps) = length ps.
Proof. unfold update_frame. destruct (0 <=? f); [apply length_alter|done]. Qed.

Lemma frame_Some_range ps f pg : frame ps f = Some pg → 0 ≤ f < Z.of_nat (length ps).
Proof.
  unfold frame. destruct (Z.leb_spec 0 f); [|done].
  intros Hl%lookup_lt_Some. lia.
Qed.

Lemma frame_range_Some ps f : 0 ≤ f < Z.of_nat (length ps) → is_Some (frame ps f).
Proof.
  intros Hf. unfold frame. destruct (Z.leb_spec 0 f); [|lia].
  apply lookup_lt_is_Some. lia.
Qed.

Lemma Forall_update_frame (P : Page → Prop) f g ps :
  Forall P ps → (∀ pg, frame ps f = Some pg → P pg → P (g pg)) →
  Forall P (update_frame f g ps).
Proof.
  intros Hall Hg. unfold update_frame. destruct (0 <=? f) eqn:Hf; [|done].
  rewrite Forall_lookup in Hall |- *. intros i x.
  destruct (decide (Z.to_nat f = i)) as [<-|Hne].
  - rewrite list_lookup_alter_eq. destruct (ps !! Z.to_nat f) as [pg|] eqn:Hpg; [|done].
    intros [= <-]. apply Hg; [|eauto]. unfold frame. by rewrite Hf.
  - rewrite list_lookup_alter_ne by done. eauto.
Qed.

Lemma Forall_frame (P : Page → Prop) ps f pg : Forall P ps → frame ps f = Some pg → P pg.
Proof.
  intros Hall. unfold frame. destruct (0 <=? f); [|done].
  intros Hl. rewrite Forall_lookup in Hall. eauto.
Qed.

(** ** The clock policy meets the contract *)

Lemma clock_set_Pin f c : clock_set (clock_Pin f c) = clock_set c ∖ {[f]}.
Proof.
  unfold clock_set, clock_Pin. apply set_eq. intros x.
  rewrite elem_of_difference, !elem_of_list_to_set, !list_elem_of_fmap, not_elem_of_singleton.
  split.
  - intros ([y b] & -> & [Hne Hin]%list_elem_of_filter). split; [|done]. by exists (y, b).
  - intros [([y b] & -> & Hin) Hne]. exists (y, b). split; [done|].
    by apply list_elem_of_filter.
Qed.

Lemma clock_tracks_spec f c : clock_tracks f c = true ↔ f ∈ clock_set c.
Proof.
  unfold clock_tracks, clock_set. rewrite existsb_exists, elem_of_list_to_set, list_elem_of_fmap.
  split.
  - intros ([y b] & Hin%list_elem_of_In & Heq%Z.eqb_eq). simpl in Heq. subst.
    by exists (f, b).
  - intros ([y b] & -> & Hin). exists (y, b). split; [by apply list_elem_of_In|].
    apply Z.eqb_refl.
Qed.

Lemma clock_set_Unpin f c : clock_set (clock_Unpin f c) = clock_set c ∪ {[f]}.
Proof.
  unfold clock_Unpin. destruct (clock_tracks f c) eqn:Ht.
  - apply clock_tracks_spec in Ht.
    assert (((λ e : Z * bool, if fst e =? f then (fst e, true) else e) <$> c).*1 = c.*1) as Hfst.
    { clear Ht. induction c as [|[y b] c IH]; [done|].
      rewrite !fmap_cons, IH. simpl. by destruct (y =? f). }
    unfold clock_set in *. rewrite Hfst. set_solver.
  - unfold clock_set. rewrite fmap_app, list_to_set_app_L. simpl. set_solver.
Qed.

Lemma clock_sweep_Some n c f c' :
  clock_sweep n c = Some (f, c') → f ∈ clock_set c ∧ clock_set c' = clock_set c ∖ {[f]}.
Proof.
  revert c. induction n as [|n IH]; intros c; simpl; [done|].
  destruct c as [|[y [|]] rest]; [done| |].
  - intros Hs. apply IH in Hs. unfold clock_set in *.
    rewrite fmap_app, list_to_set_app_L in Hs. simpl in *. set_solver.
  - intros [= <- <-]. rewrite clock_set_Pin. unfold clock_set. simpl. set_solver.
Qed.

Lemma clock_sweep_finds n c : c ≠ [] → (flags_set c < n)%nat → is_Some (clock_sweep n c).
Proof.
  revert c. induction n as [|n IH]; intros c Hc Hlt; [lia|]. cbn [clock_sweep].
  destruct c as [|[y [|]] rest]; [done| |eauto].
  apply IH; [by destruct rest|].
  unfold flags_set in *. rewrite filter_app, length_app.
  rewrite filter_cons_True in Hlt by done.
  rewrite filter_cons_False by (simpl; congruence). rewrite filter_nil.
  cbn [length] in *. lia.
Qed.

Lemma clock_Victim_None c : clock_Victim c = None ↔ clock_set c = ∅.
Proof.
  split.
  - intros Hn. destruct c as [|e c]; [done|]. exfalso.
    assert (is_Some (clock_Victim (e :: c))) as [x Hx]; [|congruence].
    apply clock_sweep_finds; [done|].
    unfold flags_set. pose proof (length_filter (λ e : Z * bool, snd e = true) (e :: c)). lia.
  - destruct c as [|[y b] c]; [done|]. unfold clock_set. simpl. set_solver.
Qed.

#[export] Instance Clock_contract : ReplacerContract ClockReplacer := {
  evictable := clock_set;
  evictable_new := λ _, eq_refl;
  evictable_Pin := clock_set_Pin;
  evictable_Unpin := clock_set_Unpin;
  Victim_None := clock_Victim_None;
  Victim_Some := λ r f r', clock_sweep_Some (S (length r)) r f r'
}.

(** ** Reading and writing frames of the manager *)

(** Projections of a state built by the setters. *)
Ltac bpm_proj :=
  cbn [pages_ disk_manager_ page_table_ replacer_ free_list_ marks_ with_page
       set_pages set_disk set_table set_replacer set_free replacer_Pin replacer_Unpin
       fst snd] in *.

Section Properties.
Context {R : Type} `{Replacer R}.

Local Abbreviation BPM := (BufferPoolManager R).

Lemma page_at_frame (s : BPM) f pg : frame (pages_ s) f = Some pg → page_at s f = pg.
Proof. unfold page_at. by intros ->. Qed.

Lemma page_at_with_page_ne (s : BPM) f f' g : f ≠ f' → page_at (with_page f g s) f' = page_at s f'.
Proof. intros Hne. unfold page_at. simpl. by rewrite frame_update_ne. Qed.

Lemma page_at_with_page_eq (s : BPM) f g pg :
  frame (pages_ s) f = Some pg → page_at (with_page f g s) f = g pg.
Proof. intros Hf. unfold page_at. simpl. by rewrite frame_update_eq, Hf. Qed.

Lemma page_at_with_page_None (s : BPM) f f' g :
  frame (pages_ s) f = None → page_at (with_page f g s) f' = page_at s f'.
Proof.
  intros Hf. unfold page_at. simpl. rewrite frame_update.
  case_decide; [subst; by rewrite Hf|done].
Qed.

(** A property of a frame's metadata that [g] does not disturb survives
    [with_page]. *)
Lemma page_at_with_page_proj {A} (π : Page → A) (s : BPM) f f' g :
  (∀ pg, π (g pg) = π pg) → π (page_at (with_page f g s) f') = π (page_at s f').
Proof.
  intros Hg. unfold page_at. simpl. rewrite frame_update.
  case_decide; [|done]. destruct (frame (pages_ s) f'); simpl; auto.
Qed.

(** ** Fetching a resident page *)

(** C10: a page-table hit in [FetchPageImpl] makes no call on storage and
    leaves the page table, the free list, every other frame and this frame's
    bytes, page id and dirty flag as they were; it adds one to this frame's
    pin count and makes one [Pin] call on the policy. *)
Theorem FetchPageImpl_hit_frame (s : BPM) (p f : Z) :
  page_table_ s !! p = Some f →
  ∃ s', FetchPageImpl p s = (Some f, s') ∧
    disk_manager_ s' = disk_manager_ s ∧
    page_table_ s' = page_table_ s ∧
    free_list_ s' = free_list_ s ∧
    frame (pages_ s') f =
      (λ pg, mkPage (data_ pg) (page_id_ pg) (pin_count_ pg + 1) (is_dirty_ pg))
        <$> frame (pages_ s) f ∧
    (∀ g, g ≠ f → frame (pages_ s') g = frame (pages_ s) g) ∧
    length (pages_ s') = length (pages_ s) ∧
    replacer_ s' = Pin p (replacer_ s) ∧
    marks_ s' = marks_ s ++ [CallPin p].
Proof.
  intros Hp. unfold FetchPageImpl. rewrite Hp. eexists. split; [reflexivity|].
  simpl. repeat split.
  - apply frame_update_eq.
  - intros g Hg. by apply frame_update_ne.
  - apply length_update_frame.
Qed.

(** ** Unpinning *)

Lemma UnpinPageImpl_absent (s : BPM) p d :
  page_table_ s !! p = None → UnpinPageImpl p d s = (false, s).
Proof. intros Hp. unfold UnpinPageImpl. by rewrite Hp. Qed.

Lemma UnpinPageImpl_zero (s : BPM) p d f pg :
  page_table_ s !! p = Some f → frame (pages_ s) f = Some pg → pin_count_ pg = 0 →
  UnpinPageImpl p d s = (false, s).
Proof.
  intros Hp Hf H0. unfold UnpinPageImpl. rewrite Hp.
  rewrite (page_at_frame _ _ _ Hf). unfold GetPinCount. by rewrite H0.
Qed.

Lemma UnpinPageImpl_pinned (s : BPM) p d f pg :
  page_table_ s !! p = Some f → frame (pages_ s) f = Some pg → pin_count_ pg ≠ 0 →
  ∃ s', UnpinPageImpl p d s = (true, s') ∧
    frame (pages_ s') f =
      Some (mkPage (data_ pg) (page_id_ pg) (pin_count_ pg - 1) (is_dirty_ pg || d)) ∧
    (∀ g, g ≠ f → frame (pages_ s') g = frame (pages_ s) g) ∧
    page_table_ s' = page_table_ s ∧
    free_list_ s' = free_list_ s ∧
    disk_manager_ s' = disk_manager_ s ∧
    (if decide (pin_count_ pg = 1)
     then replacer_ s' = Unpin f (replacer_ s) ∧ marks_ s' = marks_ s ++ [CallUnpin f]
     else replacer_ s' = replacer_ s ∧ marks_ s' = marks_ s).
Proof.
  intros Hp Hf Hn. unfold UnpinPageImpl. rewrite Hp.
  rewrite (page_at_frame _ _ _ Hf). unfold GetPinCount.
  destruct (Z.eqb_spec (pin_count_ pg) 0) as [|_]; [done|].
  eexists. split; [reflexivity|].
  set (s1 := with_page f _ s).
  assert (frame (pages_ s1) f = Some (set_pin_count (pin_count_ pg - 1) pg)) as Hf1.
  { subst s1. bpm_proj. by rewrite frame_update_eq, Hf. }
  set (s2 := with_page f _ s1).
  assert (frame (pages_ s2) f =
          Some (mkPage (data_ pg) (page_id_ pg) (pin_count_ pg - 1) (is_dirty_ pg || d))) as Hf2.
  { subst s2. bpm_proj. by rewrite frame_update_eq, Hf1. }
  assert (∀ g, g ≠ f → frame (pages_ s2) g = frame (pages_ s) g) as Hother.
  { intros g Hg. subst s2 s1. bpm_proj. by rewrite !frame_update_ne. }
  rewrite (page_at_frame _ _ _ Hf2). simpl.
  destruct (Z.eqb_spec (pin_count_ pg - 1) 0) as [Hz|Hz].
  - simpl. repeat split; try done. case_decide; [done|lia].
  - repeat split; try done. case_decide; [lia|done].
Qed.

Lemma UnpinPageImpl_pins_nonneg (s : BPM) p d :
  pins_nonneg s → pins_nonneg (snd (UnpinPageImpl p d s)).
Proof.
  intros Hs. unfold UnpinPageImpl.
  destruct (page_table_ s !! p) as [f|]; [|done].
  destruct (Z.eqb_spec (GetPinCount (page_at s f)) 0) as [|Hn]; [done|].
  assert (pins_nonneg
    (with_page f (λ pg, set_is_dirty (is_dirty_ pg || d) pg)
       (with_page f (λ pg, set_pin_count (pin_count_ pg - 1) pg) s))) as Hpins.
  { unfold pins_nonneg. simpl. apply Forall_update_frame; [|done].
    apply Forall_update_frame; [done|]. intros pg Hpg Hge. simpl.
    rewrite (page_at_frame _ _ _ Hpg) in Hn. unfold GetPinCount in Hn. lia. }
  simpl. by destruct (GetPinCount _ =? 0).
Qed.

(** ** Flushing *)

Lemma FlushPage_absent (s : BPM) p :
  page_table_ s !! p = None → FlushPageImplWithoutLock p s = (false, s).
Proof. intros Hp. unfold FlushPageImplWithoutLock. by rewrite Hp. Qed.

Lemma FlushPage_clean (s : BPM) p f :
  page_table_ s !! p = Some f → is_dirty_ (page_at s f) = false →
  FlushPageImplWithoutLock p s = (true, s).
Proof.
  intros Hp Hd. unfold FlushPageImplWithoutLock, IsDirty. by rewrite Hp, Hd.
Qed.

Lemma FlushPage_dirty (s : BPM) p f :
  page_table_ s !! p = Some f → is_dirty_ (page_at s f) = true →
  FlushPageImplWithoutLock p s =
    (true, with_page f (set_is_dirty false)
             (set_disk (WritePage p (data_ (page_at s f)) (disk_manager_ s)) s)).
Proof.
  intros Hp Hd. unfold FlushPageImplWithoutLock, IsDirty. by rewrite Hp, Hd.
Qed.

(** Whatever its argument, a flush changes no more than one dirty flag and
    the disk. *)
Lemma FlushPage_shape (s : BPM) p :
  let s' := snd (FlushPageImplWithoutLock p s) in
  page_table_ s' = page_table_ s ∧ free_list_ s' = free_list_ s ∧
  replacer_ s' = replacer_ s ∧ marks_ s' = marks_ s ∧
  (pages_ s' = pages_ s ∨
   ∃ f, page_table_ s !! p = Some f ∧ pages_ s' = update_frame f (set_is_dirty false) (pages_ s)).
Proof.
  unfold FlushPageImplWithoutLock.
  destruct (page_table_ s !! p) as [f|]; [|simpl; auto 10].
  destruct (IsDirty (page_at s f)); simpl; eauto 10.
Qed.

Lemma FlushPage_page_at {A} (π : Page → A) (s : BPM) p f :
  (∀ b pg, π (set_is_dirty b pg) = π pg) →
  π (page_at (snd (FlushPageImplWithoutLock p s)) f) = π (page_at s f).
Proof.
  intros Hπ. destruct (FlushPage_shape s p) as (_ & _ & _ & _ & [Hpg|(f' & _ & Hpg)]);
    unfold page_at; rewrite Hpg; [done|].
  rewrite frame_update. case_decide; [|done]. destruct (frame (pages_ s) f); simpl; auto.
Qed.

Lemma FlushPage_length (s : BPM) p :
  length (pages_ (snd (FlushPageImplWithoutLock p s))) = length (pages_ s).
Proof.
  destruct (FlushPage_shape s p) as (_ & _ & _ & _ & [Hpg|(f' & _ & Hpg)]); rewrite Hpg;
    [done|apply length_update_frame].
Qed.

(** Flushing never sets a dirty flag. *)
Lemma FlushPage_dirty_mono (s : BPM) p f :
  is_dirty_ (page_at s f) = false →
  is_dirty_ (page_at (snd (FlushPageImplWithoutLock p s)) f) = false.
Proof.
  intros Hc. destruct (FlushPage_shape s p) as (_ & _ & _ & _ & [Hpg|(f' & _ & Hpg)]);
    unfold page_at in *; rewrite Hpg; [done|].
  rewrite frame_update. case_decide; [|done]. by destruct (frame (pages_ s) f).
Qed.

(** After a flush of [p] the frame the page table gives for [p] is clean. *)
Lemma FlushPage_cleans (s : BPM) p f :
  page_table_ s !! p = Some f →
  is_dirty_ (page_at (snd (FlushPageImplWithoutLock p s)) f) = false.
Proof.
  intros Hp. destruct (is_dirty_ (page_at s f)) eqn:Hd.
  - rewrite (FlushPage_dirty _ _ _ Hp Hd). unfold page_at. bpm_proj.
    rewrite frame_update_eq. by destruct (frame (pages_ s) f).
  - by rewrite (FlushPage_clean _ _ _ Hp Hd).
Qed.

Lemma FlushPage_idem (s : BPM) p :
  FlushPageImplWithoutLock p (snd (FlushPageImplWithoutLock p s)) =
  (fst (FlushPageImplWithoutLock p s), snd (FlushPageImplWithoutLock p s)).
Proof.
  destruct (page_table_ s !! p) as [f|] eqn:Hp.
  - pose proof (FlushPage_cleans s p f Hp) as Hc.
    destruct (FlushPage_shape s p) as (Ht & _).
    rewrite (FlushPage_clean _ p f); [|by rewrite Ht|done].
    f_equal. unfold FlushPageImplWithoutLock. rewrite Hp. by destruct (IsDirty _).
  - rewrite (FlushPage_absent _ _ Hp). simpl. by rewrite (FlushPage_absent _ _ Hp).
Qed.

(** *** The sweep of [FlushAllPagesImpl] *)

Lemma FlushAll_from_S n i (s : BPM) :
  FlushAll_from (S n) i s = FlushAll_from n (i + 1) (FlushAll_body i s).
Proof. reflexivity. Qed.

Lemma FlushAll_body_settled_noop i (s : BPM) :
  settled s (page_id_ (page_at s i)) → FlushAll_body i s = s.
Proof.
  unfold settled, FlushAll_body. intros [->|Hs]; [done|].
  destruct (Z.eqb_spec (page_id_ (page_at s i)) INVALID_PAGE_ID); [done|].
  destruct (page_table_ s !! page_id_ (page_at s i)) as [f|] eqn:Hp.
  - by rewrite (FlushPage_clean _ _ _ Hp Hs).
  - by rewrite (FlushPage_absent _ _ Hp).
Qed.

Lemma FlushAll_body_page_id i j (s : BPM) :
  page_id_ (page_at (FlushAll_body i s) j) = page_id_ (page_at s j).
Proof.
  unfold FlushAll_body. destruct (_ =? _); [done|].
  by apply (FlushPage_page_at page_id_).
Qed.

Lemma FlushAll_body_table i (s : BPM) :
  page_table_ (FlushAll_body i s) = page_table_ s.
Proof.
  unfold FlushAll_body. destruct (_ =? _); [done|]. apply FlushPage_shape.
Qed.

Lemma FlushAll_body_keeps i (s : BPM) q : settled s q → settled (FlushAll_body i s) q.
Proof.
  unfold settled. intros [->|Hs]; [by left|right].
  rewrite FlushAll_body_table. destruct (page_table_ s !! q) as [f|]; [|done].
  unfold FlushAll_body. destruct (_ =? _); [done|]. by apply FlushPage_dirty_mono.
Qed.

Lemma FlushAll_body_settles i (s : BPM) :
  settled (FlushAll_body i s) (page_id_ (page_at s i)).
Proof.
  unfold settled. destruct (Z.eqb_spec (page_id_ (page_at s i)) INVALID_PAGE_ID) as [|Hne];
    [by left|right].
  rewrite FlushAll_body_table.
  destruct (page_table_ s !! page_id_ (page_at s i)) as [f|] eqn:Hp; [|done].
  unfold FlushAll_body. destruct (Z.eqb_spec (page_id_ (page_at s i)) INVALID_PAGE_ID); [done|].
  by apply FlushPage_cleans.
Qed.

Lemma FlushAll_from_page_id n i j (s : BPM) :
  page_id_ (page_at (FlushAll_from n i s) j) = page_id_ (page_at s j).
Proof.
  revert i s. induction n as [|n IH]; intros i s; [done|].
  by rewrite FlushAll_from_S, IH, FlushAll_body_page_id.
Qed.

Lemma FlushAll_from_keeps n i (s : BPM) q : settled s q → settled (FlushAll_from n i s) q.
Proof.
  revert i s. induction n as [|n IH]; intros i s Hs; [done|].
  rewrite FlushAll_from_S. by apply IH, FlushAll_body_keeps.
Qed.

Lemma FlushAll_from_settles n i (s : BPM) j :
  i ≤ j < i + Z.of_nat n → settled (FlushAll_from n i s) (page_id_ (page_at s j)).
Proof.
  revert i s. induction n as [|n IH]; intros i s Hj; [lia|].
  rewrite FlushAll_from_S. destruct (decide (j = i)) as [->|Hne].
  - apply FlushAll_from_keeps, FlushAll_body_settles.
  - rewrite <- (FlushAll_body_page_id i j). apply IH. lia.
Qed.

Lemma FlushAll_from_noop n i (s : BPM) :
  (∀ j, i ≤ j < i + Z.of_nat n → settled s (page_id_ (page_at s j))) →
  FlushAll_from n i s = s.
Proof.
  revert i. induction n as [|n IH]; intros i Hall; [done|].
  rewrite FlushAll_from_S, FlushAll_body_settled_noop by (apply Hall; lia).
  apply IH. intros j Hj. apply Hall. lia.
Qed.

Lemma FlushAll_from_length n i (s : BPM) :
  length (pages_ (FlushAll_from n i s)) = length (pages_ s).
Proof.
  revert i s. induction n as [|n IH]; intros i s; [done|].
  rewrite FlushAll_from_S, IH. unfold FlushAll_body. destruct (_ =? _); [done|].
  apply FlushPage_length.
Qed.

Lemma FlushAllPagesImpl_idem (s : BPM) :
  FlushAllPagesImpl (FlushAllPagesImpl s) = FlushAllPagesImpl s.
Proof.
  unfold FlushAllPagesImpl, pool_size_ at 1. rewrite FlushAll_from_length.
  apply FlushAll_from_noop. intros j Hj.
  rewrite FlushAll_from_page_id. by apply FlushAll_from_settles.
Qed.

(** C7: a flush of a resident page writes the frame's bytes under the page's id
    and clears the dirty flag when the frame is dirty, and does nothing when
    it is clean; flushing twice is flushing once; and a second
    [FlushAllPagesImpl] in a row changes nothing, so it calls the disk not at
    all. *)
Theorem FlushPageImpl_spec (s : BPM) (p : Z) :
  (page_table_ s !! p = None → FlushPageImpl p s = (false, s)) ∧
  (∀ f pg, page_table_ s !! p = Some f → frame (pages_ s) f = Some pg →
     is_dirty_ pg = true →
     ∃ s', FlushPageImpl p s = (true, s') ∧
       disk_manager_ s' = WritePage p (data_ pg) (disk_manager_ s) ∧
       frame (pages_ s') f = Some (set_is_dirty false pg) ∧
       (∀ g, g ≠ f → frame (pages_ s') g = frame (pages_ s) g) ∧
       page_table_ s' = page_table_ s ∧ free_list_ s' = free_list_ s ∧
       replacer_ s' = replacer_ s ∧ marks_ s' = marks_ s) ∧
  (∀ f pg, page_table_ s !! p = Some f → frame (pages_ s) f = Some pg →
     is_dirty_ pg = false → FlushPageImpl p s = (true, s)) ∧
  snd (FlushPageImpl p (snd (FlushPageImpl p s))) = snd (FlushPageImpl p s) ∧
  FlushAllPagesImpl (FlushAllPagesImpl s) = FlushAllPagesImpl s ∧
  calls_ (disk_manager_ (FlushAllPagesImpl (FlushAllPagesImpl s))) =
    calls_ (disk_manager_ (FlushAllPagesImpl s)).
Proof.
  unfold FlushPageImpl. repeat split.
  - apply FlushPage_absent.
  - intros f pg Hp Hf Hd. pose proof (page_at_frame _ _ _ Hf) as Hat.
    rewrite (FlushPage_dirty _ _ _ Hp) by (by rewrite Hat).
    eexists. split; [reflexivity|]. bpm_proj. rewrite Hat. repeat split.
    + by rewrite frame_update_eq, Hf.
    + intros g Hg. by rewrite frame_update_ne.
  - intros f pg Hp Hf Hd. apply (FlushPage_clean _ _ f Hp).
    by rewrite (page_at_frame _ _ _ Hf).
  - by rewrite FlushPage_idem.
  - apply FlushAllPagesImpl_idem.
  - by rewrite FlushAllPagesImpl_idem.
Qed.

(** ** Deleting *)

(** C6: [DeletePageImpl] succeeds and changes nothing for an id that is not in
    the page table; fails and changes nothing when the page's frame is
    pinned; and otherwise erases the entry, zeroes the frame and resets its
    metadata, puts the frame at the back of the free list and calls
    [DeallocatePage] for the id. *)
Theorem DeletePageImpl_spec (s : BPM) (p : Z) :
  (page_table_ s !! p = None → DeletePageImpl p s = (true, s)) ∧
  (∀ f pg, page_table_ s !! p = Some f → frame (pages_ s) f = Some pg →
     0 < pin_count_ pg → DeletePageImpl p s = (false, s)) ∧
  (∀ f pg, page_table_ s !! p = Some f → frame (pages_ s) f = Some pg →
     pin_count_ pg ≤ 0 →
     ∃ s', DeletePageImpl p s = (true, s') ∧
       page_table_ s' = delete p (page_table_ s) ∧
       frame (pages_ s') f =
         Some (mkPage (zeroed (length (data_ pg))) INVALID_PAGE_ID 0 false) ∧
       (∀ g, g ≠ f → frame (pages_ s') g = frame (pages_ s) g) ∧
       free_list_ s' = free_list_ s ++ [f] ∧
       disk_manager_ s' = DeallocatePage p (disk_manager_ s) ∧
       calls_ (disk_manager_ s') = calls_ (disk_manager_ s) ++ [CallDeallocatePage p] ∧
       replacer_ s' = replacer_ s ∧ marks_ s' = marks_ s).
Proof.
  unfold DeletePageImpl. repeat split.
  - by intros ->.
  - intros f pg -> Hf Hpin. rewrite (page_at_frame _ _ _ Hf). unfold GetPinCount.
    by destruct (Z.ltb_spec 0 (pin_count_ pg)); [|lia].
  - intros f pg -> Hf Hpin. rewrite (page_at_frame _ _ _ Hf). unfold GetPinCount.
    destruct (Z.ltb_spec 0 (pin_count_ pg)); [lia|].
    eexists. split; [reflexivity|]. bpm_proj. repeat split.
    + by rewrite !frame_update_eq, Hf.
    + intros g Hg. by rewrite !frame_update_ne.
Qed.

(** ** Pin counts along a run *)

Lemma pins_with_page (s : BPM) f g :
  pins_nonneg s →
  (∀ pg, frame (pages_ s) f = Some pg → 0 ≤ pin_count_ pg → 0 ≤ pin_count_ (g pg)) →
  pins_nonneg (with_page f g s).
Proof. intros Hs Hg. unfold pins_nonneg. bpm_proj. by apply Forall_update_frame. Qed.

Lemma FlushPage_pins_nonneg (s : BPM) p :
  pins_nonneg s → pins_nonneg (snd (FlushPageImplWithoutLock p s)).
Proof.
  intros Hs. unfold pins_nonneg.
  destruct (FlushPage_shape s p) as (_ & _ & _ & _ & [->|(f & _ & ->)]); [done|].
  by apply Forall_update_frame.
Qed.

Lemma FetchPageImpl_pins_nonneg (s : BPM) p :
  pins_nonneg s → pins_nonneg (snd (FetchPageImpl p s)).
Proof.
  intros Hs. unfold FetchPageImpl.
  destruct (page_table_ s !! p) as [f|].
  { bpm_proj. unfold pins_nonneg. bpm_proj. apply Forall_update_frame; [done|].
    intros pg _ Hpg. simpl. lia. }
  assert (∀ f (s1 : BPM), pins_nonneg s1 →
    pins_nonneg (snd (let s2 :=
        if IsDirty (page_at s1 f) then
          let pageIdToDelete := GetPageId (page_at s1 f) in
          let s' := snd (FlushPageImplWithoutLock pageIdToDelete s1) in
          set_table (delete pageIdToDelete (page_table_ s')) s'
        else s1 in
      let s3 := with_page f ResetMemory s2 in
      let s4 := with_page f (set_page_id p) s3 in
      let s5 := with_page f (set_is_dirty false) s4 in
      let s6 := with_page f (set_pin_count 1) s5 in
      let '(buf, dm) := ReadPage p (GetData (page_at s6 f)) (disk_manager_ s6) in
      let s7 := with_page f (set_data buf) (set_disk dm s6) in
      (Some f, set_table (table_insert p f (page_table_ s7)) s7)))) as Hmiss.
  { intros f s1 Hs1. cbv zeta. unfold ReadPage. bpm_proj. unfold pins_nonneg. bpm_proj.
    repeat (apply Forall_update_frame; [|simpl; intros; lia]).
    destruct (IsDirty (page_at s1 f)); [|done]. bpm_proj.
    by apply FlushPage_pins_nonneg. }
  destruct (free_list_ s) as [|f rest].
  - destruct (Victim (replacer_ s)) as [[f r]|]; [|done]. by apply Hmiss.
  - by apply Hmiss.
Qed.

Lemma NewPageImpl_pins_nonneg (s : BPM) :
  pins_nonneg s → pins_nonneg (snd (NewPageImpl s)).
Proof.
  intros Hs. unfold NewPageImpl.
  assert (∀ f (s3 : BPM), pins_nonneg s3 →
    pins_nonneg (snd (
      let '(page_id, dm) := AllocatePage (disk_manager_ s3) in
      let s4 := set_disk dm s3 in
      let s5 := with_page f ResetMemory s4 in
      let s6 := with_page f (set_page_id page_id) s5 in
      let s7 := with_page f (set_pin_count 1) s6 in
      (Some (page_id, f), set_table (table_insert page_id f (page_table_ s7)) s7)))) as Hrest.
  { intros f s3 Hs3. unfold AllocatePage. cbv zeta. bpm_proj. unfold pins_nonneg. bpm_proj.
    by repeat (apply Forall_update_frame; [|simpl; intros; lia]). }
  destruct (free_list_ s) as [|f rest]; [|by apply Hrest].
  destruct (Victim (replacer_ s)) as [[f r]|]; [|done].
  apply Hrest. unfold pins_nonneg. bpm_proj.
  destruct (is_dirty_ _); [|done]. by apply FlushPage_pins_nonneg.
Qed.

Lemma DeletePageImpl_pins_nonneg (s : BPM) p :
  pins_nonneg s → pins_nonneg (snd (DeletePageImpl p s)).
Proof.
  intros Hs. unfold DeletePageImpl.
  destruct (page_table_ s !! p) as [f|]; [|done].
  destruct (0 <? _); [done|]. unfold pins_nonneg. bpm_proj.
  by repeat (apply Forall_update_frame; [|simpl; intros; lia]).
Qed.

Lemma FlushAll_from_pins_nonneg n i (s : BPM) :
  pins_nonneg s → pins_nonneg (FlushAll_from n i s).
Proof.
  revert i s. induction n as [|n IH]; intros i s Hs; [done|].
  rewrite FlushAll_from_S. apply IH. unfold FlushAll_body.
  destruct (_ =? _); [done|]. by apply FlushPage_pins_nonneg.
Qed.

Lemma step_pins_nonneg o (s : BPM) : pins_nonneg s → pins_nonneg (step o s).
Proof.
  intros Hs. destruct o; simpl.
  - by apply FetchPageImpl_pins_nonneg.
  - by apply UnpinPageImpl_pins_nonneg.
  - by apply FlushPage_pins_nonneg.
  - by apply FlushAll_from_pins_nonneg.
  - by apply NewPageImpl_pins_nonneg.
  - by apply DeletePageImpl_pins_nonneg.
  - by apply pins_with_page.
Qed.

Lemma run_invariant (P : BPM → Prop) os (s : BPM) :
  (∀ o s, P s → P (step o s)) → P s → P (run os s).
Proof.
  intros Hstep. revert s. induction os as [|o os IH]; intros s Hs; [done|].
  simpl. apply IH, Hstep, Hs.
Qed.

Lemma new_pins_nonneg n k dm : pins_nonneg (BufferPoolManager_new n k dm).
Proof. unfold pins_nonneg. simpl. by apply Forall_replicate. Qed.

Lemma reachable_pins_nonneg (s : BPM) : reachable s → pins_nonneg s.
Proof.
  intros (n & k & dm & os & ->).
  apply run_invariant; [apply step_pins_nonneg|apply new_pins_nonneg].
Qed.

(** C5: [UnpinPageImpl] fails and changes nothing for an id that is not in the
    page table or whose frame has pin count zero; otherwise it takes one off
    the pin count, ors the dirty flag with the caller's, and calls the
    policy's [Unpin] for the frame exactly when the count has come to zero.
    In no reachable state is a pin count negative. *)
Theorem UnpinPageImpl_spec (s : BPM) (p : Z) (d : bool) :
  (page_table_ s !! p = None → UnpinPageImpl p d s = (false, s)) ∧
  (∀ f pg, page_table_ s !! p = Some f → frame (pages_ s) f = Some pg →
     pin_count_ pg = 0 → UnpinPageImpl p d s = (false, s)) ∧
  (∀ f pg, page_table_ s !! p = Some f → frame (pages_ s) f = Some pg →
     pin_count_ pg ≠ 0 →
     ∃ s', UnpinPageImpl p d s = (true, s') ∧
       frame (pages_ s') f =
         Some (mkPage (data_ pg) (page_id_ pg) (pin_count_ pg - 1) (is_dirty_ pg || d)) ∧
       (∀ g, g ≠ f → frame (pages_ s') g = frame (pages_ s) g) ∧
       page_table_ s' = page_table_ s ∧
       free_list_ s' = free_list_ s ∧
       disk_manager_ s' = disk_manager_ s ∧
       (if decide (pin_count_ pg = 1)
        then replacer_ s' = Unpin f (replacer_ s) ∧ marks_ s' = marks_ s ++ [CallUnpin f]
        else replacer_ s' = replacer_ s ∧ marks_ s' = marks_ s)) ∧
  (reachable s → ∀ f pg, frame (pages_ s) f = Some pg → 0 ≤ pin_count_ pg).
Proof.
  split; [apply UnpinPageImpl_absent|].
  split; [apply UnpinPageImpl_zero|].
  split; [apply UnpinPageImpl_pinned|].
  intros Hr f pg Hf. apply reachable_pins_nonneg in Hr.
  by apply (Forall_frame _ _ _ _ Hr Hf).
Qed.

(** ** The miss path of [FetchPageImpl] and [NewPageImpl], in stages *)

Lemma FetchPageImpl_hit (s : BPM) p f :
  page_table_ s !! p = Some f →
  FetchPageImpl p s =
    (Some f, replacer_Pin p (with_page f (λ pg, set_pin_count (pin_count_ pg + 1) pg) s)).
Proof. intros Hp. unfold FetchPageImpl. by rewrite Hp. Qed.

Lemma FetchPageImpl_free (s : BPM) p f rest :
  page_table_ s !! p = None → free_list_ s = f :: rest →
  FetchPageImpl p s = (Some f, fetch_load p f (fetch_write_back f (set_free rest s))).
Proof. intros Hp Hfree. unfold FetchPageImpl. by rewrite Hp, Hfree. Qed.

Lemma FetchPageImpl_victim (s : BPM) p f r :
  page_table_ s !! p = None → free_list_ s = [] → Victim (replacer_ s) = Some (f, r) →
  FetchPageImpl p s = (Some f, fetch_load p f (fetch_write_back f (set_replacer r s))).
Proof. intros Hp Hfree Hv. unfold FetchPageImpl. by rewrite Hp, Hfree, Hv. Qed.

Lemma FetchPageImpl_exhausted (s : BPM) p :
  page_table_ s !! p = None → free_list_ s = [] → Victim (replacer_ s) = None →
  FetchPageImpl p s = (None, s).
Proof. intros Hp Hfree Hv. unfold FetchPageImpl. by rewrite Hp, Hfree, Hv. Qed.

Lemma NewPageImpl_free (s : BPM) f rest :
  free_list_ s = f :: rest →
  NewPageImpl s = (Some (next_page_id_ (disk_manager_ s), f), new_install f (set_free rest s)).
Proof. intros Hfree. unfold NewPageImpl. by rewrite Hfree. Qed.

Lemma NewPageImpl_victim (s : BPM) f r :
  free_list_ s = [] → Victim (replacer_ s) = Some (f, r) →
  NewPageImpl s =
    (Some (next_page_id_ (disk_manager_ (new_write_back f (set_replacer r s))), f),
     new_install f (new_write_back f (set_replacer r s))).
Proof. intros Hfree Hv. unfold NewPageImpl. by rewrite Hfree, Hv. Qed.

Lemma NewPageImpl_exhausted (s : BPM) :
  free_list_ s = [] → Victim (replacer_ s) = None → NewPageImpl s = (None, s).
Proof. intros Hfree Hv. unfold NewPageImpl. by rewrite Hfree, Hv. Qed.

(** What the stages leave alone, and what they do to the frames. *)

Lemma fetch_write_back_shape f (s1 : BPM) :
  let s2 := fetch_write_back f s1 in
  free_list_ s2 = free_list_ s1 ∧ replacer_ s2 = replacer_ s1 ∧ marks_ s2 = marks_ s1 ∧
  (page_table_ s2 = page_table_ s1 ∨
   page_table_ s2 = delete (page_id_ (page_at s1 f)) (page_table_ s1)) ∧
  (pages_ s2 = pages_ s1 ∨
   ∃ f', pages_ s2 = update_frame f' (set_is_dirty false) (pages_ s1)).
Proof.
  unfold fetch_write_back. destruct (IsDirty (page_at s1 f)); [|simpl; auto 10].
  cbv zeta. bpm_proj. unfold GetPageId.
  destruct (FlushPage_shape s1 (page_id_ (page_at s1 f)))
    as (-> & -> & -> & -> & [->|(f' & _ & ->)]); eauto 10.
Qed.

Lemma new_write_back_shape f (s1 : BPM) :
  let s2 := new_write_back f s1 in
  free_list_ s2 = free_list_ s1 ∧ replacer_ s2 = replacer_ s1 ∧ marks_ s2 = marks_ s1 ∧
  page_table_ s2 = delete (page_id_ (page_at s1 f)) (page_table_ s1) ∧
  (pages_ s2 = pages_ s1 ∨
   ∃ f', pages_ s2 = update_frame f' (set_is_dirty false) (pages_ s1)).
Proof.
  unfold new_write_back. cbv zeta. bpm_proj. unfold GetPageId.
  destruct (is_dirty_ (page_at s1 f)); [|simpl; auto 10].
  destruct (FlushPage_shape s1 (page_id_ (page_at s1 f)))
    as (-> & -> & -> & -> & [->|(f' & _ & ->)]); eauto 10.
Qed.

Lemma fetch_load_shape p f (s2 : BPM) :
  let s' := fetch_load p f s2 in
  free_list_ s' = free_list_ s2 ∧ replacer_ s' = replacer_ s2 ∧ marks_ s' = marks_ s2 ∧
  page_table_ s' = table_insert p f (page_table_ s2) ∧
  stored_ (disk_manager_ s') = stored_ (disk_manager_ s2) ∧
  next_page_id_ (disk_manager_ s') = next_page_id_ (disk_manager_ s2) ∧
  calls_ (disk_manager_ s') = calls_ (disk_manager_ s2) ++ [CallReadPage p] ∧
  frame (pages_ s') f =
    (λ pg, mkPage (default (zeroed (length (data_ pg))) (stored_ (disk_manager_ s2) !! p))
                  p 1 false) <$> frame (pages_ s2) f ∧
  (∀ g, g ≠ f → frame (pages_ s') g = frame (pages_ s2) g).
Proof.
  unfold fetch_load, ReadPage. cbv zeta. bpm_proj. repeat split.
  - unfold page_at, GetData. bpm_proj. rewrite !frame_update_eq.
    by destruct (frame (pages_ s2) f).
  - intros g Hg. by rewrite !frame_update_ne.
Qed.

Lemma new_install_shape f (s3 : BPM) :
  let s' := new_install f s3 in
  let id := next_page_id_ (disk_manager_ s3) in
  free_list_ s' = free_list_ s3 ∧ replacer_ s' = replacer_ s3 ∧ marks_ s' = marks_ s3 ∧
  page_table_ s' = table_insert id f (page_table_ s3) ∧
  stored_ (disk_manager_ s') = stored_ (disk_manager_ s3) ∧
  next_page_id_ (disk_manager_ s') = id + 1 ∧
  calls_ (disk_manager_ s') = calls_ (disk_manager_ s3) ++ [CallAllocatePage id] ∧
  frame (pages_ s') f =
    (λ pg, mkPage (zeroed (length (data_ pg))) id 1 (is_dirty_ pg)) <$> frame (pages_ s3) f ∧
  (∀ g, g ≠ f → frame (pages_ s') g = frame (pages_ s3) g).
Proof.
  unfold new_install, AllocatePage. cbv zeta. bpm_proj. repeat split.
  - rewrite !frame_update_eq. by destruct (frame (pages_ s3) f).
  - intros g Hg. by rewrite !frame_update_ne.
Qed.

Lemma page_at_frame_eq (s s' : BPM) g :
  frame (pages_ s') g = frame (pages_ s) g → page_at s' g = page_at s g.
Proof. unfold page_at. by intros ->. Qed.

Lemma page_at_pages_proj {A} (π : Page → A) (s s' : BPM) f' g0 g :
  (∀ pg, π (g0 pg) = π pg) → pages_ s' = update_frame f' g0 (pages_ s) →
  π (page_at s' g) = π (page_at s g).
Proof.
  intros Hπ Hpg. unfold page_at. rewrite Hpg, frame_update.
  case_decide; [|done]. destruct (frame (pages_ s) g); simpl; auto.
Qed.

Lemma fetch_write_back_page_at {A} (π : Page → A) f (s1 : BPM) g :
  (∀ b pg, π (set_is_dirty b pg) = π pg) →
  π (page_at (fetch_write_back f s1) g) = π (page_at s1 g).
Proof.
  intros Hπ. destruct (fetch_write_back_shape f s1) as (_ & _ & _ & _ & [Hpg|(f' & Hpg)]).
  - unfold page_at. by rewrite Hpg.
  - by apply (page_at_pages_proj π _ _ f' (set_is_dirty false)).
Qed.

Lemma new_write_back_page_at {A} (π : Page → A) f (s1 : BPM) g :
  (∀ b pg, π (set_is_dirty b pg) = π pg) →
  π (page_at (new_write_back f s1) g) = π (page_at s1 g).
Proof.
  intros Hπ. destruct (new_write_back_shape f s1) as (_ & _ & _ & _ & [Hpg|(f' & Hpg)]).
  - unfold page_at. by rewrite Hpg.
  - by apply (page_at_pages_proj π _ _ f' (set_is_dirty false)).
Qed.

Lemma fetch_write_back_length f (s1 : BPM) :
  length (pages_ (fetch_write_back f s1)) = length (pages_ s1).
Proof.
  destruct (fetch_write_back_shape f s1) as (_ & _ & _ & _ & [->|(f' & ->)]);
    [done|apply length_update_frame].
Qed.

Lemma new_write_back_length f (s1 : BPM) :
  length (pages_ (new_write_back f s1)) = length (pages_ s1).
Proof.
  destruct (new_write_back_shape f s1) as (_ & _ & _ & _ & [->|(f' & ->)]);
    [done|apply length_update_frame].
Qed.

Lemma fetch_load_length p f (s2 : BPM) :
  length (pages_ (fetch_load p f s2)) = length (pages_ s2).
Proof. unfold fetch_load, ReadPage. cbv zeta. bpm_proj. by rewrite !length_update_frame. Qed.

Lemma new_install_length f (s3 : BPM) :
  length (pages_ (new_install f s3)) = length (pages_ s3).
Proof. unfold new_install, AllocatePage. cbv zeta. bpm_proj. by rewrite !length_update_frame. Qed.

Lemma table_insert_lookup k v (m : gmap Z Z) k' :
  table_insert k v m !! k' =
    if decide (k = k') then Some (default v (m !! k)) else m !! k'.
Proof.
  unfold table_insert. destruct (m !! k) as [v0|] eqn:Hk.
  - case_decide; subst; simpl; congruence.
  - rewrite lookup_insert. by case_decide.
Qed.

Lemma table_insert_size k v (m : gmap Z Z) : (size (table_insert k v m) ≤ S (size m))%nat.
Proof.
  unfold table_insert. destruct (m !! k) eqn:Hk; [lia|].
  by rewrite map_size_insert_None.
Qed.

Lemma table_delete_size k (m : gmap Z Z) : (size (delete k m) ≤ size m)%nat.
Proof.
  destruct (m !! k) eqn:Hk.
  - rewrite map_size_delete, Hk. simpl. lia.
  - by rewrite delete_id.
Qed.

(** ** A pool in which nothing was ever unpinned *)

Context `{!ReplacerContract R}.

Lemma is_Some_frame_length (ps ps' : list Page) f :
  length ps' = length ps → is_Some (frame ps f) → is_Some (frame ps' f).
Proof.
  intros Hlen [pg Hpg]. apply frame_range_Some. rewrite Hlen.
  by apply frame_Some_range in Hpg.
Qed.

Lemma all_pinned_new n k dm : all_pinned (BufferPoolManager_new n k dm).
Proof.
  repeat split; simpl.
  - apply evictable_new.
  - intros p f. by rewrite lookup_empty.
  - rewrite length_fmap, length_seq, length_replicate, map_size_empty. lia.
  - apply Forall_fmap, Forall_seq. intros j Hj. simpl.
    apply frame_range_Some. rewrite length_replicate. lia.
Qed.

Lemma all_pinned_flush p (s : BPM) :
  all_pinned s → all_pinned (snd (FlushPageImplWithoutLock p s)).
Proof.
  intros (He & Hpin & Hsz & Hfree).
  pose proof (FlushPage_length s p) as Hlen.
  destruct (FlushPage_shape s p) as (Ht & Hf & Hr & _ & _).
  repeat split.
  - by rewrite Hr.
  - intros q f. rewrite Ht. intros Hq.
    rewrite (FlushPage_page_at pin_count_) by done. eauto.
  - rewrite Ht, Hf, Hlen. done.
  - rewrite Hf. eapply Forall_impl; [done|]. intros f. by apply is_Some_frame_length.
Qed.

Lemma all_pinned_fetch_miss p f rest (s : BPM) :
  all_pinned s → page_table_ s !! p = None → free_list_ s = f :: rest →
  all_pinned (fetch_load p f (fetch_write_back f (set_free rest s))).
Proof.
  intros (He & Hpin & Hsz & Hfree) Hp Hfl.
  set (s1 := set_free rest s). set (s2 := fetch_write_back f s1).
  destruct (fetch_write_back_shape f s1) as (Hf2 & Hr2 & _ & Ht2 & _).
  destruct (fetch_load_shape p f s2) as (Hf3 & Hr3 & _ & Ht3 & _ & _ & _ & Hpg3 & Hother3).
  pose proof (fetch_load_length p f s2) as Hlen3.
  pose proof (fetch_write_back_length f s1) as Hlen2.
  fold s2 in Hf2, Hr2, Ht2, Hlen2.
  rewrite Hfl in Hfree, Hsz. apply Forall_cons in Hfree as [[pg Hpg] Hrest].
  assert (is_Some (frame (pages_ s2) f)) as [pg2 Hpg2].
  { apply (is_Some_frame_length (pages_ s)); [done|eauto]. }
  assert (∀ q g, page_table_ s2 !! q = Some g → page_table_ s !! q = Some g) as Hsub.
  { intros q g. destruct Ht2 as [->| ->]; [done|].
    rewrite lookup_delete. by case_decide. }
  repeat split.
  - by rewrite Hr3, Hr2.
  - intros q g. rewrite Ht3, table_insert_lookup.
    destruct (decide (g = f)) as [->|Hg].
    + intros _. unfold page_at. by rewrite Hpg3, Hpg2.
    + intros Hq. rewrite (page_at_frame_eq s2) by auto.
      unfold s2. rewrite (fetch_write_back_page_at pin_count_) by done.
      apply (Hpin q). apply Hsub.
      case_decide; [|done]. subst q.
      destruct (page_table_ s2 !! p) as [g'|] eqn:Hq2; simpl in Hq; [congruence|].
      congruence.
  - rewrite Hf3, Hf2, Ht3, Hlen3, Hlen2. subst s1. bpm_proj.
    pose proof (table_insert_size p f (page_table_ s2)).
    assert (size (page_table_ s2) ≤ size (page_table_ s))%nat.
    { destruct Ht2 as [->| ->]; [done|apply table_delete_size]. }
    simpl in Hsz. lia.
  - rewrite Hf3, Hf2. subst s1. bpm_proj. eapply Forall_impl; [done|]. intros g.
    apply is_Some_frame_length. by rewrite Hlen3, Hlen2.
Qed.

Lemma all_pinned_new_page f rest (s : BPM) :
  all_pinned s → free_list_ s = f :: rest →
  all_pinned (new_install f (set_free rest s)).
Proof.
  intros (He & Hpin & Hsz & Hfree) Hfl.
  set (s1 := set_free rest s).
  destruct (new_install_shape f s1) as (Hf3 & Hr3 & _ & Ht3 & _ & _ & _ & Hpg3 & Hother3).
  pose proof (new_install_length f s1) as Hlen3.
  rewrite Hfl in Hfree, Hsz. apply Forall_cons in Hfree as [[pg Hpg] Hrest].
  repeat split.
  - by rewrite Hr3.
  - intros q g. rewrite Ht3, table_insert_lookup.
    destruct (decide (g = f)) as [->|Hg].
    + intros _. unfold page_at. rewrite Hpg3. subst s1. bpm_proj. by rewrite Hpg.
    + intros Hq. rewrite (page_at_frame_eq s1) by auto.
      apply (Hpin q). subst s1. bpm_proj.
      case_decide; [|done]. subst q.
      destruct (page_table_ s !! _) as [g'|] eqn:Hq2; simpl in Hq; congruence.
  - rewrite Hf3, Ht3, Hlen3. subst s1. bpm_proj.
    pose proof (table_insert_size (next_page_id_ (disk_manager_ s)) f (page_table_ s)).
    simpl in Hsz. lia.
  - rewrite Hf3. subst s1. bpm_proj. eapply Forall_impl; [done|]. intros g.
    by apply is_Some_frame_length.
Qed.

Lemma all_pinned_exhausted (s : BPM) : all_pinned s → Victim (replacer_ s) = None.
Proof. intros (He & _). by apply Victim_None. Qed.

Lemma all_pinned_step o (s : BPM) : is_unpin o = false → all_pinned s → all_pinned (step o s).
Proof.
  intros Ho Hs. destruct o as [p|p d|p| | |p|f d]; [| done | | | | |]; simpl.
  - destruct (page_table_ s !! p) as [f|] eqn:Hp.
    + rewrite (FetchPageImpl_hit _ _ _ Hp). destruct Hs as (He & Hpin & Hsz & Hfree).
      repeat split; bpm_proj.
      * rewrite evictable_Pin, He. set_solver.
      * intros q g Hq. specialize (Hpin q g Hq). revert Hpin. unfold page_at. bpm_proj.
        rewrite frame_update. case_decide; [|done]. subst g.
        destruct (frame (pages_ s) f); simpl; lia.
      * by rewrite length_update_frame.
      * eapply Forall_impl; [done|]. intros g. apply is_Some_frame_length.
        apply length_update_frame.
    + destruct (free_list_ s) as [|f rest] eqn:Hfl.
      * by rewrite (FetchPageImpl_exhausted _ _ Hp Hfl (all_pinned_exhausted _ Hs)).
      * rewrite (FetchPageImpl_free _ _ _ _ Hp Hfl). by apply all_pinned_fetch_miss.
  - by apply all_pinned_flush.
  - unfold FlushAllPagesImpl. generalize (pool_size_ s) 0. intros n. revert s Hs.
    induction n as [|n IH]; intros s Hs i; [done|].
    rewrite FlushAll_from_S. apply IH. unfold FlushAll_body.
    destruct (_ =? _); [done|]. by apply all_pinned_flush.
  - destruct (free_list_ s) as [|f rest] eqn:Hfl.
    + by rewrite (NewPageImpl_exhausted _ Hfl (all_pinned_exhausted _ Hs)).
    + rewrite (NewPageImpl_free _ _ _ Hfl). by apply all_pinned_new_page.
  - unfold DeletePageImpl. destruct (page_table_ s !! p) as [f|] eqn:Hp; [|done].
    pose proof Hs as (He & Hpin & Hsz & Hfree). specialize (Hpin p f Hp).
    unfold GetPinCount. by destruct (Z.ltb_spec 0 (pin_count_ (page_at s f))); [|lia].
  - destruct Hs as (He & Hpin & Hsz & Hfree). repeat split; bpm_proj.
    + done.
    + intros q g Hq. rewrite (page_at_with_page_proj pin_count_) by done. eauto.
    + by rewrite length_update_frame.
    + eapply Forall_impl; [done|]. intros g. apply is_Some_frame_length.
      apply length_update_frame.
Qed.

Lemma all_pinned_run os (s : BPM) :
  forallb (λ o, negb (is_unpin o)) os = true → all_pinned s → all_pinned (run os s).
Proof.
  revert s. induction os as [|o os IH]; intros s Hos Hs; [done|].
  simpl in Hos. apply andb_true_iff in Hos as [Ho Hos].
  simpl. apply IH; [done|]. apply all_pinned_step; [|done].
  by destruct (is_unpin o).
Qed.

Lemma step_pool_size o (s : BPM) : pool_size_ (step o s) = pool_size_ s.
Proof.
  unfold pool_size_. destruct o as [p|p d|p| | |p|f d]; simpl.
  - unfold FetchPageImpl. destruct (page_table_ s !! p).
    { bpm_proj. apply length_update_frame. }
    destruct (free_list_ s) as [|f rest].
    + destruct (Victim (replacer_ s)) as [[f r]|]; [|done].
      change (length (pages_ (fetch_load p f (fetch_write_back f (set_replacer r s)))) =
              length (pages_ s)).
      by rewrite fetch_load_length, fetch_write_back_length.
    + change (length (pages_ (fetch_load p f (fetch_write_back f (set_free rest s)))) =
              length (pages_ s)).
      by rewrite fetch_load_length, fetch_write_back_length.
  - unfold UnpinPageImpl. destruct (page_table_ s !! p); [|done].
    destruct (_ =? 0); [done|]. bpm_proj.
    destruct (_ =? 0); bpm_proj; by rewrite !length_update_frame.
  - apply FlushPage_length.
  - apply FlushAll_from_length.
  - unfold NewPageImpl. destruct (free_list_ s) as [|f rest].
    + destruct (Victim (replacer_ s)) as [[f r]|]; [|done].
      change (length (pages_ (new_install f (new_write_back f (set_replacer r s)))) =
              length (pages_ s)).
      by rewrite new_install_length, new_write_back_length.
    + change (length (pages_ (new_install f (set_free rest s))) = length (pages_ s)).
      by rewrite new_install_length.
  - unfold DeletePageImpl. destruct (page_table_ s !! p); [|done].
    destruct (0 <? _); [done|]. bpm_proj. by rewrite !length_update_frame.
  - apply length_update_frame.
Qed.

Lemma run_pool_size os (s : BPM) : pool_size_ (run os s) = pool_size_ s.
Proof.
  revert s. induction os as [|o os IH]; intros s; [done|].
  simpl. by rewrite IH, step_pool_size.
Qed.

(** C4: in a pool of [n] frames in which no page was ever unpinned and whose
    page table holds [n] pages, a fetch of any other page and a [NewPageImpl]
    fail and leave the whole state, the disk and its call history included,
    as it was: no page id is allocated. *)
Theorem pool_exhausted (n k : nat) (dm : DiskManager) (os : list op) (s : BPM) :
  forallb (λ o, negb (is_unpin o)) os = true →
  s = run os (BufferPoolManager_new n k dm) →
  size (page_table_ s) = n →
  (∀ q, page_table_ s !! q = None → FetchPageImpl q s = (None, s)) ∧
  NewPageImpl s = (None, s) ∧
  filter is_allocate (calls_ (disk_manager_ (snd (NewPageImpl s)))) =
    filter is_allocate (calls_ (disk_manager_ s)) ∧
  next_page_id_ (disk_manager_ (snd (NewPageImpl s))) = next_page_id_ (disk_manager_ s).
Proof.
  intros Hos -> Hsize.
  pose proof (all_pinned_run os _ Hos (all_pinned_new n k dm)) as Hs.
  pose proof (run_pool_size os (BufferPoolManager_new n k dm)) as Hn.
  set (s := run os _) in *.
  assert (pool_size_ s = n) as Hn'.
  { rewrite Hn. unfold pool_size_. simpl. apply length_replicate. }
  assert (free_list_ s = []) as Hfl.
  { destruct Hs as (_ & _ & Hsz & _). unfold pool_size_ in Hn'.
    destruct (free_list_ s); [done|]. simpl in Hsz. lia. }
  pose proof (all_pinned_exhausted _ Hs) as Hv.
  assert (NewPageImpl s = (None, s)) as Hnew by by apply NewPageImpl_exhausted.
  repeat split; [|done|by rewrite Hnew|by rewrite Hnew].
  intros q Hq. by apply FetchPageImpl_exhausted.
Qed.

(** ** The calls that mark frames in the policy *)

Lemma FlushAll_from_page_at {A} (π : Page → A) n i (s : BPM) g :
  (∀ b pg, π (set_is_dirty b pg) = π pg) →
  π (page_at (FlushAll_from n i s) g) = π (page_at s g).
Proof.
  intros Hπ. revert i s. induction n as [|n IH]; intros i s; [done|].
  rewrite FlushAll_from_S, IH. unfold FlushAll_body. destruct (_ =? _); [done|].
  by apply FlushPage_page_at.
Qed.

Lemma FlushAll_from_marks n i (s : BPM) : marks_ (FlushAll_from n i s) = marks_ s.
Proof.
  revert i s. induction n as [|n IH]; intros i s; [done|].
  rewrite FlushAll_from_S, IH. unfold FlushAll_body. destruct (_ =? _); [done|].
  apply FlushPage_shape.
Qed.

Lemma pins_nonneg_at (s : BPM) g : pins_nonneg s → 0 ≤ pin_count_at s g.
Proof.
  intros Hs. unfold pin_count_at, page_at.
  destruct (frame (pages_ s) g) as [pg|] eqn:Hg; [|done].
  by apply (Forall_frame _ _ _ _ Hs Hg).
Qed.

(** The marks of one call. *)
Lemma step_marks o (s : BPM) :
  new_marks o s =
    match o with
    | OpFetch p =>
      match page_table_ s !! p with Some _ => [CallPin p] | None => [] end
    | OpUnpin p d =>
      match page_table_ s !! p with
      | Some f => if pin_count_at s f =? 1 then [CallUnpin f] else []
      | None => []
      end
    | _ => []
    end.
Proof.
  unfold new_marks.
  assert (∀ l, marks_ (step o s) = marks_ s ++ l → drop (length (marks_ s)) (marks_ (step o s)) = l)
    as Hdrop.
  { intros l ->. by rewrite drop_app_length. }
  assert (∀ s' : BPM, marks_ s' = marks_ s → marks_ s' = marks_ s ++ []) as Hnil.
  { intros s' ->. by rewrite app_nil_r. }
  apply Hdrop. destruct o as [p|p d|p| | |p|f d]; simpl.
  - unfold FetchPageImpl. destruct (page_table_ s !! p) as [f|]; [done|].
    apply Hnil. destruct (free_list_ s) as [|f rest].
    + destruct (Victim (replacer_ s)) as [[f r]|]; [|done].
      change (marks_ (fetch_load p f (fetch_write_back f (set_replacer r s))) = marks_ s).
      destruct (fetch_load_shape p f (fetch_write_back f (set_replacer r s)))
        as (_ & _ & -> & _).
      by destruct (fetch_write_back_shape f (set_replacer r s)) as (_ & _ & -> & _).
    + change (marks_ (fetch_load p f (fetch_write_back f (set_free rest s))) = marks_ s).
      destruct (fetch_load_shape p f (fetch_write_back f (set_free rest s)))
        as (_ & _ & -> & _).
      by destruct (fetch_write_back_shape f (set_free rest s)) as (_ & _ & -> & _).
  - unfold UnpinPageImpl, pin_count_at, GetPinCount.
    destruct (page_table_ s !! p) as [f|]; [|by apply Hnil].
    destruct (Z.eqb_spec (pin_count_ (page_at s f)) 0) as [Hz|Hz].
    { rewrite Hz. by apply Hnil. }
    assert (∃ pg, frame (pages_ s) f = Some pg) as [pg Hpg].
    { unfold page_at in Hz. destruct (frame (pages_ s) f); [eauto|done]. }
    rewrite (page_at_frame _ _ _ Hpg). bpm_proj.
    unfold page_at at 1. bpm_proj. rewrite !frame_update_eq, Hpg. simpl.
    destruct (Z.eqb_spec (pin_count_ pg - 1) 0), (Z.eqb_spec (pin_count_ pg) 1);
      try lia; bpm_proj; by rewrite ?app_nil_r.
  - apply Hnil, FlushPage_shape.
  - apply Hnil, FlushAll_from_marks.
  - apply Hnil. unfold NewPageImpl. destruct (free_list_ s) as [|f rest].
    + destruct (Victim (replacer_ s)) as [[f r]|]; [|done].
      change (marks_ (new_install f (new_write_back f (set_replacer r s))) = marks_ s).
      destruct (new_install_shape f (new_write_back f (set_replacer r s)))
        as (_ & _ & -> & _).
      by destruct (new_write_back_shape f (set_replacer r s)) as (_ & _ & -> & _).
    + change (marks_ (new_install f (set_free rest s)) = marks_ s).
      by destruct (new_install_shape f (set_free rest s)) as (_ & _ & -> & _).
  - apply Hnil. unfold DeletePageImpl. destruct (page_table_ s !! p); [|done].
    by destruct (0 <? _).
  - by apply Hnil.
Qed.

Lemma fetch_load_pin p f (s2 : BPM) g :
  pin_count_at (fetch_load p f s2) g = pin_count_at s2 g ∨
  pin_count_at (fetch_load p f s2) g = 1.
Proof.
  destruct (fetch_load_shape p f s2) as (_ & _ & _ & _ & _ & _ & _ & Hf & Hother).
  unfold pin_count_at. destruct (decide (g = f)) as [->|Hg].
  - unfold page_at. rewrite Hf. destruct (frame (pages_ s2) f); simpl; auto.
  - left. f_equal. apply page_at_frame_eq. auto.
Qed.

Lemma new_install_pin f (s3 : BPM) g :
  pin_count_at (new_install f s3) g = pin_count_at s3 g ∨
  pin_count_at (new_install f s3) g = 1.
Proof.
  destruct (new_install_shape f s3) as (_ & _ & _ & _ & _ & _ & _ & Hf & Hother).
  unfold pin_count_at. destruct (decide (g = f)) as [->|Hg].
  - unfold page_at. rewrite Hf. destruct (frame (pages_ s3) f); simpl; auto.
  - left. f_equal. apply page_at_frame_eq. auto.
Qed.

(** The pin count of a frame after one call: as before, or one of the
    changes the call can make. *)
Lemma step_pin_count o (s : BPM) g :
  pin_count_at (step o s) g = pin_count_at s g ∨
  match o with
  | OpFetch p =>
    pin_count_at (step o s) g = 1 ∨
    (page_table_ s !! p = Some g ∧ pin_count_at (step o s) g = pin_count_at s g + 1)
  | OpUnpin p d =>
    page_table_ s !! p = Some g ∧ pin_count_at s g ≠ 0 ∧
    pin_count_at (step o s) g = pin_count_at s g - 1
  | OpNewPage => pin_count_at (step o s) g = 1
  | OpDelete p =>
    page_table_ s !! p = Some g ∧ pin_count_at s g ≤ 0 ∧ pin_count_at (step o s) g = 0
  | _ => False
  end.
Proof.
  destruct o as [p|p d|p| | |p|f d]; simpl.
  - destruct (page_table_ s !! p) as [f|] eqn:Hp.
    + rewrite (FetchPageImpl_hit _ _ _ Hp). unfold pin_count_at, page_at. bpm_proj.
      rewrite frame_update. case_decide; [subst f|by left].
      destruct (frame (pages_ s) g); simpl; auto.
    + destruct (free_list_ s) as [|f rest] eqn:Hfl.
      * destruct (Victim (replacer_ s)) as [[f r]|] eqn:Hv.
        -- rewrite (FetchPageImpl_victim _ _ _ _ Hp Hfl Hv). bpm_proj.
           destruct (fetch_load_pin p f (fetch_write_back f (set_replacer r s)) g) as [Heq|Heq];
             [left|by right; left].
           rewrite Heq. by apply (fetch_write_back_page_at pin_count_).
        -- by rewrite (FetchPageImpl_exhausted _ _ Hp Hfl Hv); left.
      * rewrite (FetchPageImpl_free _ _ _ _ Hp Hfl). bpm_proj.
        destruct (fetch_load_pin p f (fetch_write_back f (set_free rest s)) g) as [Heq|Heq];
          [left|by right; left].
        rewrite Heq. by apply (fetch_write_back_page_at pin_count_).
  - destruct (page_table_ s !! p) as [f|] eqn:Hp;
      [|by rewrite (UnpinPageImpl_absent _ _ _ Hp); left].
    destruct (frame (pages_ s) f) as [pg|] eqn:Hf.
    + destruct (decide (pin_count_ pg = 0)) as [Hz|Hz].
      { by rewrite (UnpinPageImpl_zero _ _ _ _ _ Hp Hf Hz); left. }
      destruct (UnpinPageImpl_pinned _ _ d _ _ Hp Hf Hz) as (s' & -> & Hf' & Hother & _).
      bpm_proj. unfold pin_count_at. destruct (decide (g = f)) as [->|Hg].
      * right. rewrite (page_at_frame _ _ _ Hf), (page_at_frame _ _ _ Hf'). done.
      * left. f_equal. apply page_at_frame_eq. auto.
    + left. unfold UnpinPageImpl. rewrite Hp. unfold page_at at 1. by rewrite Hf.
  - left. by apply (FlushPage_page_at pin_count_).
  - left. by apply (FlushAll_from_page_at pin_count_).
  - destruct (free_list_ s) as [|f rest] eqn:Hfl.
    + destruct (Victim (replacer_ s)) as [[f r]|] eqn:Hv.
      * rewrite (NewPageImpl_victim _ _ _ Hfl Hv). bpm_proj.
        destruct (new_install_pin f (new_write_back f (set_replacer r s)) g) as [Heq|Heq];
          [left|by right].
        rewrite Heq. by apply (new_write_back_page_at pin_count_).
      * by rewrite (NewPageImpl_exhausted _ Hfl Hv); left.
    + rewrite (NewPageImpl_free _ _ _ Hfl). bpm_proj.
      destruct (new_install_pin f (set_free rest s) g) as [Heq|Heq]; [by left|by right].
  - unfold DeletePageImpl. destruct (page_table_ s !! p) as [f|] eqn:Hp; [|by left].
    unfold GetPinCount. destruct (Z.ltb_spec 0 (pin_count_ (page_at s f))); [by left|].
    bpm_proj. destruct (decide (g = f)) as [->|Hg].
    + destruct (frame (pages_ s) f) as [pg|] eqn:Hf.
      * right. split; [done|]. split; [done|].
        unfold pin_count_at, page_at. bpm_proj. by rewrite !frame_update_eq, Hf.
      * left. unfold pin_count_at, page_at. bpm_proj. by rewrite !frame_update_eq, Hf.
    + left. unfold pin_count_at, page_at. bpm_proj. by rewrite !frame_update_ne.
  - left. unfold pin_count_at. by apply (page_at_with_page_proj pin_count_).
Qed.

(** C8, as amended: [Unpin] is called on the policy, for the frame by its
    index, exactly when a call brings the frame's pin count from non-zero to
    zero.  [Pin] is called exactly by a fetch that finds its page in the page
    table, whatever the frame's pin count was, and by nothing else: a frame
    whose count goes from zero to one on a miss or in [NewPageImpl] is not
    marked.  No call makes more than one mark. *)
Theorem marks_of_step (o : op) (s : BPM) :
  pins_nonneg s →
  unpin_marks_reach_zero o s ∧
  ((∃ x, CallPin x ∈ new_marks o s) ↔ ∃ p, o = OpFetch p ∧ is_Some (page_table_ s !! p)) ∧
  (length (new_marks o s) ≤ 1)%nat.
Proof.
  intros Hs. pose proof (step_marks o s) as Hm. split; [|split].
  - intros g. pose proof (pins_nonneg_at s g Hs) as Hg.
    pose proof (step_pin_count o s g) as Hpin. rewrite Hm. split.
    + destruct o as [p|p d|p| | |p|f d]; try by intros ?%elem_of_nil.
      { destruct (page_table_ s !! p); [|by intros ?%elem_of_nil].
        intros Hin%list_elem_of_singleton. done. }
      destruct (page_table_ s !! p) as [f|] eqn:Hp; [|by intros ?%elem_of_nil].
      destruct (Z.eqb_spec (pin_count_at s f) 1) as [H1|H1]; [|by intros ?%elem_of_nil].
      intros Hin%list_elem_of_singleton. injection Hin as ->.
      destruct Hpin as [Heq|(_ & _ & Heq)]; [|lia].
      exfalso. revert Heq. simpl. unfold pin_count_at in *.
      destruct (frame (pages_ s) f) as [pg|] eqn:Hf.
      * rewrite (page_at_frame _ _ _ Hf) in H1.
        destruct (UnpinPageImpl_pinned s p d f pg Hp Hf) as (s' & -> & Hf' & _); [lia|].
        bpm_proj. rewrite (page_at_frame _ _ _ Hf'), (page_at_frame _ _ _ Hf). simpl. lia.
      * unfold page_at in H1. by rewrite Hf in H1.
    + intros [Hnz Hz]. destruct Hpin as [Heq|Hpin]; [lia|].
      destruct o as [p|p d|p| | |p|f d]; try done.
      * destruct Hpin as [?|[_ ?]]; lia.
      * destruct Hpin as (Hp & _ & Heq). rewrite Hp.
        destruct (Z.eqb_spec (pin_count_at s g) 1); [|lia]. by apply list_elem_of_singleton.
      * lia.
      * lia.
  - rewrite Hm. split.
    + intros [x Hx]. destruct o as [p|p d|p| | |p|f d]; try by apply elem_of_nil in Hx.
      * destruct (page_table_ s !! p) eqn:Hp; [eauto|by apply elem_of_nil in Hx].
      * destruct (page_table_ s !! p); [|by apply elem_of_nil in Hx].
        destruct (_ =? 1); [|by apply elem_of_nil in Hx].
        by apply list_elem_of_singleton in Hx.
    + intros (p & -> & [f Hp]). rewrite Hp. exists p. by apply list_elem_of_singleton.
  - rewrite Hm. destruct o as [p|p d|p| | |p|f d]; simpl; try lia.
    + destruct (page_table_ s !! p); simpl; lia.
    + destruct (page_table_ s !! p); [|simpl; lia]. destruct (_ =? 1); simpl; lia.
Qed.

(** ** Write-back of a dirty frame that is reused *)

Lemma fetch_write_back_dirty (s1 : BPM) p f pg :
  resident_in s1 p f pg → is_dirty_ pg = true →
  fetch_write_back f s1 =
    set_table (delete p (page_table_ s1))
      (with_page f (set_is_dirty false)
         (set_disk (WritePage p (data_ pg) (disk_manager_ s1)) s1)).
Proof.
  intros (Hp & Hf & Hid) Hd. unfold fetch_write_back, IsDirty, GetPageId.
  rewrite (page_at_frame _ _ _ Hf), Hd, Hid. cbv zeta.
  rewrite (FlushPage_dirty _ _ _ Hp) by (by rewrite (page_at_frame _ _ _ Hf)).
  by rewrite (page_at_frame _ _ _ Hf).
Qed.

Lemma new_write_back_dirty (s1 : BPM) p f pg :
  resident_in s1 p f pg → is_dirty_ pg = true →
  new_write_back f s1 =
    set_table (delete p (page_table_ s1))
      (with_page f (set_is_dirty false)
         (set_disk (WritePage p (data_ pg) (disk_manager_ s1)) s1)).
Proof.
  intros (Hp & Hf & Hid) Hd. unfold new_write_back, GetPageId.
  rewrite (page_at_frame _ _ _ Hf), Hd, Hid. cbv zeta.
  rewrite (FlushPage_dirty _ _ _ Hp) by (by rewrite (page_at_frame _ _ _ Hf)).
  by rewrite (page_at_frame _ _ _ Hf).
Qed.

(** When [FetchPageImpl] reuses the frame of a dirty resident page, the page's
    bytes are written under its id first, then the new page is read. *)
Lemma FetchPageImpl_writes_back (s : BPM) p q f pg :
  resident_in s p f pg → is_dirty_ pg = true →
  page_table_ s !! q = None → fst (FetchPageImpl q s) = Some f →
  let s' := snd (FetchPageImpl q s) in
  stored_ (disk_manager_ s') !! p = Some (data_ pg) ∧
  calls_ (disk_manager_ s') =
    calls_ (disk_manager_ s) ++ [CallWritePage p (data_ pg); CallReadPage q] ∧
  page_table_ s' !! p = None ∧
  page_table_ s' !! q = Some f.
Proof.
  intros Hres Hd Hq Hfst.
  assert (∃ s1 : BPM, FetchPageImpl q s = (Some f, fetch_load q f (fetch_write_back f s1)) ∧
            pages_ s1 = pages_ s ∧ page_table_ s1 = page_table_ s ∧
            disk_manager_ s1 = disk_manager_ s) as (s1 & Heq & Hpg & Ht & Hdm).
  { destruct (free_list_ s) as [|f0 rest] eqn:Hfl.
    - destruct (Victim (replacer_ s)) as [[f0 r]|] eqn:Hv.
      + rewrite (FetchPageImpl_victim _ _ _ _ Hq Hfl Hv) in Hfst |- *.
        injection Hfst as ->. by eexists.
      + by rewrite (FetchPageImpl_exhausted _ _ Hq Hfl Hv) in Hfst.
    - rewrite (FetchPageImpl_free _ _ _ _ Hq Hfl) in Hfst |- *.
      injection Hfst as ->. by eexists. }
  assert (resident_in s1 p f pg) as Hres1.
  { unfold resident_in. by rewrite Hpg, Ht. }
  rewrite Heq. cbv zeta. bpm_proj.
  rewrite (fetch_write_back_dirty _ _ _ _ Hres1 Hd).
  set (s2 := set_table _ _).
  destruct (fetch_load_shape q f s2) as (_ & _ & _ & -> & -> & _ & -> & _).
  subst s2. bpm_proj. rewrite Hdm, Ht. unfold WritePage at 1 2. simpl.
  assert (p ≠ q) as Hne. { destruct Hres as (Hp & _). congruence. }
  repeat split.
  - by rewrite lookup_insert_eq.
  - by rewrite <- app_assoc.
  - rewrite table_insert_lookup. case_decide; [congruence|]. by rewrite lookup_delete_eq.
  - rewrite table_insert_lookup. rewrite decide_True by done.
    rewrite lookup_delete_ne by done. by rewrite Hq.
Qed.

(** The same for a victim that [NewPageImpl] reuses. *)
Lemma NewPageImpl_writes_back (s : BPM) p f r pg :
  resident_in s p f pg → is_dirty_ pg = true →
  free_list_ s = [] → Victim (replacer_ s) = Some (f, r) →
  let s' := snd (NewPageImpl s) in
  let id := next_page_id_ (disk_manager_ s) in
  fst (NewPageImpl s) = Some (id, f) ∧
  stored_ (disk_manager_ s') !! p = Some (data_ pg) ∧
  calls_ (disk_manager_ s') =
    calls_ (disk_manager_ s) ++ [CallWritePage p (data_ pg); CallAllocatePage id] ∧
  (p ≠ id → page_table_ s' !! p = None).
Proof.
  intros Hres Hd Hfl Hv. cbv zeta.
  rewrite (NewPageImpl_victim _ _ _ Hfl Hv). bpm_proj.
  assert (resident_in (set_replacer r s) p f pg) as Hres1 by done.
  rewrite (new_write_back_dirty _ _ _ _ Hres1 Hd).
  set (s2 := set_table _ _).
  destruct (new_install_shape f s2) as (_ & _ & _ & -> & -> & _ & -> & _).
  subst s2. bpm_proj. unfold WritePage. simpl. repeat split.
  - by rewrite lookup_insert_eq.
  - by rewrite <- app_assoc.
  - intros Hne. rewrite table_insert_lookup. case_decide; [congruence|].
    by rewrite lookup_delete_eq.
Qed.

(** A flush of a page that is not in the page table leaves the disk alone, so
    the write-back stage keeps what is stored under such an id. *)
Lemma fetch_write_back_stored (s1 : BPM) f p :
  page_table_ s1 !! p = None →
  stored_ (disk_manager_ (fetch_write_back f s1)) !! p = stored_ (disk_manager_ s1) !! p.
Proof.
  intros Hp. unfold fetch_write_back. destruct (IsDirty (page_at s1 f)); [|done].
  cbv zeta. bpm_proj. unfold FlushPageImplWithoutLock, GetPageId.
  destruct (page_table_ s1 !! page_id_ (page_at s1 f)) as [f'|] eqn:Hpid; [|done].
  destruct (IsDirty (page_at s1 f')); [|done]. bpm_proj. unfold WritePage. simpl.
  apply lookup_insert_ne. congruence.
Qed.

(** A fetch of a page that is not in the page table returns the bytes stored
    under its id. *)
Lemma FetchPageImpl_reads_stored (s : BPM) p f d :
  page_table_ s !! p = None → stored_ (disk_manager_ s) !! p = Some d →
  fst (FetchPageImpl p s) = Some f → is_Some (frame (pages_ s) f) →
  data_ (page_at (snd (FetchPageImpl p s)) f) = d.
Proof.
  intros Hp Hd Hfst Hf.
  assert (∃ s1 : BPM, FetchPageImpl p s = (Some f, fetch_load p f (fetch_write_back f s1)) ∧
            pages_ s1 = pages_ s ∧ page_table_ s1 = page_table_ s ∧
            disk_manager_ s1 = disk_manager_ s) as (s1 & Heq & Hpg & Ht & Hdm).
  { destruct (free_list_ s) as [|f0 rest] eqn:Hfl.
    - destruct (Victim (replacer_ s)) as [[f0 r]|] eqn:Hv.
      + rewrite (FetchPageImpl_victim _ _ _ _ Hp Hfl Hv) in Hfst |- *.
        injection Hfst as ->. by eexists.
      + by rewrite (FetchPageImpl_exhausted _ _ Hp Hfl Hv) in Hfst.
    - rewrite (FetchPageImpl_free _ _ _ _ Hp Hfl) in Hfst |- *.
      injection Hfst as ->. by eexists. }
  rewrite Heq. bpm_proj.
  destruct (fetch_load_shape p f (fetch_write_back f s1)) as (_ & _ & _ & _ & _ & _ & _ & Hfr & _).
  unfold page_at. rewrite Hfr.
  rewrite fetch_write_back_stored by (by rewrite Ht). rewrite Hdm, Hd.
  assert (is_Some (frame (pages_ (fetch_write_back f s1)) f)) as [pg2 ->]; [|done].
  apply (is_Some_frame_length (pages_ s)); [|done].
  by rewrite fetch_write_back_length, Hpg.
Qed.

(** The state after a dirty unpin of a resident, pinned page. *)
Lemma UnpinPageImpl_dirty_resident (s : BPM) p f pg :
  resident_in s p f pg → pin_count_ pg ≠ 0 →
  let s1 := snd (UnpinPageImpl p true s) in
  fst (UnpinPageImpl p true s) = true ∧
  resident_in s1 p f (mkPage (data_ pg) p (pin_count_ pg - 1) true) ∧
  page_table_ s1 = page_table_ s ∧ free_list_ s1 = free_list_ s ∧
  disk_manager_ s1 = disk_manager_ s ∧ pool_size_ s1 = pool_size_ s.
Proof.
  intros (Hp & Hf & Hid) Hpin.
  destruct (UnpinPageImpl_pinned s p true f pg Hp Hf Hpin)
    as (s1 & Heq & Hf1 & _ & Ht & Hfl & Hdm & _).
  pose proof (step_pool_size (OpUnpin p true) s) as Hsz. simpl in Hsz.
  rewrite Heq in *. bpm_proj. rewrite orb_true_r, Hid in Hf1.
  unfold resident_in. by rewrite Ht.
Qed.

(** An unpin changes neither the page table nor the disk nor the size of the
    pool. *)
Lemma UnpinPageImpl_keeps (s : BPM) p d :
  let s' := snd (UnpinPageImpl p d s) in
  page_table_ s' = page_table_ s ∧ disk_manager_ s' = disk_manager_ s ∧
  pool_size_ s' = pool_size_ s.
Proof.
  pose proof (step_pool_size (OpUnpin p d) s) as Hsz. simpl in Hsz.
  split; [|split; [|done]]; unfold UnpinPageImpl;
    destruct (page_table_ s !! p); try done;
    destruct (_ =? 0); try done; bpm_proj; by destruct (_ =? 0).
Qed.

(** X1: the round trip through storage, for a page that is resident: its
    page-table entry names the frame labelled with it.  After a dirty unpin of
    the page, a fetch of another page that reuses the frame writes the page's
    bytes under its id before it reads the other page; a fetch of the first
    page that follows, at once or after the other page is unpinned, and
    obtains a frame, returns those bytes. *)
Theorem fetch_round_trip (s s3 : BPM) (p q f f2 : Z) (pg : Page) :
  resident_in s p f pg → pin_count_ pg ≠ 0 →
  let s1 := snd (UnpinPageImpl p true s) in
  page_table_ s !! q = None → fst (FetchPageImpl q s1) = Some f →
  let s2 := snd (FetchPageImpl q s1) in
  s3 = s2 ∨ (∃ d, s3 = snd (UnpinPageImpl q d s2)) →
  fst (FetchPageImpl p s3) = Some f2 → is_Some (frame (pages_ s) f2) →
  calls_ (disk_manager_ s2) =
    calls_ (disk_manager_ s) ++ [CallWritePage p (data_ pg); CallReadPage q] ∧
  stored_ (disk_manager_ s2) !! p = Some (data_ pg) ∧
  data_ (page_at (snd (FetchPageImpl p s3)) f2) = data_ pg.
Proof.
  intros Hres Hpin s1 Hq Hfst s2 Hs3 Hfst2 Hf2.
  destruct (UnpinPageImpl_dirty_resident s p f pg Hres Hpin) as (_ & Hres1 & Ht1 & _ & Hdm1 & Hsz1).
  fold s1 in Hres1, Ht1, Hdm1, Hsz1.
  destruct (FetchPageImpl_writes_back s1 p q f _ Hres1 eq_refl) as (Hst & Hcalls & Hp2 & _);
    [by rewrite Ht1|done|].
  fold s2 in Hst, Hcalls, Hp2. simpl in Hst, Hcalls. rewrite Hdm1 in Hcalls.
  split; [done|]. split; [done|].
  pose proof (step_pool_size (OpFetch q) s1) as Hsz2. simpl in Hsz2. fold s2 in Hsz2.
  assert (page_table_ s3 = page_table_ s2 ∧ disk_manager_ s3 = disk_manager_ s2 ∧
          pool_size_ s3 = pool_size_ s2) as (Ht3 & Hdm3 & Hsz3).
  { destruct Hs3 as [->|[d ->]]; [done|apply UnpinPageImpl_keeps]. }
  apply FetchPageImpl_reads_stored; [by rewrite Ht3|by rewrite Hdm3|done|].
  apply (is_Some_frame_length (pages_ s)); [|done].
  unfold pool_size_ in *. congruence.
Qed.

(** X2: the same when the frame is reused by [NewPageImpl], which evicts the
    page when the free list is empty; the page is one allocated before. *)
Theorem new_page_round_trip (s s3 : BPM) (p id f f2 : Z) (pg : Page) :
  resident_in s p f pg → pin_count_ pg ≠ 0 →
  let s1 := snd (UnpinPageImpl p true s) in
  free_list_ s = [] → p ≠ next_page_id_ (disk_manager_ s) →
  fst (NewPageImpl s1) = Some (id, f) →
  let s2 := snd (NewPageImpl s1) in
  s3 = s2 ∨ (∃ d, s3 = snd (UnpinPageImpl id d s2)) →
  fst (FetchPageImpl p s3) = Some f2 → is_Some (frame (pages_ s) f2) →
  calls_ (disk_manager_ s2) =
    calls_ (disk_manager_ s) ++ [CallWritePage p (data_ pg); CallAllocatePage id] ∧
  stored_ (disk_manager_ s2) !! p = Some (data_ pg) ∧
  data_ (page_at (snd (FetchPageImpl p s3)) f2) = data_ pg.
Proof.
  intros Hres Hpin s1 Hfl Hne Hfst s2 Hs3 Hfst2 Hf2.
  destruct (UnpinPageImpl_dirty_resident s p f pg Hres Hpin)
    as (_ & Hres1 & Ht1 & Hfl1 & Hdm1 & Hsz1).
  fold s1 in Hres1, Ht1, Hfl1, Hdm1, Hsz1. rewrite Hfl in Hfl1.
  destruct (Victim (replacer_ s1)) as [[f' r]|] eqn:Hv;
    [|by rewrite (NewPageImpl_exhausted _ Hfl1 Hv) in Hfst].
  assert (f' = f ∧ id = next_page_id_ (disk_manager_ s)) as [-> ->].
  { destruct (decide (f' = f)) as [->|Hff].
    - destruct (NewPageImpl_writes_back s1 p f r _ Hres1 eq_refl Hfl1 Hv) as (Hid & _).
      split; [done|]. rewrite Hid in Hfst. rewrite <- Hdm1. congruence.
    - rewrite (NewPageImpl_victim _ _ _ Hfl1 Hv) in Hfst. simpl in Hfst. congruence. }
  destruct (NewPageImpl_writes_back s1 p f r _ Hres1 eq_refl Hfl1 Hv) as (_ & Hst & Hcalls & Hp2).
  fold s2 in Hst, Hcalls, Hp2. simpl in Hst, Hcalls. rewrite Hdm1 in Hcalls, Hp2.
  split; [done|]. split; [done|].
  pose proof (step_pool_size OpNewPage s1) as Hsz2. simpl in Hsz2. fold s2 in Hsz2.
  assert (page_table_ s3 = page_table_ s2 ∧ disk_manager_ s3 = disk_manager_ s2 ∧
          pool_size_ s3 = pool_size_ s2) as (Ht3 & Hdm3 & Hsz3).
  { destruct Hs3 as [->|[d ->]]; [done|apply UnpinPageImpl_keeps]. }
  apply FetchPageImpl_reads_stored; [rewrite Ht3; by apply Hp2|by rewrite Hdm3|done|].
  apply (is_Some_frame_length (pages_ s)); [|done].
  unfold pool_size_ in *. congruence.
Qed.

(** ** What a successful [NewPageImpl] returns *)

(** Whatever the state, the returned frame is zeroed, labelled with the new
    id and pinned once; its dirty flag is not assigned. *)
Lemma NewPageImpl_frame (s s' : BPM) id f pg :
  NewPageImpl s = (Some (id, f), s') → frame (pages_ s) f = Some pg →
  ∃ b, frame (pages_ s') f = Some (mkPage (zeroed (length (data_ pg))) id 1 b) ∧
       calls_ (disk_manager_ s') = removelast (calls_ (disk_manager_ s')) ++ [CallAllocatePage id].
Proof.
  intros Hnew Hf.
  assert (∃ s3 : BPM, s' = new_install f s3 ∧ id = next_page_id_ (disk_manager_ s3) ∧
            ∃ pg3, frame (pages_ s3) f = Some pg3 ∧ data_ pg3 = data_ pg) as
    (s3 & -> & -> & pg3 & Hf3 & Hdata).
  { destruct (free_list_ s) as [|f0 rest] eqn:Hfl.
    - destruct (Victim (replacer_ s)) as [[f0 r]|] eqn:Hv.
      + rewrite (NewPageImpl_victim _ _ _ Hfl Hv) in Hnew. injection Hnew as <- <- <-.
        eexists. split; [done|]. split; [done|].
        destruct (new_write_back_shape f0 (set_replacer r s)) as (_ & _ & _ & _ & [->|(f' & ->)]).
        * eauto.
        * rewrite frame_update. bpm_proj. rewrite Hf. case_decide; simpl; eauto.
      + by rewrite (NewPageImpl_exhausted _ Hfl Hv) in Hnew.
    - rewrite (NewPageImpl_free _ _ _ Hfl) in Hnew. injection Hnew as <- <- <-.
      eexists. split; [done|]. split; [done|]. eauto. }
  destruct (new_install_shape f s3) as (_ & _ & _ & _ & _ & _ & -> & -> & _).
  rewrite Hf3. simpl. rewrite Hdata. eexists. split; [done|].
  by rewrite removelast_last.
Qed.

(** X3: when the frame [NewPageImpl] obtains is clean, or is a dirty victim
    that the page table gives for the page it holds, and the new id is not
    in the page table, the returned frame is zeroed, pinned once and clean,
    and the page table sends the new id to it. *)
Theorem NewPageImpl_clean (s s' : BPM) id f pg :
  NewPageImpl s = (Some (id, f), s') → frame (pages_ s) f = Some pg →
  (is_dirty_ pg = true → free_list_ s = [] ∧ page_table_ s !! page_id_ pg = Some f) →
  page_table_ s !! next_page_id_ (disk_manager_ s) = None →
  id = next_page_id_ (disk_manager_ s) ∧
  frame (pages_ s') f = Some (mkPage (zeroed (length (data_ pg))) id 1 false) ∧
  page_table_ s' !! id = Some f.
Proof.
  intros Hnew Hf Hreg Hfresh.
  destruct (free_list_ s) as [|f0 rest] eqn:Hfl.
  - destruct (Victim (replacer_ s)) as [[f0 r]|] eqn:Hv;
      [|by rewrite (NewPageImpl_exhausted _ Hfl Hv) in Hnew].
    rewrite (NewPageImpl_victim _ _ _ Hfl Hv) in Hnew.
    set (s1 := set_replacer r s) in *. set (s2 := new_write_back f0 s1) in *.
    assert (f0 = f) as -> by congruence.
    assert (frame (pages_ s1) f = Some pg) as Hf1 by done.
    assert (frame (pages_ s2) f = Some (set_is_dirty false pg) ∧
            page_table_ s2 = delete (page_id_ pg) (page_table_ s) ∧
            next_page_id_ (disk_manager_ s2) = next_page_id_ (disk_manager_ s))
      as (Hf2 & Ht2 & Hid2).
    { subst s2. destruct (is_dirty_ pg) eqn:Hd.
      - destruct (Hreg eq_refl) as [_ Hp].
        rewrite (new_write_back_dirty s1 (page_id_ pg) f pg) by done.
        bpm_proj. by rewrite frame_update_eq, Hf1.
      - unfold new_write_back, GetPageId.
        rewrite (page_at_frame _ _ _ Hf1), Hd. bpm_proj.
        split; [|done]. rewrite Hf1. f_equal. destruct pg; simpl in *. by subst. }
    rewrite Hid2 in Hnew. injection Hnew as <- <-.
    destruct (new_install_shape f s2) as (_ & _ & _ & -> & _ & _ & _ & -> & _).
    rewrite Hf2, Hid2, Ht2. split; [done|]. split; [done|].
    rewrite table_insert_lookup, decide_True by done.
    destruct (decide (page_id_ pg = next_page_id_ (disk_manager_ s))) as [->|Hne].
    + by rewrite lookup_delete_eq.
    + rewrite lookup_delete_ne by done. by rewrite Hfresh.
  - rewrite (NewPageImpl_free _ _ _ Hfl) in Hnew. injection Hnew as <- <- <-.
    destruct (new_install_shape f0 (set_free rest s)) as (_ & _ & _ & -> & _ & _ & _ & -> & _).
    bpm_proj. rewrite Hf.
    destruct (is_dirty_ pg) eqn:Hd; [by destruct (Hreg eq_refl)|].
    split; [done|]. split; [by rewrite <- Hd|].
    by rewrite table_insert_lookup, decide_True, Hfresh.
Qed.

(** ** No index leaves the frame array *)

Lemma FlushAll_from_shape n i (s : BPM) :
  page_table_ (FlushAll_from n i s) = page_table_ s ∧
  free_list_ (FlushAll_from n i s) = free_list_ s ∧
  replacer_ (FlushAll_from n i s) = replacer_ s.
Proof.
  revert i s. induction n as [|n IH]; intros i s; [done|].
  rewrite FlushAll_from_S. destruct (IH (i + 1) (FlushAll_body i s)) as (-> & -> & ->).
  unfold FlushAll_body. destruct (_ =? _); [done|].
  by destruct (FlushPage_shape s (page_id_ (page_at s i))) as (-> & -> & -> & _).
Qed.

Lemma table_insert_range (P : Z → Prop) k v (m : gmap Z Z) :
  P v → (∀ q f, m !! q = Some f → P f) → ∀ q f, table_insert k v m !! q = Some f → P f.
Proof.
  intros Hv Hm q f. rewrite table_insert_lookup. case_decide; [|by apply Hm].
  destruct (m !! k) eqn:Hk; simpl; intros [= <-]; eauto.
Qed.

Lemma delete_range (P : Z → Prop) k (m : gmap Z Z) :
  (∀ q f, m !! q = Some f → P f) → ∀ q f, delete k m !! q = Some f → P f.
Proof. intros Hm q f. rewrite lookup_delete. case_decide; [done|apply Hm]. Qed.

Lemma frames_in_range_new n k dm : frames_in_range (BufferPoolManager_new n k dm).
Proof.
  unfold frames_in_range, in_pool, pool_size_. simpl. rewrite length_replicate.
  split; [|split].
  - intros p f. by rewrite lookup_empty.
  - intros f (j & -> & Hj%elem_of_seq)%list_elem_of_fmap. lia.
  - intros f. rewrite evictable_new. set_solver.
Qed.

Lemma frames_in_range_step o (s : BPM) : frames_in_range s → frames_in_range (step o s).
Proof.
  intros (Ht & Hf & He).
  assert ((∀ p f, page_table_ (step o s) !! p = Some f → in_pool s f) ∧
          (∀ f, f ∈ free_list_ (step o s) → in_pool s f) ∧
          (∀ f, f ∈ evictable (replacer_ (step o s)) → in_pool s f)) as Hstep.
  { destruct o as [p|p d|p| | |p|f d]; simpl.
    - destruct (page_table_ s !! p) as [f|] eqn:Hp.
      { rewrite (FetchPageImpl_hit _ _ _ Hp). bpm_proj. split; [done|]. split; [done|].
        intros g. rewrite evictable_Pin. set_solver. }
      destruct (free_list_ s) as [|f rest] eqn:Hfl.
      + destruct (Victim (replacer_ s)) as [[f r]|] eqn:Hv;
          [|rewrite (FetchPageImpl_exhausted _ _ Hp Hfl Hv); bpm_proj; by rewrite Hfl].
        rewrite (FetchPageImpl_victim _ _ _ _ Hp Hfl Hv). bpm_proj.
        apply Victim_Some in Hv as [Hin Hr].
        destruct (fetch_load_shape p f (fetch_write_back f (set_replacer r s)))
          as (-> & -> & _ & -> & _).
        destruct (fetch_write_back_shape f (set_replacer r s)) as (-> & -> & _ & Htb & _).
        bpm_proj. split; [|split].
        * apply table_insert_range; [by apply He|].
          destruct Htb as [->| ->]; [done|by apply delete_range].
        * by rewrite Hfl.
        * intros g. rewrite Hr. set_solver.
      + rewrite (FetchPageImpl_free _ _ _ _ Hp Hfl). bpm_proj.
        destruct (fetch_load_shape p f (fetch_write_back f (set_free rest s)))
          as (-> & -> & _ & -> & _).
        destruct (fetch_write_back_shape f (set_free rest s)) as (-> & -> & _ & Htb & _).
        bpm_proj. split; [|split; [|done]].
        * apply table_insert_range; [apply Hf; set_solver|].
          destruct Htb as [->| ->]; [done|by apply delete_range].
        * intros g Hg. apply Hf. set_solver.
    - unfold UnpinPageImpl. destruct (page_table_ s !! p) as [f|] eqn:Hp; [|done].
      destruct (_ =? 0); [done|]. bpm_proj. destruct (_ =? 0); bpm_proj; [|done].
      split; [done|]. split; [done|]. intros g. rewrite evictable_Unpin.
      intros [?| ->%elem_of_singleton]%elem_of_union; eauto.
    - unfold FlushPageImpl. by destruct (FlushPage_shape s p) as (-> & -> & -> & _).
    - unfold FlushAllPagesImpl.
      by destruct (FlushAll_from_shape (pool_size_ s) 0 s) as (-> & -> & ->).
    - destruct (free_list_ s) as [|f rest] eqn:Hfl.
      + destruct (Victim (replacer_ s)) as [[f r]|] eqn:Hv;
          [|rewrite (NewPageImpl_exhausted _ Hfl Hv); bpm_proj; by rewrite Hfl].
        rewrite (NewPageImpl_victim _ _ _ Hfl Hv). bpm_proj.
        apply Victim_Some in Hv as [Hin Hr].
        destruct (new_install_shape f (new_write_back f (set_replacer r s)))
          as (-> & -> & _ & -> & _).
        destruct (new_write_back_shape f (set_replacer r s)) as (-> & -> & _ & -> & _).
        bpm_proj. split; [|split].
        * apply table_insert_range; [by apply He|]. by apply delete_range.
        * by rewrite Hfl.
        * intros g. rewrite Hr. set_solver.
      + rewrite (NewPageImpl_free _ _ _ Hfl). bpm_proj.
        destruct (new_install_shape f (set_free rest s)) as (-> & -> & _ & -> & _).
        bpm_proj. split; [|split; [|done]].
        * apply table_insert_range; [apply Hf; set_solver|done].
        * intros g Hg. apply Hf. set_solver.
    - unfold DeletePageImpl. destruct (page_table_ s !! p) as [f|] eqn:Hp; [|done].
      destruct (0 <? _); [done|]. bpm_proj. split; [by apply delete_range|]. split; [|done].
      intros g [?| ->%list_elem_of_singleton]%elem_of_app; eauto.
    - done. }
  unfold frames_in_range, in_pool. by rewrite step_pool_size.
Qed.

(** X4: in a reachable state every frame index the manager keeps, in the page
    table, on the free list or with the policy, is an index into [pages_]; so
    the reads and writes of [pages_[f]] that the operations make are all
    within the array. *)
Theorem reachable_frames_in_range (s : BPM) : reachable s → frames_in_range s.
Proof.
  intros (n & k & dm & os & ->).
  apply run_invariant; [apply frames_in_range_step|apply frames_in_range_new].
Qed.

(** ** Frame labels *)

Lemma label_Some_frame (s : BPM) f p :
  label s f = Some p ↔ ∃ pg, frame (pages_ s) f = Some pg ∧ page_id_ pg = p.
Proof.
  unfold label. destruct (frame (pages_ s) f) as [pg|]; simpl; split.
  - intros [= <-]. eauto.
  - by intros (pg' & [= <-] & <-).
  - done.
  - by intros (? & ? & _).
Qed.

Lemma label_page_at (s : BPM) f p : label s f = Some p → page_id_ (page_at s f) = p.
Proof. intros (pg & Hf & <-)%label_Some_frame. by rewrite (page_at_frame _ _ _ Hf). Qed.

(** Labels go by the frames alone, and an update that keeps page ids keeps
    them. *)
Lemma label_update_keep (s s' : BPM) f g0 g :
  (∀ pg, page_id_ (g0 pg) = page_id_ pg) →
  pages_ s' = update_frame f g0 (pages_ s) → label s' g = label s g.
Proof.
  intros Hg0 Hpg. unfold label. rewrite Hpg, frame_update.
  case_decide; [|done]. destruct (frame (pages_ s) g); simpl; by rewrite ?Hg0.
Qed.

Lemma label_pages_eq (s s' : BPM) g : pages_ s' = pages_ s → label s' g = label s g.
Proof. unfold label. by intros ->. Qed.

Lemma label_flush (s : BPM) p g : label (snd (FlushPageImplWithoutLock p s)) g = label s g.
Proof.
  destruct (FlushPage_shape s p) as (_ & _ & _ & _ & [Hpg|(f & _ & Hpg)]).
  - by apply label_pages_eq.
  - by apply (label_update_keep _ _ f (set_is_dirty false)).
Qed.

Lemma label_FlushAll_from n i (s : BPM) g : label (FlushAll_from n i s) g = label s g.
Proof.
  revert i s. induction n as [|n IH]; intros i s; [done|].
  rewrite FlushAll_from_S, IH. unfold FlushAll_body. destruct (_ =? _); [done|].
  apply label_flush.
Qed.

Lemma label_fetch_write_back f (s1 : BPM) g : label (fetch_write_back f s1) g = label s1 g.
Proof.
  destruct (fetch_write_back_shape f s1) as (_ & _ & _ & _ & [Hpg|(f' & Hpg)]).
  - by apply label_pages_eq.
  - by apply (label_update_keep _ _ f' (set_is_dirty false)).
Qed.

Lemma label_new_write_back f (s1 : BPM) g : label (new_write_back f s1) g = label s1 g.
Proof.
  destruct (new_write_back_shape f s1) as (_ & _ & _ & _ & [Hpg|(f' & Hpg)]).
  - by apply label_pages_eq.
  - by apply (label_update_keep _ _ f' (set_is_dirty false)).
Qed.

Lemma label_fetch_load p f (s2 : BPM) g :
  label (fetch_load p f s2) g =
    if decide (g = f) then (λ _, p) <$> label s2 f else label s2 g.
Proof.
  destruct (fetch_load_shape p f s2) as (_ & _ & _ & _ & _ & _ & _ & Hf & Hother).
  unfold label. case_decide as Hg.
  - subst g. rewrite Hf. by destruct (frame (pages_ s2) f).
  - by rewrite Hother.
Qed.

Lemma label_new_install f (s3 : BPM) g :
  label (new_install f s3) g =
    if decide (g = f) then (λ _, next_page_id_ (disk_manager_ s3)) <$> label s3 f
    else label s3 g.
Proof.
  destruct (new_install_shape f s3) as (_ & _ & _ & _ & _ & _ & _ & Hf & Hother).
  unfold label. case_decide as Hg.
  - subst g. rewrite Hf. by destruct (frame (pages_ s3) f).
  - by rewrite Hother.
Qed.

(** ** The invariants of the data model along a run *)

(** A frame [f] is given a new label [k]: what has to hold of the page table
    [T2] left by the write-back, of the free list and of the policy. *)
Lemma consistent_install (s s' : BPM) (T2 : gmap Z Z) f k :
  consistent s → is_Some (label s f) →
  (∀ g, label s' g = if decide (g = f) then (λ _, k) <$> label s f else label s g) →
  page_table_ s' = <[k := f]> T2 →
  (∀ q g, T2 !! q = Some g → page_table_ s !! q = Some g ∧ g ≠ f) →
  (∀ q g, page_table_ s !! q = Some g → g ≠ f → q ≠ INVALID_PAGE_ID → T2 !! q = Some g) →
  page_table_ s !! k = None →
  NoDup (free_list_ s') →
  (∀ g, g ∈ free_list_ s' → g ∈ free_list_ s ∧ g ≠ f) →
  (∀ g, g ∈ evictable (replacer_ s') → g ∈ evictable (replacer_ s)) →
  consistent s'.
Proof.
  intros (HA & HB & HC & HD & HE & HF) [pid Hf] Hlab Ht Hsub Hkeep Hk Hnd Hfree Hev.
  assert (label s' f = Some k) as Hlf.
  { by rewrite Hlab, decide_True, Hf. }
  assert (∀ g, g ≠ f → label s' g = label s g) as Hlo.
  { intros g Hg. by rewrite Hlab, decide_False. }
  unfold consistent. rewrite Ht. split; [|split; [|split; [|split; [|split]]]].
  - intros q g. rewrite lookup_insert. case_decide as Hq.
    + subst q. by intros [= <-].
    + intros [Hin Hg]%Hsub. rewrite Hlo by done. by apply HA.
  - intros g q Hq Hinv. destruct (decide (g = f)) as [->|Hg].
    + rewrite Hlf in Hq. injection Hq as <-. apply lookup_insert_eq.
    + rewrite Hlo in Hq by done. pose proof (HB _ _ Hq Hinv) as Hin.
      rewrite lookup_insert_ne by congruence. by apply Hkeep.
  - done.
  - intros g [Hin Hg]%Hfree. rewrite Hlo by done. by apply HD.
  - intros q g. rewrite lookup_insert. case_decide as Hq.
    + intros [= <-] [_ Hin]%Hfree. done.
    + intros [Hin _]%Hsub [Hfr _]%Hfree. by apply (HE _ _ Hin).
  - intros g Hg%Hev%HF. destruct (decide (g = f)) as [->|Hne].
    + by rewrite Hlf.
    + by rewrite Hlo.
Qed.

(** The page table after the write-back stage of a fetch, when the frame is
    dirty or free. *)
Lemma fetch_write_back_table (s s1 : BPM) f pid :
  consistent s → label s f = Some pid →
  pages_ s1 = pages_ s → page_table_ s1 = page_table_ s →
  is_dirty_ (page_at s f) = true ∨ f ∈ free_list_ s →
  (∀ q g, page_table_ (fetch_write_back f s1) !! q = Some g →
     page_table_ s !! q = Some g ∧ g ≠ f) ∧
  (∀ q g, page_table_ s !! q = Some g → g ≠ f → q ≠ INVALID_PAGE_ID →
     page_table_ (fetch_write_back f s1) !! q = Some g).
Proof.
  intros (HA & HB & HC & HD & HE & HF) Hf Hpg Ht Hcase.
  assert (page_at s1 f = page_at s f) as Hat by (unfold page_at; by rewrite Hpg).
  pose proof (label_page_at _ _ _ Hf) as Hpid.
  assert (∀ q, page_table_ s !! q = Some f → q = pid) as Honly.
  { intros q Hq%HA. congruence. }
  unfold fetch_write_back, IsDirty, GetPageId. rewrite Hat, Hpid.
  destruct (is_dirty_ (page_at s f)) eqn:Hd.
  - cbv zeta. bpm_proj.
    destruct (FlushPage_shape s1 pid) as (-> & _). rewrite Ht. split.
    + intros q g. rewrite lookup_delete. case_decide; [done|]. intros Hq.
      split; [done|]. intros ->. by apply Honly in Hq.
    + intros q g Hq Hg Hinv. rewrite lookup_delete_ne; [done|]. intros <-.
      destruct (decide (pid = INVALID_PAGE_ID)) as [|Hne]; [done|].
      pose proof (HB _ _ Hf Hne). congruence.
  - destruct Hcase as [|Hfree]; [done|]. rewrite Ht. split.
    + intros q g Hq. split; [done|]. intros ->. by apply (HE _ _ Hq).
    + done.
Qed.

(** The page table after the eviction stage of [NewPageImpl] on a victim. *)
Lemma new_write_back_table (s s1 : BPM) f pid :
  consistent s → label s f = Some pid →
  pages_ s1 = pages_ s → page_table_ s1 = page_table_ s →
  (∀ q g, page_table_ (new_write_back f s1) !! q = Some g →
     page_table_ s !! q = Some g ∧ g ≠ f) ∧
  (∀ q g, page_table_ s !! q = Some g → g ≠ f → q ≠ INVALID_PAGE_ID →
     page_table_ (new_write_back f s1) !! q = Some g).
Proof.
  intros (HA & HB & HC & HD & HE & HF) Hf Hpg Ht.
  assert (page_at s1 f = page_at s f) as Hat by (unfold page_at; by rewrite Hpg).
  pose proof (label_page_at _ _ _ Hf) as Hpid.
  destruct (new_write_back_shape f s1) as (_ & _ & _ & -> & _).
  rewrite Hat, Hpid, Ht. split.
  - intros q g. rewrite lookup_delete. case_decide; [done|]. intros Hq.
    split; [done|]. intros ->. apply HA in Hq. congruence.
  - intros q g Hq Hg Hinv. rewrite lookup_delete_ne; [done|]. intros <-.
    destruct (decide (pid = INVALID_PAGE_ID)) as [|Hne]; [done|].
    pose proof (HB _ _ Hf Hne). congruence.
Qed.

Lemma FlushPage_next_page_id (s : BPM) p :
  next_page_id_ (disk_manager_ (snd (FlushPageImplWithoutLock p s))) =
  next_page_id_ (disk_manager_ s).
Proof.
  unfold FlushPageImplWithoutLock. destruct (page_table_ s !! p); [|done].
  by destruct (IsDirty _).
Qed.

Lemma new_write_back_next_page_id f (s1 : BPM) :
  next_page_id_ (disk_manager_ (new_write_back f s1)) = next_page_id_ (disk_manager_ s1).
Proof.
  unfold new_write_back. cbv zeta. bpm_proj. destruct (is_dirty_ _); [|done].
  apply FlushPage_next_page_id.
Qed.

(** A call that changes neither labels nor page table nor free list, and
    makes eviction-eligible at most a frame of the page table. *)
Lemma consistent_same (s s' : BPM) :
  consistent s → (∀ g, label s' g = label s g) →
  page_table_ s' = page_table_ s → free_list_ s' = free_list_ s →
  (∀ g, g ∈ evictable (replacer_ s') →
     g ∈ evictable (replacer_ s) ∨ ∃ p, page_table_ s !! p = Some g) →
  consistent s'.
Proof.
  intros (HA & HB & HC & HD & HE & HF) Hlab Ht Hfl Hev.
  unfold consistent. rewrite Ht, Hfl. repeat split; try done.
  - intros p f Hp. rewrite Hlab. by apply HA.
  - intros f p. rewrite Hlab. apply HB.
  - intros f Hf. rewrite Hlab. by apply HD.
  - intros g [Hg|[p Hp]]%Hev; rewrite Hlab; [by apply HF|].
    apply HA in Hp. by rewrite Hp.
Qed.

Lemma consistent_new n k dm : consistent (BufferPoolManager_new n k dm).
Proof.
  unfold consistent. simpl. repeat split.
  - intros p f. by rewrite lookup_empty.
  - intros f p (pg & Hf & <-)%label_Some_frame. simpl in Hf. unfold frame in Hf.
    destruct (0 <=? f); [|done]. by apply lookup_replicate in Hf as [-> _].
  - apply (NoDup_fmap_2 Z.of_nat), NoDup_seq.
  - intros f (j & -> & Hj%elem_of_seq)%list_elem_of_fmap. apply label_Some_frame.
    exists (Page_new k). split; [|done]. simpl. unfold frame.
    destruct (Z.leb_spec 0 (Z.of_nat j)); [|lia]. apply lookup_replicate. split; [done|lia].
  - intros p f. by rewrite lookup_empty.
  - intros f. rewrite evictable_new. set_solver.
Qed.

Lemma consistent_step o (s : BPM) :
  consistent s → keeps_consistent o s → consistent (step o s).
Proof.
  intros Hs Hsafe. pose proof Hs as (HA & HB & HC & HD & HE & HF).
  destruct o as [p|p d|p| | |p|f d]; simpl in *.
  - destruct (page_table_ s !! p) as [f|] eqn:Hp.
    { rewrite (FetchPageImpl_hit _ _ _ Hp). bpm_proj. apply (consistent_same s); try done.
      - intros g. by apply (label_update_keep _ _ f (λ pg, set_pin_count (pin_count_ pg + 1) pg)).
      - intros g. bpm_proj. rewrite evictable_Pin. set_solver. }
    destruct (free_list_ s) as [|f rest] eqn:Hfl.
    + destruct (Victim (replacer_ s)) as [[f r]|] eqn:Hv;
        [|by rewrite (FetchPageImpl_exhausted _ _ Hp Hfl Hv)].
      rewrite (FetchPageImpl_victim _ _ _ _ Hp Hfl Hv). bpm_proj.
      pose proof (Hsafe eq_refl eq_refl f r eq_refl) as Hd.
      apply Victim_Some in Hv as [Hin Hr]. destruct (HF _ Hin) as [pid Hf].
      set (s1 := set_replacer r s).
      destruct (fetch_write_back_table s s1 f pid Hs Hf eq_refl eq_refl (or_introl Hd))
        as [Hsub Hkeep].
      destruct (fetch_load_shape p f (fetch_write_back f s1)) as (Hfl' & Hr' & _ & Ht' & _).
      destruct (fetch_write_back_shape f s1) as (Hfl2 & Hr2 & _).
      apply (consistent_install s _ (page_table_ (fetch_write_back f s1)) f p); try done.
      * intros g. rewrite label_fetch_load, !label_fetch_write_back. done.
      * rewrite Ht'. unfold table_insert.
        destruct (page_table_ (fetch_write_back f s1) !! p) as [g|] eqn:Hq; [|done].
        apply Hsub in Hq as [Hq _]. congruence.
      * rewrite Hfl', Hfl2. subst s1. bpm_proj. rewrite Hfl. apply NoDup_nil_2.
      * intros g. rewrite Hfl', Hfl2. subst s1. bpm_proj. rewrite Hfl. by intros ?%elem_of_nil.
      * intros g. rewrite Hr', Hr2. subst s1. bpm_proj. rewrite Hr. set_solver.
    + rewrite (FetchPageImpl_free _ _ _ _ Hp Hfl). bpm_proj.
      apply NoDup_cons in HC as [Hnotin Hnd].
      assert (label s f = Some INVALID_PAGE_ID) as Hf by (apply HD; set_solver).
      set (s1 := set_free rest s).
      destruct (fetch_write_back_table s s1 f _ Hs Hf eq_refl eq_refl) as [Hsub Hkeep].
      { right. rewrite Hfl. set_solver. }
      destruct (fetch_load_shape p f (fetch_write_back f s1)) as (Hfl' & Hr' & _ & Ht' & _).
      destruct (fetch_write_back_shape f s1) as (Hfl2 & Hr2 & _).
      apply (consistent_install s _ (page_table_ (fetch_write_back f s1)) f p); try done.
      * intros g. rewrite label_fetch_load, !label_fetch_write_back. done.
      * rewrite Ht'. unfold table_insert.
        destruct (page_table_ (fetch_write_back f s1) !! p) as [g|] eqn:Hq; [|done].
        apply Hsub in Hq as [Hq _]. congruence.
      * by rewrite Hfl', Hfl2.
      * intros g. rewrite Hfl', Hfl2. subst s1. bpm_proj. rewrite Hfl. intros Hg.
        split; [set_solver|]. by intros ->.
      * intros g. by rewrite Hr', Hr2.
  - apply (consistent_same s); try done.
    + intros g. unfold UnpinPageImpl. destruct (page_table_ s !! p) as [f|]; [|done].
      destruct (_ =? 0); [done|]. bpm_proj.
      assert (∀ s0 : BPM, pages_ s0 = update_frame f (λ pg, set_is_dirty (is_dirty_ pg || d) pg)
                (update_frame f (λ pg, set_pin_count (pin_count_ pg - 1) pg) (pages_ s)) →
              label s0 g = label s g) as Hl.
      { intros s0 Hpg. unfold label. rewrite Hpg, !frame_update.
        case_decide; [|done]. by destruct (frame (pages_ s) g). }
      by destruct (_ =? 0); apply Hl.
    + by destruct (UnpinPageImpl_keeps s p d) as (-> & _).
    + unfold UnpinPageImpl. destruct (page_table_ s !! p); [|done].
      destruct (_ =? 0); [done|]. bpm_proj. by destruct (_ =? 0).
    + intros g. unfold UnpinPageImpl. destruct (page_table_ s !! p) as [f|] eqn:Hp; [|auto].
      destruct (_ =? 0); [auto|]. bpm_proj. destruct (_ =? 0); bpm_proj; [|auto].
      rewrite evictable_Unpin. intros [?| ->%elem_of_singleton]%elem_of_union; eauto.
  - unfold FlushPageImpl. destruct (FlushPage_shape s p) as (Ht & Hfl & Hr & _).
    apply (consistent_same s); try done.
    + intros g. apply label_flush.
    + intros g. rewrite Hr. auto.
  - unfold FlushAllPagesImpl.
    destruct (FlushAll_from_shape (pool_size_ s) 0 s) as (Ht & Hfl & Hr).
    apply (consistent_same s); try done.
    + intros g. apply label_FlushAll_from.
    + intros g. rewrite Hr. auto.
  - destruct (free_list_ s) as [|f rest] eqn:Hfl.
    + destruct (Victim (replacer_ s)) as [[f r]|] eqn:Hv;
        [|by rewrite (NewPageImpl_exhausted _ Hfl Hv)].
      rewrite (NewPageImpl_victim _ _ _ Hfl Hv). bpm_proj.
      apply Victim_Some in Hv as [Hin Hr]. destruct (HF _ Hin) as [pid Hf].
      set (s1 := set_replacer r s).
      destruct (new_write_back_table s s1 f pid Hs Hf eq_refl eq_refl) as [Hsub Hkeep].
      destruct (new_install_shape f (new_write_back f s1)) as (Hfl' & Hr' & _ & Ht' & _).
      destruct (new_write_back_shape f s1) as (Hfl2 & Hr2 & _).
      pose proof (new_write_back_next_page_id f s1) as Hid.
      change (disk_manager_ s1) with (disk_manager_ s) in Hid.
      apply (consistent_install s _ (page_table_ (new_write_back f s1)) f
               (next_page_id_ (disk_manager_ s))); try done.
      * intros g. rewrite label_new_install, !label_new_write_back, Hid. done.
      * rewrite Ht', Hid. unfold table_insert.
        destruct (page_table_ (new_write_back f s1) !! _) as [g|] eqn:Hq; [|done].
        apply Hsub in Hq as [Hq _]. congruence.
      * rewrite Hfl', Hfl2. subst s1. bpm_proj. rewrite Hfl. apply NoDup_nil_2.
      * intros g. rewrite Hfl', Hfl2. subst s1. bpm_proj. rewrite Hfl. by intros ?%elem_of_nil.
      * intros g. rewrite Hr', Hr2. subst s1. bpm_proj. rewrite Hr. set_solver.
    + rewrite (NewPageImpl_free _ _ _ Hfl). bpm_proj.
      apply NoDup_cons in HC as [Hnotin Hnd].
      assert (label s f = Some INVALID_PAGE_ID) as Hf by (apply HD; set_solver).
      set (s1 := set_free rest s).
      destruct (new_install_shape f s1) as (Hfl' & Hr' & _ & Ht' & _).
      apply (consistent_install s _ (page_table_ s) f
               (next_page_id_ (disk_manager_ s))); try done.
      * intros g. by rewrite label_new_install.
      * rewrite Ht'. subst s1. bpm_proj. unfold table_insert. by rewrite Hsafe.
      * intros q g Hq. split; [done|]. intros ->. apply (HE _ _ Hq). set_solver.
      * intros g. rewrite Hfl'. subst s1. bpm_proj. rewrite Hfl. intros Hg.
        split; [set_solver|]. by intros ->.
  - unfold DeletePageImpl. destruct (page_table_ s !! p) as [f|] eqn:Hp; [|done].
    destruct (0 <? _); [done|]. bpm_proj.
    pose proof (HA _ _ Hp) as Hf.
    assert (∀ s0 : BPM, pages_ s0 =
              update_frame f (set_is_dirty false) (update_frame f (set_pin_count 0)
                (update_frame f (set_page_id INVALID_PAGE_ID)
                   (update_frame f ResetMemory (pages_ s)))) →
            ∀ g, label s0 g = if decide (g = f) then Some INVALID_PAGE_ID else label s g) as Hl.
    { intros s0 Hpg g. unfold label in *. rewrite Hpg, !frame_update.
      case_decide as Hg; [subst g|]; [rewrite !decide_True by done|by rewrite !decide_False].
      by destruct (frame (pages_ s) f). }
    unfold consistent. bpm_proj. repeat split.
    + intros q g. rewrite lookup_delete. case_decide; [done|]. intros Hq.
      erewrite Hl by reflexivity; rewrite decide_False; [by apply HA|].
      intros ->. apply HA in Hq. congruence.
    + intros g q. erewrite Hl by reflexivity. case_decide as Hg; [by intros [= <-]|].
      intros Hq Hinv. pose proof (HB _ _ Hq Hinv) as Hin.
      rewrite lookup_delete_ne; [done|]. intros <-. congruence.
    + apply NoDup_app. split; [done|]. split; [|apply NoDup_singleton].
      intros g Hg ->%list_elem_of_singleton. by apply (HE _ _ Hp).
    + intros g. erewrite Hl by reflexivity. case_decide; [done|].
      intros [?| ->%list_elem_of_singleton]%elem_of_app; [by apply HD|done].
    + intros q g. rewrite lookup_delete. case_decide; [done|]. intros Hq.
      intros [?| ->%list_elem_of_singleton]%elem_of_app; [by apply (HE _ _ Hq)|].
      apply HA in Hq. congruence.
    + intros g Hg%HF. erewrite Hl by reflexivity. by case_decide.
  - apply (consistent_same s); try done; [|auto].
    intros g. by apply (label_update_keep _ _ f (λ pg, set_data (write_bytes d (data_ pg)) pg)).
Qed.

Lemma consistent_run os (s : BPM) :
  consistent s → keeps_consistent_run os s → consistent (run os s).
Proof.
  revert s. induction os as [|o os IH]; intros s Hs Hos; [done|].
  destruct Hos as [Ho Hos]. apply (IH (step o s)); [|done]. by apply consistent_step.
Qed.

(** No two entries of the page table share a frame, and the frames are
    indices into [pages_]: there are no more entries than frames. *)
Lemma consistent_size (s : BPM) :
  consistent s → (size (page_table_ s) ≤ pool_size_ s)%nat.
Proof.
  intros (HA & _). rewrite <-length_map_to_list.
  rewrite <-(length_fmap snd), <-(length_seq (pool_size_ s) 0) at 1.
  rewrite <-(length_fmap Z.of_nat (seq 0 (pool_size_ s))).
  apply submseteq_length, NoDup_submseteq.
  - apply NoDup_fmap_2_strong; [|apply NoDup_map_to_list].
    intros [p f] [q g] Hp%elem_of_map_to_list Hq%elem_of_map_to_list. simpl. intros ->.
    apply HA in Hp, Hq. congruence.
  - intros f ([p g] & -> & Hp%elem_of_map_to_list)%list_elem_of_fmap. simpl.
    apply HA, label_Some_frame in Hp as (pg & Hf%frame_Some_range & _).
    apply list_elem_of_fmap. exists (Z.to_nat g). split; [lia|].
    apply elem_of_seq. unfold pool_size_. lia.
Qed.

Lemma consistent_page_table_inv (s : BPM) : consistent s → page_table_inv s.
Proof.
  intros Hs. pose proof Hs as (HA & HB & _). split; [|split].
  - intros p f Hp. by apply label_Some_frame, HA.
  - intros f pg Hf Hid. apply HB; [|done]. apply label_Some_frame. eauto.
  - by apply consistent_size.
Qed.

(** X5. The invariants of the data model, and with them the page-table
    invariant, hold after every run of public operations on a new pool in
    which no fetch that has to evict is given a clean victim and no
    [NewPageImpl] is made while the disk's next page id is in the page
    table: the clean victim of a fetch, whose page-table entry lines 73-77
    leave in place, is the one way the operations break the invariant on
    their own. *)
Theorem consistent_preserved os n k dm :
  keeps_consistent_run os (BufferPoolManager_new n k dm) →
  consistent (run os (BufferPoolManager_new n k dm)) ∧
  page_table_inv (run os (BufferPoolManager_new n k dm)).
Proof.
  intros Hos.
  assert (consistent (run os (BufferPoolManager_new n k dm))) as Hs
    by (apply consistent_run; [apply consistent_new|done]).
  split; [done|]. by apply consistent_page_table_inv.
Qed.

(** ** The page table and the frame labels *)

Lemma run_app os1 os2 (s : BPM) : run (os1 ++ os2) s = run os2 (run os1 s).
Proof. unfold run. apply foldl_app. Qed.

Lemma reachable_run os n k dm : reachable (run os (BufferPoolManager_new n k dm)).
Proof. by exists n, k, dm, os. Qed.

(** A policy with one eviction-eligible frame evicts that frame. *)
Lemma only_victim (r : R) f :
  evictable r = {[f]} → ∃ r', Victim r = Some (f, r') ∧ evictable r' = ∅.
Proof.
  intros He. destruct (Victim r) as [[f' r']|] eqn:Hv.
  - apply Victim_Some in Hv as [Hin Hr']. rewrite He in Hin, Hr'.
    apply elem_of_singleton in Hin as ->. exists r'. split; [done|]. set_solver.
  - apply Victim_None in Hv. rewrite He in Hv. set_solver.
Qed.

Lemma frame_one (pg pg' : Page) f : frame [pg] f = Some pg' → f = 0 ∧ pg' = pg.
Proof.
  intros Hf. pose proof (frame_Some_range _ _ _ Hf) as Hr. simpl in Hr.
  assert (f = 0) as -> by lia. unfold frame in Hf. simpl in Hf. by injection Hf as <-.
Qed.

(** C2: from a state in which the page-table invariant holds, [FetchPageImpl]
    of a page that is not resident, served by evicting a clean page, leaves a
    state in which it fails; this for every policy that meets the contract.
    The pool has one frame; page 10 was fetched and unpinned clean; the fetch
    of page 11 reuses the frame and keeps the entry of page 10, so the table
    has two entries for one frame, and the entry of page 10 leads to a frame
    labelled 11. *)
Theorem fetch_keeps_stale_entry :
  let s := run [OpFetch 10; OpUnpin 10 false] pool1 in
  let s' := snd (FetchPageImpl 11 s) in
  reachable s ∧ page_table_inv s ∧
  fst (FetchPageImpl 11 s) = Some 0 ∧
  page_table_ s' !! 10 = Some 0 ∧ page_table_ s' !! 11 = Some 0 ∧
  page_id_ (page_at s' 0) = 11 ∧
  size (page_table_ s') = 2%nat ∧ pool_size_ s' = 1%nat ∧
  ¬ page_table_inv s'.
Proof.
  intros s s'.
  assert (replacer_ s = Unpin 0 (Replacer_new 1)) as Hr by (vm_compute; reflexivity).
  destruct (only_victim (replacer_ s) 0) as (r' & Hv & _).
  { rewrite Hr, evictable_Unpin, evictable_new. set_solver. }
  assert (FetchPageImpl 11 s = (Some 0, fetch_load 11 0 (fetch_write_back 0 (set_replacer r' s))))
    as Heq.
  { apply FetchPageImpl_victim; [vm_compute; reflexivity|reflexivity|exact Hv]. }
  subst s'. rewrite Heq. bpm_proj.
  set (s' := fetch_load _ _ _).
  assert (page_table_ s' !! 10 = Some 0) as H10 by (vm_compute; reflexivity).
  assert (page_id_ (page_at s' 0) = 11) as Hid by (vm_compute; reflexivity).
  split; [apply reachable_run|]. split.
  { assert (page_table_ s = {[10 := 0]}) as Ht by (vm_compute; reflexivity).
    assert (pages_ s = [mkPage [x0a; x0a] 10 0 false]) as Hpg by (vm_compute; reflexivity).
    unfold page_table_inv, pool_size_. rewrite Ht, Hpg. split; [|split].
    - intros p f [<- <-]%lookup_singleton_Some. by eexists.
    - intros f pg [-> ->]%frame_one _. apply lookup_singleton_eq.
    - by rewrite map_size_singleton. }
  split; [done|]. split; [done|]. split; [vm_compute; reflexivity|]. split; [done|].
  split; [vm_compute; reflexivity|]. split; [vm_compute; reflexivity|].
  intros (Hentry & _). destruct (Hentry 10 0 H10) as (pg & Hf & Hpid).
  rewrite (page_at_frame _ _ _ Hf) in Hid. congruence.
Qed.

Lemma FetchPageImpl_only_victim (s : BPM) p f :
  page_table_ s !! p = None → free_list_ s = [] → evictable (replacer_ s) = {[f]} →
  ∃ r', evictable r' = ∅ ∧
    FetchPageImpl p s = (Some f, fetch_load p f (fetch_write_back f (set_replacer r' s))).
Proof.
  intros Hp Hfl He. destruct (only_victim _ _ He) as (r' & Hv & He').
  exists r'. split; [done|]. by apply FetchPageImpl_victim.
Qed.

(** ** Victims and pin counts *)

(** C3: two reachable states of a pool of one frame in which, for every
    policy that meets the contract, the frame is pinned once, is
    eviction-eligible for the policy, and is the victim the policy selects;
    the next fetch of another page reuses it.  In the first the frame was
    deleted while eviction-eligible and handed out again from the free list
    ([DeletePageImpl] makes no call on the policy); in the second the page
    was fetched again after an unpin ([FetchPageImpl] calls [Pin] with the
    page id 10, not the frame index 0). *)
Theorem pinned_frame_selected :
  let s1 := run [OpFetch 10; OpUnpin 10 false; OpDelete 10; OpFetch 11] pool1 in
  let s2 := run [OpFetch 10; OpUnpin 10 false; OpFetch 10] pool1 in
  (reachable s1 ∧ pin_count_at s1 0 = 1 ∧ 0 ∈ evictable (replacer_ s1) ∧
   (∃ r, Victim (replacer_ s1) = Some (0, r)) ∧
   fst (FetchPageImpl 12 s1) = Some 0 ∧
   ¬ victims_unpinned s1 ∧ ¬ evictable_unpinned s1) ∧
  (reachable s2 ∧ pin_count_at s2 0 = 1 ∧ 0 ∈ evictable (replacer_ s2) ∧
   (∃ r, Victim (replacer_ s2) = Some (0, r)) ∧
   fst (FetchPageImpl 12 s2) = Some 0 ∧
   ¬ victims_unpinned s2 ∧ ¬ evictable_unpinned s2).
Proof.
  intros s1 s2.
  assert (∀ s : BPM, pin_count_at s 0 = 1 → evictable (replacer_ s) = {[0]} →
            page_table_ s !! 12 = None → free_list_ s = [] →
            pin_count_at s 0 = 1 ∧ 0 ∈ evictable (replacer_ s) ∧
            (∃ r, Victim (replacer_ s) = Some (0, r)) ∧
            fst (FetchPageImpl 12 s) = Some 0 ∧
            ¬ victims_unpinned s ∧ ¬ evictable_unpinned s) as Hall.
  { intros s Hpin He Hp Hfl. destruct (only_victim _ _ He) as (r & Hv & _).
    split; [done|]. split; [rewrite He; set_solver|]. split; [eauto|].
    split; [by rewrite (FetchPageImpl_victim _ _ _ _ Hp Hfl Hv)|]. split.
    - intros Hno. apply (Hno 0 r Hv). lia.
    - intros Hno. specialize (Hno 0). rewrite He in Hno.
      assert (pin_count_at s 0 = 0) by (apply Hno; set_solver). lia. }
  split; (split; [apply reachable_run|]); apply Hall; try (vm_compute; reflexivity).
  - assert (replacer_ s1 = Unpin 0 (Replacer_new 1)) as -> by (vm_compute; reflexivity).
    rewrite evictable_Unpin, evictable_new. set_solver.
  - assert (replacer_ s2 = Pin 10 (Unpin 0 (Replacer_new 1))) as -> by (vm_compute; reflexivity).
    rewrite evictable_Pin, evictable_Unpin, evictable_new. set_solver.
Qed.

(** ** Runs on the pool of one frame *)

(** The state after page 10 was fetched and unpinned and page 11 fetched in
    its place: the policy's only choice was frame 0. *)
Lemma stale_entry_state :
  ∃ r, evictable r = ∅ ∧
    run [OpFetch 10; OpUnpin 10 false; OpFetch 11] pool1 =
      fetch_load 11 0 (fetch_write_back 0
        (set_replacer r (run [OpFetch 10; OpUnpin 10 false] pool1))).
Proof.
  set (s := run [OpFetch 10; OpUnpin 10 false] pool1).
  destruct (FetchPageImpl_only_victim s 11 0) as (r & He & Heq);
    [vm_compute; reflexivity|reflexivity| |].
  { assert (replacer_ s = Unpin 0 (Replacer_new 1)) as -> by (vm_compute; reflexivity).
    rewrite evictable_Unpin, evictable_new. set_solver. }
  exists r. split; [done|].
  change (run [OpFetch 10; OpUnpin 10 false; OpFetch 11] pool1) with (snd (FetchPageImpl 11 s)).
  by rewrite Heq.
Qed.

(** The same run continued: page 10 fetched again, written, both pins
    released, and page 12 fetched, which evicts frame 0 once more. *)
Lemma evicted_state :
  ∃ r r' : R,
    run [OpFetch 10; OpUnpin 10 false; OpFetch 11] pool1 =
      fetch_load 11 0 (fetch_write_back 0
        (set_replacer r (run [OpFetch 10; OpUnpin 10 false] pool1))) ∧
    run [OpFetch 10; OpUnpin 10 false; OpFetch 11; OpFetch 10; OpWrite 0 written;
         OpUnpin 10 true; OpUnpin 11 false; OpFetch 12] pool1 =
      fetch_load 12 0 (fetch_write_back 0 (set_replacer r'
        (run [OpFetch 10; OpWrite 0 written; OpUnpin 10 true; OpUnpin 11 false]
           (fetch_load 11 0 (fetch_write_back 0
              (set_replacer r (run [OpFetch 10; OpUnpin 10 false] pool1))))))).
Proof.
  destruct stale_entry_state as (r & He & Hst). exists r.
  set (sa := run [OpFetch 10; OpWrite 0 written; OpUnpin 10 true; OpUnpin 11 false]
    (fetch_load 11 0 (fetch_write_back 0
       (set_replacer r (run [OpFetch 10; OpUnpin 10 false] pool1))))).
  destruct (FetchPageImpl_only_victim sa 12 0) as (r' & _ & Heq);
    [vm_compute; reflexivity|vm_compute; reflexivity| |].
  { assert (replacer_ sa = Unpin 0 (Pin 10 r)) as -> by (vm_compute; reflexivity).
    rewrite evictable_Unpin, evictable_Pin, He. set_solver. }
  exists r'. split; [done|].
  rewrite (run_app [OpFetch 10; OpUnpin 10 false; OpFetch 11]
             [OpFetch 10; OpWrite 0 written; OpUnpin 10 true; OpUnpin 11 false; OpFetch 12]).
  rewrite Hst.
  rewrite (run_app [OpFetch 10; OpWrite 0 written; OpUnpin 10 true; OpUnpin 11 false]
             [OpFetch 12]).
  fold sa. change (run [OpFetch 12] sa) with (snd (FetchPageImpl 12 sa)). by rewrite Heq.
Qed.

(** C9: a reachable state, for every policy that meets the contract, from
    which [NewPageImpl] succeeds and returns a frame whose dirty flag is
    set.  Page 10 was evicted clean by the fetch of page 11, which kept its
    page-table entry; the deletion of page 11 put the frame on the free
    list; a fetch of page 10 found the kept entry, and its unpin marked the
    free frame dirty.  [NewPageImpl] takes the frame from the free list and
    assigns every member but the dirty flag. *)
Theorem new_page_returned_dirty :
  let s := run [OpFetch 10; OpUnpin 10 false; OpFetch 11; OpUnpin 11 false;
                OpDelete 11; OpFetch 10; OpUnpin 10 true] pool1 in
  reachable s ∧
  fst (NewPageImpl s) = Some (13, 0) ∧
  frame (pages_ (snd (NewPageImpl s))) 0 = Some (mkPage [x00; x00] 13 1 true).
Proof.
  intros s. split; [apply reachable_run|].
  destruct stale_entry_state as (r & _ & Hst). subst s.
  rewrite (run_app [OpFetch 10; OpUnpin 10 false; OpFetch 11]
             [OpUnpin 11 false; OpDelete 11; OpFetch 10; OpUnpin 10 true]).
  rewrite Hst. split; vm_compute; reflexivity.
Qed.

(** C1: a run, for every policy that meets the contract, in which a page is
    fetched, written, unpinned dirty and evicted, and the next fetch of it
    does not return what was written.  The fetch of page 11 evicts the clean
    page 10 and keeps its page-table entry, so the fetch of page 10 returns
    the frame that holds page 11.  The bytes written there are written back
    at the eviction under id 11; storage keeps the old bytes of page 10, and
    the last fetch of page 10 finds the kept entry again and returns the
    frame that now holds page 12. *)
Theorem dirty_page_lost :
  let s0 := run [OpFetch 10; OpUnpin 10 false; OpFetch 11] pool1 in
  let s := run [OpFetch 10; OpUnpin 10 false; OpFetch 11;
                OpFetch 10; OpWrite 0 written] pool1 in
  let s' := run [OpFetch 10; OpUnpin 10 false; OpFetch 11;
                 OpFetch 10; OpWrite 0 written;
                 OpUnpin 10 true; OpUnpin 11 false; OpFetch 12; OpUnpin 12 false] pool1 in
  reachable s' ∧
  fst (FetchPageImpl 10 s0) = Some 0 ∧
  data_ (page_at s 0) = written ∧
  fst (UnpinPageImpl 10 true s) = true ∧
  page_id_ (page_at s' 0) = 12 ∧
  fst (FetchPageImpl 10 s') = Some 0 ∧
  data_ (page_at (snd (FetchPageImpl 10 s')) 0) = [x0c; x0c] ∧
  stored_ (disk_manager_ s') !! 10 = Some [x0a; x0a] ∧
  stored_ (disk_manager_ s') !! 11 = Some written.
Proof.
  cbv zeta. split; [apply reachable_run|].
  destruct evicted_state as (r & r' & Hst & Hev).
  rewrite (run_app [OpFetch 10; OpUnpin 10 false; OpFetch 11]
             [OpFetch 10; OpWrite 0 written]).
  rewrite (run_app [OpFetch 10; OpUnpin 10 false; OpFetch 11; OpFetch 10; OpWrite 0 written;
                    OpUnpin 10 true; OpUnpin 11 false; OpFetch 12] [OpUnpin 12 false]).
  rewrite Hev, Hst.
  repeat split; vm_compute; reflexivity.
Qed.

(** ** The calls on the disk manager *)

Lemma new_calls_eq o (s : BPM) l :
  calls_ (disk_manager_ (step o s)) = calls_ (disk_manager_ s) ++ l → new_calls o s = l.
Proof. intros Hl. unfold new_calls. by rewrite Hl, drop_app_length. Qed.

Lemma FlushPage_disk (s : BPM) q :
  disk_manager_ (snd (FlushPageImplWithoutLock q s)) = disk_manager_ s ∨
  ∃ f, dirty_in s q f ∧
    disk_manager_ (snd (FlushPageImplWithoutLock q s)) =
      WritePage q (data_ (page_at s f)) (disk_manager_ s).
Proof.
  destruct (page_table_ s !! q) as [f|] eqn:Hq.
  - destruct (is_dirty_ (page_at s f)) eqn:Hd.
    + right. exists f. split; [done|]. by rewrite (FlushPage_dirty _ _ _ Hq Hd).
    + left. by rewrite (FlushPage_clean _ _ _ Hq Hd).
  - left. by rewrite (FlushPage_absent _ _ Hq).
Qed.

Lemma flushed_refl (s : BPM) : flushed s s [].
Proof. unfold flushed. rewrite app_nil_r. repeat split; auto. Qed.

Lemma flushed_trans (s s1 s2 : BPM) l1 l2 :
  flushed s s1 l1 → flushed s1 s2 l2 → flushed s s2 (l1 ++ l2).
Proof.
  intros (Hc1 & Hl1 & Hst1 & Hn1 & Ht1 & Hd1 & Hm1) (Hc2 & Hl2 & Hst2 & Hn2 & Ht2 & Hd2 & Hm2).
  assert (∀ p f, dirty_in s1 p f → dirty_in s p f) as Hin.
  { intros p f [Hp Hf]. split; [by rewrite <-Ht1|by apply Hm1]. }
  repeat split.
  - by rewrite Hc2, Hc1, app_assoc.
  - apply Forall_app. split; [done|]. eapply Forall_impl; [exact Hl2|]. simpl.
    intros c (p & f & Hpf & ->). exists p, f. rewrite Hd1. auto.
  - intros p. destruct (Hst2 p) as [->|(f & Hpf & ->)]; [apply Hst1|].
    right. exists f. rewrite Hd1. auto.
  - congruence.
  - congruence.
  - intros f. by rewrite Hd2.
  - auto.
Qed.

Lemma flushed_flush (s : BPM) q :
  ∃ l, flushed s (snd (FlushPageImplWithoutLock q s)) l ∧
       (l = [] ∨ ∃ f, dirty_in s q f ∧ l = [CallWritePage q (data_ (page_at s f))]).
Proof.
  destruct (FlushPage_shape s q) as (Ht & _).
  assert (∀ l, calls_ (disk_manager_ (snd (FlushPageImplWithoutLock q s))) =
               calls_ (disk_manager_ s) ++ l →
    Forall (λ c, ∃ p f, dirty_in s p f ∧ c = CallWritePage p (data_ (page_at s f))) l →
    (∀ p, stored_ (disk_manager_ (snd (FlushPageImplWithoutLock q s))) !! p =
            stored_ (disk_manager_ s) !! p ∨
          ∃ f, dirty_in s p f ∧
            stored_ (disk_manager_ (snd (FlushPageImplWithoutLock q s))) !! p =
              Some (data_ (page_at s f))) →
    flushed s (snd (FlushPageImplWithoutLock q s)) l) as Hmk.
  { intros l Hc Hl Hst. repeat split; try done.
    - apply FlushPage_next_page_id.
    - intros f. by apply (FlushPage_page_at data_).
    - intros f Hf. destruct (is_dirty_ (page_at s f)) eqn:Hd; [done|].
      by rewrite (FlushPage_dirty_mono _ q _ Hd) in Hf. }
  destruct (FlushPage_disk s q) as [Hdm|(f & Hqf & Hdm)].
  - exists []. split; [|by left]. apply Hmk; [by rewrite Hdm, app_nil_r|done|].
    intros p. left. by rewrite Hdm.
  - exists [CallWritePage q (data_ (page_at s f))]. split; [|right; eauto].
    apply Hmk; [by rewrite Hdm|by repeat constructor; eauto|].
    intros p. rewrite Hdm. simpl. destruct (decide (p = q)) as [->|Hne].
    + right. exists f. by rewrite lookup_insert_eq.
    + left. by rewrite lookup_insert_ne.
Qed.

Lemma flushed_FlushAll_from n i (s : BPM) : ∃ l, flushed s (FlushAll_from n i s) l.
Proof.
  revert i s. induction n as [|n IH]; intros i s; [exists []; apply flushed_refl|].
  rewrite FlushAll_from_S.
  assert (∃ l, flushed s (FlushAll_body i s) l) as [l1 H1].
  { unfold FlushAll_body. destruct (_ =? _); [exists []; apply flushed_refl|].
    destruct (flushed_flush s (page_id_ (page_at s i))) as (l & Hl & _). eauto. }
  destruct (IH (i + 1) (FlushAll_body i s)) as [l2 H2].
  exists (l1 ++ l2). by apply (flushed_trans _ _ _ _ _ H1).
Qed.

Lemma fetch_write_back_disk f (s1 : BPM) :
  disk_manager_ (fetch_write_back f s1) = disk_manager_ s1 ∨
  ∃ q g, dirty_in s1 q g ∧
    disk_manager_ (fetch_write_back f s1) =
      WritePage q (data_ (page_at s1 g)) (disk_manager_ s1).
Proof.
  unfold fetch_write_back. destruct (IsDirty _); [|by left]. cbv zeta. bpm_proj.
  destruct (FlushPage_disk s1 (GetPageId (page_at s1 f))) as [?|(g & ? & ?)]; eauto.
Qed.

Lemma new_write_back_disk f (s1 : BPM) :
  disk_manager_ (new_write_back f s1) = disk_manager_ s1 ∨
  ∃ q g, dirty_in s1 q g ∧
    disk_manager_ (new_write_back f s1) =
      WritePage q (data_ (page_at s1 g)) (disk_manager_ s1).
Proof.
  unfold new_write_back. cbv zeta. bpm_proj. destruct (is_dirty_ _); [|by left].
  destruct (FlushPage_disk s1 (GetPageId (page_at s1 f))) as [?|(g & ? & ?)]; eauto.
Qed.

(** The disk after a write-back and one more call [c] that leaves storage
    alone. *)
Lemma write_back_then_call o (s s1 s2 s' : BPM) c :
  page_table_ s1 = page_table_ s → pages_ s1 = pages_ s →
  disk_manager_ s1 = disk_manager_ s →
  (disk_manager_ s2 = disk_manager_ s1 ∨
   ∃ q g, dirty_in s1 q g ∧
     disk_manager_ s2 = WritePage q (data_ (page_at s1 g)) (disk_manager_ s1)) →
  calls_ (disk_manager_ s') = calls_ (disk_manager_ s2) ++ [c] →
  stored_ (disk_manager_ s') = stored_ (disk_manager_ s2) →
  call_allowed o s c → (∀ p, may_write o s p) →
  ∃ l, calls_ (disk_manager_ s') = calls_ (disk_manager_ s) ++ l ∧
    Forall (call_allowed o s) l ∧
    (∀ p, stored_ (disk_manager_ s') !! p = stored_ (disk_manager_ s) !! p ∨
          ∃ f, dirty_in s p f ∧
               stored_ (disk_manager_ s') !! p = Some (data_ (page_at s f))).
Proof.
  intros Ht Hpg Hdm Hwb Hc Hst Hok Hw.
  assert (∀ p f, dirty_in s1 p f → dirty_in s p f ∧ page_at s1 f = page_at s f) as Hin.
  { intros p f [Hp Hf]. unfold dirty_in, page_at in *. by rewrite <-Ht, <-Hpg. }
  destruct Hwb as [H2|(q & g & Hqg & H2)].
  - exists [c]. rewrite Hc, Hst, H2, Hdm. split; [done|]. split; [by constructor|auto].
  - destruct (Hin _ _ Hqg) as [Hqg' Heq]. rewrite Heq in H2.
    exists [CallWritePage q (data_ (page_at s g)); c].
    rewrite Hc, Hst, H2, Hdm. simpl. split; [by rewrite <-app_assoc|]. split.
    + constructor; [|by constructor]. simpl. eauto.
    + intros p. destruct (decide (p = q)) as [->|Hne].
      * right. exists g. by rewrite lookup_insert_eq.
      * left. by rewrite lookup_insert_ne.
Qed.

Lemma step_disk o (s : BPM) :
  ∃ l, calls_ (disk_manager_ (step o s)) = calls_ (disk_manager_ s) ++ l ∧
    Forall (call_allowed o s) l ∧
    (∀ p, stored_ (disk_manager_ (step o s)) !! p = stored_ (disk_manager_ s) !! p ∨
          ∃ f, dirty_in s p f ∧
               stored_ (disk_manager_ (step o s)) !! p = Some (data_ (page_at s f))).
Proof.
  assert (∀ s' : BPM, disk_manager_ s' = disk_manager_ s →
    ∃ l, calls_ (disk_manager_ s') = calls_ (disk_manager_ s) ++ l ∧
      Forall (call_allowed o s) l ∧
      (∀ p, stored_ (disk_manager_ s') !! p = stored_ (disk_manager_ s) !! p ∨
            ∃ f, dirty_in s p f ∧
                 stored_ (disk_manager_ s') !! p = Some (data_ (page_at s f)))) as Hsame.
  { intros s' ->. exists []. rewrite app_nil_r. auto. }
  destruct o as [p|p d|p| | |p|f d]; simpl.
  - destruct (page_table_ s !! p) as [f|] eqn:Hp.
    { rewrite (FetchPageImpl_hit _ _ _ Hp). by apply Hsame. }
    assert (∀ f (s1 : BPM), page_table_ s1 = page_table_ s → pages_ s1 = pages_ s →
              disk_manager_ s1 = disk_manager_ s →
      ∃ l, calls_ (disk_manager_ (fetch_load p f (fetch_write_back f s1))) =
             calls_ (disk_manager_ s) ++ l ∧
        Forall (call_allowed (OpFetch p) s) l ∧
        (∀ q, stored_ (disk_manager_ (fetch_load p f (fetch_write_back f s1))) !! q =
                stored_ (disk_manager_ s) !! q ∨
              ∃ g, dirty_in s q g ∧
                stored_ (disk_manager_ (fetch_load p f (fetch_write_back f s1))) !! q =
                  Some (data_ (page_at s g)))) as Hmiss.
    { intros f s1 Ht Hpg Hdm.
      destruct (fetch_load_shape p f (fetch_write_back f s1))
        as (_ & _ & _ & _ & Hst & _ & Hc & _).
      by apply (write_back_then_call _ s s1 (fetch_write_back f s1) _ (CallReadPage p));
        [| | |apply fetch_write_back_disk| | | |]. }
    destruct (free_list_ s) as [|f rest] eqn:Hfl.
    + destruct (Victim (replacer_ s)) as [[f r]|] eqn:Hv.
      * rewrite (FetchPageImpl_victim _ _ _ _ Hp Hfl Hv). by apply Hmiss.
      * rewrite (FetchPageImpl_exhausted _ _ Hp Hfl Hv). by apply Hsame.
    + rewrite (FetchPageImpl_free _ _ _ _ Hp Hfl). by apply Hmiss.
  - apply Hsame. by destruct (UnpinPageImpl_keeps s p d) as (_ & -> & _).
  - unfold FlushPageImpl. destruct (flushed_flush s p) as (l & (Hc & _ & Hst & _) & Hl).
    exists l. split; [done|]. split; [|done].
    destruct Hl as [->|(f & Hpf & ->)]; [done|]. repeat constructor; eauto.
  - unfold FlushAllPagesImpl.
    destruct (flushed_FlushAll_from (pool_size_ s) 0 s) as (l & Hc & Hl & Hst & _).
    exists l. split; [done|]. split; [|done].
    eapply Forall_impl; [exact Hl|]. simpl. intros c (p & f & Hpf & ->). simpl. eauto.
  - assert (∀ f (s3 : BPM), page_table_ s3 = page_table_ s → pages_ s3 = pages_ s →
              disk_manager_ s3 = disk_manager_ s →
      ∀ s2 : BPM,
        (disk_manager_ s2 = disk_manager_ s3 ∨
         ∃ q g, dirty_in s3 q g ∧
           disk_manager_ s2 = WritePage q (data_ (page_at s3 g)) (disk_manager_ s3)) →
      ∃ l, calls_ (disk_manager_ (new_install f s2)) = calls_ (disk_manager_ s) ++ l ∧
        Forall (call_allowed OpNewPage s) l ∧
        (∀ q, stored_ (disk_manager_ (new_install f s2)) !! q =
                stored_ (disk_manager_ s) !! q ∨
              ∃ g, dirty_in s q g ∧
                stored_ (disk_manager_ (new_install f s2)) !! q =
                  Some (data_ (page_at s g)))) as Hnew.
    { intros f s3 Ht Hpg Hdm s2 Hwb.
      destruct (new_install_shape f s2) as (_ & _ & _ & _ & Hst & _ & Hc & _).
      apply (write_back_then_call _ s s3 s2 _
               (CallAllocatePage (next_page_id_ (disk_manager_ s2)))); try done.
      split; [done|]. destruct Hwb as [->|(q & g & _ & ->)]; by rewrite Hdm. }
    destruct (free_list_ s) as [|f rest] eqn:Hfl.
    + destruct (Victim (replacer_ s)) as [[f r]|] eqn:Hv.
      * rewrite (NewPageImpl_victim _ _ _ Hfl Hv). bpm_proj.
        apply (Hnew f (set_replacer r s)); try done. apply new_write_back_disk.
      * rewrite (NewPageImpl_exhausted _ Hfl Hv). by apply Hsame.
    + rewrite (NewPageImpl_free _ _ _ Hfl). bpm_proj.
      apply (Hnew f (set_free rest s)); try done. by left.
  - unfold DeletePageImpl. destruct (page_table_ s !! p) as [f|] eqn:Hp; [|by apply Hsame].
    destruct (Z.ltb_spec 0 (GetPinCount (page_at s f))) as [|Hpin]; [by apply Hsame|].
    bpm_proj. exists [CallDeallocatePage p]. split; [done|]. split; [|by left].
    repeat constructor. exists f. split; [done|]. unfold pin_count_at.
    unfold GetPinCount in Hpin. exact Hpin.
  - by apply Hsame.
Qed.

(** X6. Every call an operation makes on the disk manager is one it may
    make: it writes only the bytes of a dirty frame, under the page id the
    page table has for that frame ([FlushPageImpl] only for the page
    flushed, [FetchPageImpl] only on a miss; [UnpinPageImpl] and
    [DeletePageImpl] write nothing); it reads only the page a fetch misses,
    allocates only in [NewPageImpl] and deallocates only the unpinned page
    that is deleted.
    What storage holds under a page id afterwards is what it held before or
    the bytes of the dirty frame of that page. *)
Theorem disk_calls_of_step o (s : BPM) :
  calls_ (disk_manager_ (step o s)) = calls_ (disk_manager_ s) ++ new_calls o s ∧
  Forall (call_allowed o s) (new_calls o s) ∧
  (∀ p, stored_ (disk_manager_ (step o s)) !! p = stored_ (disk_manager_ s) !! p ∨
        ∃ f, dirty_in s p f ∧
             stored_ (disk_manager_ (step o s)) !! p = Some (data_ (page_at s f))).
Proof.
  destruct (step_disk o s) as (l & Hc & Hl & Hst).
  rewrite (new_calls_eq _ _ _ Hc). auto.
Qed.

(** ** When no frame can be obtained *)

(** X7. [FetchPageImpl] returns [nullptr] exactly when the page is not in
    the page table, the free list is empty and the policy holds no frame
    eviction-eligible; [NewPageImpl] exactly when the free list is empty and
    the policy holds none.  A call that returns [nullptr] changes nothing. *)
Theorem obtain_frame_fails (s : BPM) p :
  (fst (FetchPageImpl p s) = None ↔
     page_table_ s !! p = None ∧ free_list_ s = [] ∧ evictable (replacer_ s) = ∅) ∧
  (fst (NewPageImpl s) = None ↔ free_list_ s = [] ∧ evictable (replacer_ s) = ∅) ∧
  (fst (FetchPageImpl p s) = None → snd (FetchPageImpl p s) = s) ∧
  (fst (NewPageImpl s) = None → snd (NewPageImpl s) = s).
Proof.
  assert (fst (FetchPageImpl p s) = None ↔
     page_table_ s !! p = None ∧ free_list_ s = [] ∧ Victim (replacer_ s) = None) as Hf.
  { destruct (page_table_ s !! p) as [f|] eqn:Hp.
    { rewrite (FetchPageImpl_hit _ _ _ Hp). simpl. by split; [|intros (? & _)]. }
    destruct (free_list_ s) as [|f rest] eqn:Hfl.
    - destruct (Victim (replacer_ s)) as [[f r]|] eqn:Hv.
      + rewrite (FetchPageImpl_victim _ _ _ _ Hp Hfl Hv). simpl.
        by split; [|intros (_ & _ & ?)].
      + by rewrite (FetchPageImpl_exhausted _ _ Hp Hfl Hv).
    - rewrite (FetchPageImpl_free _ _ _ _ Hp Hfl). simpl. by split; [|intros (_ & ? & _)]. }
  assert (fst (NewPageImpl s) = None ↔
     free_list_ s = [] ∧ Victim (replacer_ s) = None) as Hn.
  { destruct (free_list_ s) as [|f rest] eqn:Hfl.
    - destruct (Victim (replacer_ s)) as [[f r]|] eqn:Hv.
      + rewrite (NewPageImpl_victim _ _ _ Hfl Hv). simpl. by split; [|intros (_ & ?)].
      + by rewrite (NewPageImpl_exhausted _ Hfl Hv).
    - rewrite (NewPageImpl_free _ _ _ Hfl). simpl. by split; [|intros (? & _)]. }
  rewrite Hf, Hn, Victim_None. repeat split; try tauto.
  - intros (Hp & Hfl & Hv%Victim_None). by rewrite (FetchPageImpl_exhausted _ _ Hp Hfl Hv).
  - intros (Hfl & Hv%Victim_None). by rewrite (NewPageImpl_exhausted _ Hfl Hv).
Qed.

(** ** After a page is deleted *)

(** X8. Once [DeletePageImpl] returns true for a page, the page is not in
    the page table: deleting it again returns true and changes nothing, and
    [UnpinPageImpl] and [FlushPageImpl] return false for it and change
    nothing. *)
Theorem DeletePageImpl_then (s : BPM) p d :
  fst (DeletePageImpl p s) = true →
  page_table_ (snd (DeletePageImpl p s)) !! p = None ∧
  DeletePageImpl p (snd (DeletePageImpl p s)) = (true, snd (DeletePageImpl p s)) ∧
  UnpinPageImpl p d (snd (DeletePageImpl p s)) = (false, snd (DeletePageImpl p s)) ∧
  FlushPageImpl p (snd (DeletePageImpl p s)) = (false, snd (DeletePageImpl p s)).
Proof.
  intros Hres.
  assert (page_table_ (snd (DeletePageImpl p s)) !! p = None) as Hp'.
  { unfold DeletePageImpl in *. destruct (page_table_ s !! p) as [f|] eqn:Hp; [|done].
    destruct (0 <? _); [done|]. bpm_proj. apply lookup_delete_eq. }
  split; [done|]. unfold FlushPageImpl.
  rewrite (UnpinPageImpl_absent _ _ _ Hp'), (FlushPage_absent _ _ Hp').
  split; [|done]. unfold DeletePageImpl at 1. by rewrite Hp'.
Qed.

(** ** A fetch of a resident page and the unpin that answers it *)

Lemma frames_eq (ps ps' : list Page) : (∀ f, frame ps' f = frame ps f) → ps' = ps.
Proof.
  intros Hall. apply list_eq. intros i. specialize (Hall (Z.of_nat i)).
  unfold frame in Hall. destruct (Z.leb_spec 0 (Z.of_nat i)); [|lia].
  by rewrite Nat2Z.id in Hall.
Qed.

(** X9. For a page in the page table whose frame's pin count is not -1,
    [FetchPageImpl] followed by [UnpinPageImpl] with dirty flag false
    succeed and restore the frame array; page table, free list and disk are
    as before.  The policy has seen [Pin] with the page id, and [Unpin] with
    the frame index when the pin count was zero. *)
Theorem fetch_unpin_round_trip (s : BPM) p f pg :
  page_table_ s !! p = Some f → frame (pages_ s) f = Some pg → pin_count_ pg ≠ -1 →
  ∃ s1 s2, FetchPageImpl p s = (Some f, s1) ∧ UnpinPageImpl p false s1 = (true, s2) ∧
    pages_ s2 = pages_ s ∧ page_table_ s2 = page_table_ s ∧
    free_list_ s2 = free_list_ s ∧ disk_manager_ s2 = disk_manager_ s ∧
    replacer_ s2 =
      (if decide (pin_count_ pg = 0) then Unpin f (Pin p (replacer_ s))
       else Pin p (replacer_ s)).
Proof.
  intros Hp Hf Hpin. rewrite (FetchPageImpl_hit _ _ _ Hp).
  set (s1 := replacer_Pin p (with_page f (λ pg, set_pin_count (pin_count_ pg + 1) pg) s)).
  assert (frame (pages_ s1) f = Some (set_pin_count (pin_count_ pg + 1) pg)) as Hf1.
  { subst s1. bpm_proj. by rewrite frame_update_eq, Hf. }
  destruct (UnpinPageImpl_pinned s1 p false f _ Hp Hf1)
    as (s2 & Hres & Hf2 & Hother & Ht & Hfl & Hdm & Hmark); [simpl; lia|].
  exists s1, s2. split; [done|]. split; [done|]. split; [|split; [done|split; [done|]]].
  - apply frames_eq. intros g. destruct (decide (g = f)) as [->|Hne].
    + rewrite Hf2, Hf. destruct pg as [a b c e]. simpl. f_equal. f_equal.
      * lia.
      * apply orb_false_r.
    + rewrite (Hother _ Hne). subst s1. bpm_proj. by apply frame_update_ne.
  - split; [done|]. simpl in Hmark.
    case_decide; case_decide; try lia; by destruct Hmark as [-> _].
Qed.

(** ** How a frame becomes eviction-eligible *)

(** X10. A frame that the policy holds eviction-eligible after an operation
    and did not hold before was made so by an [UnpinPageImpl] of a page the
    page table sends to that frame, which took its pin count from one to
    zero. *)
Theorem evictable_of_step o (s : BPM) f :
  f ∈ evictable (replacer_ (step o s)) → f ∉ evictable (replacer_ s) →
  ∃ p d, o = OpUnpin p d ∧ page_table_ s !! p = Some f ∧
    pin_count_at s f = 1 ∧ pin_count_at (step o s) f = 0.
Proof.
  intros Hin Hnot. destruct o as [p|p d|p| | |p|g d]; simpl in *.
  - exfalso. destruct (page_table_ s !! p) as [g|] eqn:Hp.
    { rewrite (FetchPageImpl_hit _ _ _ Hp) in Hin. bpm_proj.
      rewrite evictable_Pin in Hin. set_solver. }
    destruct (free_list_ s) as [|g rest] eqn:Hfl.
    + destruct (Victim (replacer_ s)) as [[g r]|] eqn:Hv.
      * rewrite (FetchPageImpl_victim _ _ _ _ Hp Hfl Hv) in Hin. bpm_proj.
        destruct (fetch_load_shape p g (fetch_write_back g (set_replacer r s)))
          as (_ & Hr' & _).
        destruct (fetch_write_back_shape g (set_replacer r s)) as (_ & Hr2 & _).
        rewrite Hr', Hr2 in Hin. bpm_proj. apply Victim_Some in Hv as [_ Hr].
        rewrite Hr in Hin. set_solver.
      * by rewrite (FetchPageImpl_exhausted _ _ Hp Hfl Hv) in Hin.
    + rewrite (FetchPageImpl_free _ _ _ _ Hp Hfl) in Hin. bpm_proj.
      destruct (fetch_load_shape p g (fetch_write_back g (set_free rest s)))
        as (_ & Hr' & _).
      destruct (fetch_write_back_shape g (set_free rest s)) as (_ & Hr2 & _).
      by rewrite Hr', Hr2 in Hin.
  - exists p, d. split; [done|]. unfold UnpinPageImpl in *.
    destruct (page_table_ s !! p) as [g|] eqn:Hp; [|done].
    destruct (Z.eqb_spec (GetPinCount (page_at s g)) 0) as [|Hne]; [done|].
    bpm_proj.
    destruct (Z.eqb_spec (GetPinCount (page_at
                (with_page g (λ pg, set_is_dirty (is_dirty_ pg || d) pg)
                   (with_page g (λ pg, set_pin_count (pin_count_ pg - 1) pg) s)) g)) 0)
      as [H0|]; [|done].
    bpm_proj. rewrite evictable_Unpin in Hin.
    assert (f = g) as -> by set_solver.
    split; [done|]. unfold pin_count_at, GetPinCount in *.
    split; [|exact H0].
    unfold page_at in *. bpm_proj. rewrite !frame_update_eq in H0.
    destruct (frame (pages_ s) g) as [pg|]; simpl in *; [lia|done].
  - unfold FlushPageImpl in Hin. destruct (FlushPage_shape s p) as (_ & _ & Hr & _).
    by rewrite Hr in Hin.
  - unfold FlushAllPagesImpl in Hin.
    destruct (FlushAll_from_shape (pool_size_ s) 0 s) as (_ & _ & Hr).
    by rewrite Hr in Hin.
  - exfalso. destruct (free_list_ s) as [|g rest] eqn:Hfl.
    + destruct (Victim (replacer_ s)) as [[g r]|] eqn:Hv.
      * rewrite (NewPageImpl_victim _ _ _ Hfl Hv) in Hin. bpm_proj.
        destruct (new_install_shape g (new_write_back g (set_replacer r s)))
          as (_ & Hr' & _).
        destruct (new_write_back_shape g (set_replacer r s)) as (_ & Hr2 & _).
        rewrite Hr', Hr2 in Hin. bpm_proj. apply Victim_Some in Hv as [_ Hr].
        rewrite Hr in Hin. set_solver.
      * by rewrite (NewPageImpl_exhausted _ Hfl Hv) in Hin.
    + rewrite (NewPageImpl_free _ _ _ Hfl) in Hin. bpm_proj.
      destruct (new_install_shape g (set_free rest s)) as (_ & Hr' & _).
      by rewrite Hr' in Hin.
  - exfalso. unfold DeletePageImpl in Hin. destruct (page_table_ s !! p); [|done].
    by destruct (0 <? _).
  - done.
Qed.

(** ** What a miss of [FetchPageImpl] installs *)

Lemma fetch_write_back_frame f (s1 : BPM) pg :
  frame (pages_ s1) f = Some pg →
  ∃ b, frame (pages_ (fetch_write_back f s1)) f = Some (set_is_dirty b pg).
Proof.
  intros Hf. destruct (fetch_write_back_shape f s1) as (_ & _ & _ & _ & [->|(g & ->)]).
  - exists (is_dirty_ pg). rewrite Hf. by destruct pg.
  - rewrite frame_update, Hf. case_decide; [by exists false|].
    exists (is_dirty_ pg). by destruct pg.
Qed.

Lemma fetch_write_back_stored_ne f (s1 : BPM) p :
  page_table_ s1 !! p = None →
  stored_ (disk_manager_ (fetch_write_back f s1)) !! p = stored_ (disk_manager_ s1) !! p.
Proof.
  intros Hp. destruct (fetch_write_back_disk f s1) as [->|(q & g & [Hq _] & ->)]; [done|].
  simpl. apply lookup_insert_ne. congruence.
Qed.

(** The write-back when the obtained frame is clean, or is dirty and the
    frame of the page it is labelled with, or labelled with a page that is
    not in the page table: no other frame is touched. *)
Lemma fetch_write_back_proper f (s1 : BPM) pg :
  frame (pages_ s1) f = Some pg →
  (is_dirty_ pg = true → page_table_ s1 !! page_id_ pg = Some f ∨
                          page_table_ s1 !! page_id_ pg = None) →
  (∀ g, g ≠ f → frame (pages_ (fetch_write_back f s1)) g = frame (pages_ s1) g) ∧
  page_table_ (fetch_write_back f s1) =
    (if is_dirty_ pg then delete (page_id_ pg) (page_table_ s1) else page_table_ s1).
Proof.
  intros Hf Hd. unfold fetch_write_back, IsDirty, GetPageId.
  rewrite (page_at_frame _ _ _ Hf). destruct (is_dirty_ pg) eqn:Hdirty; [|done].
  cbv zeta. bpm_proj. destruct (Hd eq_refl) as [Hp|Hp].
  - assert (is_dirty_ (page_at s1 f) = true) as Hd1 by by rewrite (page_at_frame _ _ _ Hf).
    rewrite (FlushPage_dirty _ _ _ Hp Hd1). bpm_proj. split; [|done].
    intros g Hg. by apply frame_update_ne.
  - by rewrite (FlushPage_absent _ _ Hp).
Qed.

(** X11. A [FetchPageImpl] of a page that is not in the page table and
    that obtains frame [f] returns [f] holding the bytes storage had for the
    page (zeroes when it had none), labelled with the page, pinned once and
    clean, and the page table sends the page to [f]; [f] was the front of
    the free list, or the free list was empty and [f] is the policy's
    victim; no [Pin] or [Unpin] is called.  When [f] was clean, or dirty and
    the frame of the page it was labelled with (or of none), no other frame
    changes, and the page table loses the entry of that page only when [f]
    was dirty. *)
Theorem FetchPageImpl_miss (s s' : BPM) p f pg :
  page_table_ s !! p = None → FetchPageImpl p s = (Some f, s') →
  frame (pages_ s) f = Some pg →
  frame (pages_ s') f =
    Some (mkPage (default (zeroed (length (data_ pg))) (stored_ (disk_manager_ s) !! p))
                 p 1 false) ∧
  page_table_ s' !! p = Some f ∧
  (free_list_ s = f :: free_list_ s' ∧ replacer_ s' = replacer_ s ∨
   free_list_ s = [] ∧ free_list_ s' = [] ∧
   Victim (replacer_ s) = Some (f, replacer_ s')) ∧
  marks_ s' = marks_ s ∧
  ((is_dirty_ pg = true → page_table_ s !! page_id_ pg = Some f ∨
                           page_table_ s !! page_id_ pg = None) →
   (∀ g, g ≠ f → frame (pages_ s') g = frame (pages_ s) g) ∧
   page_table_ s' =
     <[p := f]> (if is_dirty_ pg then delete (page_id_ pg) (page_table_ s)
                 else page_table_ s)).
Proof.
  intros Hp Hres Hf.
  assert (∀ s1 : BPM, pages_ s1 = pages_ s → page_table_ s1 = page_table_ s →
            disk_manager_ s1 = disk_manager_ s → marks_ s1 = marks_ s →
            s' = fetch_load p f (fetch_write_back f s1) →
    frame (pages_ s') f =
      Some (mkPage (default (zeroed (length (data_ pg))) (stored_ (disk_manager_ s) !! p))
                   p 1 false) ∧
    page_table_ s' !! p = Some f ∧
    free_list_ s' = free_list_ s1 ∧ replacer_ s' = replacer_ s1 ∧
    marks_ s' = marks_ s ∧
    ((is_dirty_ pg = true → page_table_ s !! page_id_ pg = Some f ∨
                             page_table_ s !! page_id_ pg = None) →
     (∀ g, g ≠ f → frame (pages_ s') g = frame (pages_ s) g) ∧
     page_table_ s' =
       <[p := f]> (if is_dirty_ pg then delete (page_id_ pg) (page_table_ s)
                   else page_table_ s))) as Hmiss.
  { intros s1 Hpg Ht Hdm Hm ->.
    assert (frame (pages_ s1) f = Some pg) as Hf1 by by rewrite Hpg.
    assert (page_table_ s1 !! p = None) as Hp1 by by rewrite Ht.
    destruct (fetch_load_shape p f (fetch_write_back f s1))
      as (Hfl' & Hr' & Hm' & Ht' & _ & _ & _ & Hf' & Hother).
    destruct (fetch_write_back_shape f s1) as (Hfl2 & Hr2 & Hm2 & Ht2 & _).
    destruct (fetch_write_back_frame f s1 pg Hf1) as [b Hf2].
    assert (page_table_ (fetch_write_back f s1) !! p = None) as Hp2.
    { destruct Ht2 as [->| ->]; [done|]. rewrite lookup_delete_None. auto. }
    split; [|split; [|split; [|split; [|split]]]].
    - rewrite Hf', Hf2, fetch_write_back_stored_ne, Hdm; done.
    - rewrite Ht'. unfold table_insert. rewrite Hp2. apply lookup_insert_eq.
    - by rewrite Hfl', Hfl2.
    - by rewrite Hr', Hr2.
    - by rewrite Hm', Hm2.
    - intros Hd. rewrite <-Ht in Hd.
      destruct (fetch_write_back_proper f s1 pg Hf1 Hd) as [Hg2 Ht3]. split.
      + intros g Hg. by rewrite (Hother _ Hg), (Hg2 _ Hg), Hpg.
      + rewrite Ht'. unfold table_insert. by rewrite Hp2, Ht3, Ht. }
  destruct (free_list_ s) as [|f0 rest] eqn:Hfl.
  - destruct (Victim (replacer_ s)) as [[f0 r]|] eqn:Hv.
    + rewrite (FetchPageImpl_victim _ _ _ _ Hp Hfl Hv) in Hres. injection Hres as -> <-.
      destruct (Hmiss (set_replacer r s)) as (? & ? & Hfl' & Hr' & ? & ?); try done.
      split; [done|split; [done|split; [|by split]]].
      right. bpm_proj. by rewrite Hfl', Hr', Hfl.
    + by rewrite (FetchPageImpl_exhausted _ _ Hp Hfl Hv) in Hres.
  - rewrite (FetchPageImpl_free _ _ _ _ Hp Hfl) in Hres. injection Hres as -> <-.
    destruct (Hmiss (set_free rest s)) as (? & ? & Hfl' & Hr' & ? & ?); try done.
    split; [done|split; [done|split; [|by split]]].
    left. by rewrite Hfl', Hr'.
Qed.

(** ** What [FlushAllPagesImpl] makes persistent *)

Lemma FlushPage_cases (t : BPM) q :
  snd (FlushPageImplWithoutLock q t) = t ∨
  ∃ g, dirty_in t q g ∧
    snd (FlushPageImplWithoutLock q t) =
      with_page g (set_is_dirty false)
        (set_disk (WritePage q (data_ (page_at t g)) (disk_manager_ t)) t).
Proof.
  destruct (page_table_ t !! q) as [g|] eqn:Hq.
  - destruct (is_dirty_ (page_at t g)) eqn:Hd.
    + right. exists g. split; [done|]. by rewrite (FlushPage_dirty _ _ _ Hq Hd).
    + left. by rewrite (FlushPage_clean _ _ _ Hq Hd).
  - left. by rewrite (FlushPage_absent _ _ Hq).
Qed.

(** Along the flushes, storage under [p] is as before while the frame of
    [p] is dirty, and holds the frame's bytes once it is clean. *)
Lemma FlushPage_stored_inv (t : BPM) q p f target :
  page_table_ t !! p = Some f → (∀ q', page_table_ t !! q' = Some f → q' = p) →
  (is_dirty_ (page_at t f) = true → target = Some (data_ (page_at t f))) →
  (is_dirty_ (page_at t f) = false → stored_ (disk_manager_ t) !! p = target) →
  let t' := snd (FlushPageImplWithoutLock q t) in
  is_dirty_ (page_at t' f) = false → stored_ (disk_manager_ t') !! p = target.
Proof.
  intros Hp Hinj Hdirty Hclean. simpl.
  destruct (FlushPage_cases t q) as [->|(g & [Hq Hg] & ->)]; [done|].
  destruct (decide (g = f)) as [->|Hne].
  - intros _. rewrite (Hinj _ Hq). bpm_proj. cbn [stored_ WritePage].
    rewrite lookup_insert_eq. by rewrite Hdirty.
  - rewrite page_at_with_page_ne by done. intros Hc. bpm_proj. cbn [stored_ WritePage].
    rewrite lookup_insert_ne; [|intros ->; congruence].
    apply Hclean. exact Hc.
Qed.

Lemma FlushAll_from_stored n i (s t : BPM) l p f target :
  flushed s t l →
  page_table_ s !! p = Some f → (∀ q', page_table_ s !! q' = Some f → q' = p) →
  (is_dirty_ (page_at s f) = true → target = Some (data_ (page_at s f))) →
  (is_dirty_ (page_at t f) = false → stored_ (disk_manager_ t) !! p = target) →
  is_dirty_ (page_at (FlushAll_from n i t) f) = false →
  stored_ (disk_manager_ (FlushAll_from n i t)) !! p = target.
Proof.
  revert i t l. induction n as [|n IH]; intros i t l Hfl Hp Hinj Hdirty Hclean; [done|].
  rewrite FlushAll_from_S.
  pose proof Hfl as (_ & _ & _ & _ & Ht & Hdata & Hmono).
  assert (∃ l1, flushed t (FlushAll_body i t) l1 ∧
     (is_dirty_ (page_at (FlushAll_body i t) f) = false →
      stored_ (disk_manager_ (FlushAll_body i t)) !! p = target)) as (l1 & Hfl1 & Hclean1).
  { unfold FlushAll_body. destruct (_ =? _); [exists []; split; [apply flushed_refl|done]|].
    destruct (flushed_flush t (page_id_ (page_at t i))) as (l1 & Hl1 & _).
    exists l1. split; [done|].
    apply (FlushPage_stored_inv t _ p f target); rewrite ?Ht; try done.
    intros Hd. rewrite Hdata. auto. }
  by apply (IH (i + 1) (FlushAll_body i t) (l ++ l1)); [apply (flushed_trans _ t)| | | |].
Qed.

(** X12. For a page other than [INVALID_PAGE_ID] that is resident in a
    frame no other page-table entry leads to, [FlushAllPagesImpl] leaves the
    page resident in that frame, with the same bytes and pin count and
    clean, and storage holds the frame's bytes under the page id if the
    frame was dirty, and what it held before if not. *)
Theorem FlushAllPagesImpl_persists (s : BPM) p f pg :
  (∀ q, page_table_ s !! q = Some f → q = p) →
  resident_in s p f pg → p ≠ INVALID_PAGE_ID →
  resident_in (FlushAllPagesImpl s) p f (set_is_dirty false pg) ∧
  stored_ (disk_manager_ (FlushAllPagesImpl s)) !! p =
    (if is_dirty_ pg then Some (data_ pg) else stored_ (disk_manager_ s) !! p).
Proof.
  intros Hinj (Hp & Hf & Hid) Hvalid. unfold FlushAllPagesImpl.
  destruct (FlushAll_from_shape (pool_size_ s) 0 s) as (Ht & _).
  pose proof (page_at_frame _ _ _ Hf) as Hat.
  assert (is_dirty_ (page_at (FlushAll_from (pool_size_ s) 0 s) f) = false) as Hclean.
  { pose proof (FlushAll_from_settles (pool_size_ s) 0 s f) as Hs.
    rewrite Hat, Hid in Hs. destruct Hs as [?|Hs]; [|done|].
    - apply frame_Some_range in Hf. unfold pool_size_. lia.
    - by rewrite Ht, Hp in Hs. }
  split.
  - split; [by rewrite Ht|]. split; [|done].
    destruct (is_Some_frame_length (pages_ s) (pages_ (FlushAll_from (pool_size_ s) 0 s)) f)
      as [pg' Hf']; [apply FlushAll_from_length|by eauto|].
    pose proof (page_at_frame _ _ _ Hf') as Hat'.
    pose proof (FlushAll_from_page_at data_ (pool_size_ s) 0 s f (λ _ _, eq_refl)) as Hd.
    pose proof (FlushAll_from_page_at page_id_ (pool_size_ s) 0 s f (λ _ _, eq_refl)) as Hi.
    pose proof (FlushAll_from_page_at pin_count_ (pool_size_ s) 0 s f (λ _ _, eq_refl)) as Hn.
    rewrite Hat' in Hclean. rewrite Hat, Hat' in Hd, Hi, Hn. rewrite Hf'.
    destruct pg', pg; simpl in *. by subst.
  - apply (FlushAll_from_stored _ _ s s [] p f); try done.
    + apply flushed_refl.
    + rewrite Hat. by intros ->.
    + rewrite Hat. by intros ->.
Qed.

(** ** [FlushAllPagesImpl] as a run of flushes *)

Lemma fmap_update_frame {A} (π : Page → A) f g ps :
  (∀ pg, π (g pg) = π pg) → π <$> update_frame f g ps = π <$> ps.
Proof.
  intros Hπ. unfold update_frame. destruct (0 <=? f); [|done].
  apply list_eq. intros i. rewrite !list_lookup_fmap.
  destruct (decide (i = Z.to_nat f)) as [->|Hne].
  - rewrite list_lookup_alter_eq. destruct (ps !! Z.to_nat f); simpl; by rewrite ?Hπ.
  - by rewrite list_lookup_alter_ne.
Qed.

Lemma FlushPage_labels (s : BPM) q :
  page_id_ <$> pages_ (snd (FlushPageImplWithoutLock q s)) = page_id_ <$> pages_ s.
Proof.
  destruct (FlushPage_shape s q) as (_ & _ & _ & _ & [->|(f & _ & ->)]); [done|].
  by apply fmap_update_frame.
Qed.

Lemma run_cons o os (s : BPM) : run (o :: os) s = run os (step o s).
Proof. reflexivity. Qed.

Lemma FlushAll_from_run n j (s : BPM) :
  (j + n = length (pages_ s))%nat →
  FlushAll_from n (Z.of_nat j) s =
    run (OpFlush <$> filter (λ q, q ≠ INVALID_PAGE_ID) (page_id_ <$> drop j (pages_ s))) s.
Proof.
  revert j s. induction n as [|n IH]; intros j s Hlen.
  { rewrite drop_ge by lia. done. }
  rewrite FlushAll_from_S.
  destruct (lookup_lt_is_Some_2 (pages_ s) j) as [pg Hpg]; [lia|].
  rewrite (drop_S _ _ _ Hpg), fmap_cons, filter_cons.
  assert (page_at s (Z.of_nat j) = pg) as Hat.
  { apply page_at_frame. unfold frame. destruct (Z.leb_spec 0 (Z.of_nat j)); [|lia].
    by rewrite Nat2Z.id. }
  replace (Z.of_nat j + 1) with (Z.of_nat (S j)) by lia.
  unfold FlushAll_body. rewrite Hat.
  destruct (Z.eqb_spec (page_id_ pg) INVALID_PAGE_ID) as [Heq|Hne].
  - rewrite decide_False by auto. apply IH. lia.
  - rewrite decide_True by done. rewrite fmap_cons, run_cons. simpl.
    unfold FlushPageImpl. rewrite IH by (rewrite FlushPage_length; lia).
    by rewrite !fmap_drop, FlushPage_labels.
Qed.

(** X13. [FlushAllPagesImpl] is the run of [FlushPageImpl] over the page
    ids that label the frames before the call, in the order of the frame
    array and without [INVALID_PAGE_ID]: a label that occurs twice is
    flushed twice, and a page the page table holds but no frame is labelled
    with is not flushed. *)
Theorem FlushAllPagesImpl_run (s : BPM) :
  FlushAllPagesImpl s = run (OpFlush <$> valid_labels s) s.
Proof. unfold FlushAllPagesImpl, valid_labels. by rewrite (FlushAll_from_run _ 0). Qed.

(** ** The first calls on a new pool *)

Lemma free_list_next (m n : nat) :
  (m < n)%nat →
  Z.of_nat <$> seq m (n - m) = Z.of_nat m :: (Z.of_nat <$> seq (S m) (n - S m)).
Proof. intros Hm. by replace (n - m)%nat with (S (n - S m)) by lia. Qed.

Lemma fetch_write_back_clean f (s1 : BPM) pg :
  frame (pages_ s1) f = Some pg → is_dirty_ pg = false → fetch_write_back f s1 = s1.
Proof.
  intros Hf Hd. unfold fetch_write_back, IsDirty. by rewrite (page_at_frame _ _ _ Hf), Hd.
Qed.

(** X14. On a new pool of [n] frames, fetches of up to [n] distinct pages
    take the frames in the order of their indices: the i-th page fetched is
    resident in frame i with the bytes storage has for it (zeroes when it
    has none), pinned once and clean; the frames not yet taken are as
    constructed and make up the free list; the policy is never called, and
    the disk is only read, once for each page in the order fetched. *)
Theorem new_pool_fetches n k dm ps :
  NoDup ps → (length ps ≤ n)%nat →
  (∀ i p, ps !! i = Some p →
     resident_in (run (OpFetch <$> ps) (BufferPoolManager_new n k dm)) p (Z.of_nat i)
       (mkPage (default (zeroed k) (stored_ dm !! p)) p 1 false)) ∧
  (∀ p, p ∉ ps →
     page_table_ (run (OpFetch <$> ps) (BufferPoolManager_new n k dm)) !! p = None) ∧
  (∀ i, (length ps ≤ i < n)%nat →
     frame (pages_ (run (OpFetch <$> ps) (BufferPoolManager_new n k dm))) (Z.of_nat i) =
       Some (Page_new k)) ∧
  free_list_ (run (OpFetch <$> ps) (BufferPoolManager_new n k dm)) =
    Z.of_nat <$> seq (length ps) (n - length ps) ∧
  replacer_ (run (OpFetch <$> ps) (BufferPoolManager_new n k dm)) = Replacer_new n ∧
  marks_ (run (OpFetch <$> ps) (BufferPoolManager_new n k dm)) = [] ∧
  stored_ (disk_manager_ (run (OpFetch <$> ps) (BufferPoolManager_new n k dm))) =
    stored_ dm ∧
  calls_ (disk_manager_ (run (OpFetch <$> ps) (BufferPoolManager_new n k dm))) =
    calls_ dm ++ (CallReadPage <$> ps).
Proof.
  induction ps as [|p ps IH] using rev_ind; intros Hnd Hlen.
  { simpl. rewrite Nat.sub_0_r, app_nil_r. repeat split; try done.
    intros i Hi. unfold frame. destruct (Z.leb_spec 0 (Z.of_nat i)); [|lia].
    rewrite Nat2Z.id. apply lookup_replicate_2. lia. }
  apply NoDup_app in Hnd as (Hnd & Hp & _). rewrite length_app in Hlen. simpl in Hlen.
  assert (p ∉ ps) as Hnotin by (intros Hin; apply (Hp _ Hin); set_solver).
  destruct IH as (Hres & Habs & Hnew & Hfl & Hr & Hm & Hst & Hc); [done|lia|].
  rewrite fmap_app, run_app. set (s := run (OpFetch <$> ps) (BufferPoolManager_new n k dm)) in *.
  simpl. unfold run. simpl.
  rewrite (free_list_next (length ps) n) in Hfl by lia.
  rewrite (FetchPageImpl_free _ _ _ _ (Habs _ Hnotin) Hfl). bpm_proj.
  set (s1 := set_free (Z.of_nat <$> seq (S (length ps)) (n - S (length ps))) s).
  assert (frame (pages_ s1) (Z.of_nat (length ps)) = Some (Page_new k)) as Hf
    by (apply Hnew; lia).
  rewrite (fetch_write_back_clean _ _ _ Hf eq_refl).
  destruct (fetch_load_shape p (Z.of_nat (length ps)) s1)
    as (Hfl' & Hr' & Hm' & Ht' & Hst' & _ & Hc' & Hf' & Hother).
  assert (page_table_ (fetch_load p (Z.of_nat (length ps)) s1) =
          <[p := Z.of_nat (length ps)]> (page_table_ s)) as Ht.
  { rewrite Ht'. unfold table_insert. subst s1. bpm_proj. by rewrite (Habs _ Hnotin). }
  split; [|split; [|split; [|split; [|split; [|split; [|split]]]]]].
  - intros i q [Hq|[Hi Hq]]%lookup_app_Some.
    + destruct (Hres _ _ Hq) as (Hq1 & Hq2 & Hq3).
      assert (q ≠ p) as Hne by (intros ->; apply Hnotin; by eapply list_elem_of_lookup_2).
      apply lookup_lt_Some in Hq.
      split; [|split; [|done]].
      * by rewrite Ht, lookup_insert_ne.
      * rewrite Hother; [done|lia].
    + apply list_lookup_singleton_Some in Hq as [Hi0 <-].
      replace i with (length ps) by lia.
      split; [|split; [|done]].
      * by rewrite Ht, lookup_insert_eq.
      * rewrite Hf', Hf. simpl. unfold zeroed at 2. rewrite length_replicate.
        subst s1. bpm_proj. by rewrite Hst.
  - intros q Hq. rewrite Ht. rewrite lookup_insert_ne; [apply Habs|]; set_solver.
  - intros i Hi. rewrite length_app in Hi. simpl in Hi.
    rewrite Hother by lia. apply Hnew. lia.
  - rewrite Hfl', length_app. simpl. subst s1. bpm_proj.
    by replace (length ps + 1)%nat with (S (length ps)) by lia.
  - by rewrite Hr'.
  - by rewrite Hm'.
  - by rewrite Hst'.
  - rewrite Hc'. subst s1. bpm_proj. by rewrite Hc, fmap_app, app_assoc.
Qed.

(** X15. On a new pool of [n] frames, up to [n] calls of [NewPageImpl]
    take the frames in the order of their indices: the i-th new page has the
    i-th id the disk manager allocates and is resident in frame i, zeroed,
    pinned once and clean; the frames not yet taken are as constructed and
    make up the free list; the policy is never called, and the disk is
    neither read nor written. *)
Theorem new_pool_new_pages n k dm m :
  (m ≤ n)%nat →
  (∀ i, (i < m)%nat →
     resident_in (run (replicate m OpNewPage) (BufferPoolManager_new n k dm))
       (next_page_id_ dm + Z.of_nat i) (Z.of_nat i)
       (mkPage (zeroed k) (next_page_id_ dm + Z.of_nat i) 1 false)) ∧
  (∀ q, ¬ (next_page_id_ dm ≤ q < next_page_id_ dm + Z.of_nat m) →
     page_table_ (run (replicate m OpNewPage) (BufferPoolManager_new n k dm)) !! q = None) ∧
  (∀ i, (m ≤ i < n)%nat →
     frame (pages_ (run (replicate m OpNewPage) (BufferPoolManager_new n k dm)))
       (Z.of_nat i) = Some (Page_new k)) ∧
  free_list_ (run (replicate m OpNewPage) (BufferPoolManager_new n k dm)) =
    Z.of_nat <$> seq m (n - m) ∧
  replacer_ (run (replicate m OpNewPage) (BufferPoolManager_new n k dm)) = Replacer_new n ∧
  marks_ (run (replicate m OpNewPage) (BufferPoolManager_new n k dm)) = [] ∧
  stored_ (disk_manager_ (run (replicate m OpNewPage) (BufferPoolManager_new n k dm))) =
    stored_ dm ∧
  next_page_id_ (disk_manager_ (run (replicate m OpNewPage) (BufferPoolManager_new n k dm))) =
    next_page_id_ dm + Z.of_nat m ∧
  calls_ (disk_manager_ (run (replicate m OpNewPage) (BufferPoolManager_new n k dm))) =
    calls_ dm ++ (CallAllocatePage <$> ((λ i, next_page_id_ dm + Z.of_nat i) <$> seq 0 m)).
Proof.
  induction m as [|m IH]; intros Hlen.
  { simpl. rewrite Nat.sub_0_r, app_nil_r, Z.add_0_r. repeat split; try done; try lia.
    intros i Hi. unfold frame. destruct (Z.leb_spec 0 (Z.of_nat i)); [|lia].
    rewrite Nat2Z.id. apply lookup_replicate_2. lia. }
  destruct IH as (Hres & Habs & Hnew & Hfl & Hr & Hm & Hst & Hnext & Hc); [lia|].
  rewrite replicate_S_end, run_app.
  set (s := run (replicate m OpNewPage) (BufferPoolManager_new n k dm)) in *.
  change (run [OpNewPage] s) with (snd (NewPageImpl s)).
  rewrite (free_list_next m n) in Hfl by lia.
  rewrite (NewPageImpl_free _ _ _ Hfl). bpm_proj.
  set (s1 := set_free (Z.of_nat <$> seq (S m) (n - S m)) s).
  assert (frame (pages_ s1) (Z.of_nat m) = Some (Page_new k)) as Hf by (apply Hnew; lia).
  destruct (new_install_shape (Z.of_nat m) s1)
    as (Hfl' & Hr' & Hm' & Ht' & Hst' & Hnext' & Hc' & Hf' & Hother).
  assert (next_page_id_ (disk_manager_ s1) = next_page_id_ dm + Z.of_nat m) as Hid by done.
  rewrite Hid in *.
  assert (page_table_ (new_install (Z.of_nat m) s1) =
          <[next_page_id_ dm + Z.of_nat m := Z.of_nat m]> (page_table_ s)) as Ht.
  { rewrite Ht'. unfold table_insert. subst s1. bpm_proj. rewrite Habs; [done|lia]. }
  split; [|split; [|split; [|split; [|split; [|split; [|split; [|split]]]]]]].
  - intros i Hi. destruct (decide (i = m)) as [->|Hne].
    + split; [|split; [|done]].
      * by rewrite Ht, lookup_insert_eq.
      * rewrite Hf', Hf. simpl. unfold zeroed at 2. by rewrite length_replicate.
    + destruct (Hres i) as (Hq1 & Hq2 & Hq3); [lia|].
      split; [|split; [|done]].
      * rewrite Ht, lookup_insert_ne; [done|lia].
      * rewrite Hother; [done|lia].
  - intros q Hq. rewrite Ht, lookup_insert_ne; [apply Habs|]; lia.
  - intros i Hi. rewrite Hother by lia. apply Hnew. lia.
  - by rewrite Hfl'.
  - by rewrite Hr'.
  - by rewrite Hm'.
  - by rewrite Hst'.
  - rewrite Hnext'. lia.
  - rewrite Hc'. subst s1. bpm_proj.
    by rewrite Hc, seq_S, !fmap_app, app_assoc.
Qed.

(** ** The pool is transparent *)

Lemma consistent_inj (s : BPM) q q' g :
  consistent s → page_table_ s !! q = Some g → page_table_ s !! q' = Some g → q = q'.
Proof. intros (HA & _) Hq Hq'. apply HA in Hq, Hq'. congruence. Qed.

(** In a sound pool a dirty frame is the frame of the page it is labelled
    with. *)
Lemma sound_proper (s : BPM) f pg :
  sound s → frame (pages_ s) f = Some pg → is_dirty_ pg = true →
  page_table_ s !! page_id_ pg = Some f.
Proof.
  intros ((HA & _) & _ & Hdr) Hf Hd.
  destruct (Hdr f) as [q Hq]; [by rewrite (page_at_frame _ _ _ Hf)|].
  pose proof (label_page_at _ _ _ (HA _ _ Hq)) as Hl.
  rewrite (page_at_frame _ _ _ Hf) in Hl. by subst q.
Qed.

Lemma sound_new n k dm : sound (BufferPoolManager_new n k dm).
Proof.
  split; [apply consistent_new|]. split; [done|]. intros f. unfold page_at, frame. simpl.
  destruct (0 <=? f); [|done].
  destruct (replicate n (Page_new k) !! Z.to_nat f) as [pg|] eqn:Hl; [|done].
  by apply lookup_replicate in Hl as [-> _].
Qed.

Lemma new_write_back_clean f (s1 : BPM) pg :
  frame (pages_ s1) f = Some pg → is_dirty_ pg = false →
  new_write_back f s1 = set_table (delete (page_id_ pg) (page_table_ s1)) s1.
Proof.
  intros Hf Hd. unfold new_write_back, GetPageId. by rewrite (page_at_frame _ _ _ Hf), Hd.
Qed.

(** The state after a miss of [FetchPageImpl] that obtained frame [f], when
    [f], if dirty, is the frame of the page it is labelled with. *)
Lemma fetch_miss_state (s1 : BPM) p f pg :
  page_table_ s1 !! p = None → frame (pages_ s1) f = Some pg →
  (is_dirty_ pg = true → page_table_ s1 !! page_id_ pg = Some f) →
  page_table_ (fetch_load p f (fetch_write_back f s1)) =
    <[p := f]> (if is_dirty_ pg then delete (page_id_ pg) (page_table_ s1)
                else page_table_ s1) ∧
  stored_ (disk_manager_ (fetch_load p f (fetch_write_back f s1))) =
    (if is_dirty_ pg then <[page_id_ pg := data_ pg]> (stored_ (disk_manager_ s1))
     else stored_ (disk_manager_ s1)) ∧
  frame (pages_ (fetch_load p f (fetch_write_back f s1))) f =
    Some (mkPage (default (zeroed (length (data_ pg))) (stored_ (disk_manager_ s1) !! p))
                 p 1 false) ∧
  (∀ g, g ≠ f → frame (pages_ (fetch_load p f (fetch_write_back f s1))) g =
                frame (pages_ s1) g).
Proof.
  intros Hp Hf Hproper.
  assert (∃ s2 : BPM, fetch_write_back f s1 = s2 ∧
    page_table_ s2 = (if is_dirty_ pg then delete (page_id_ pg) (page_table_ s1)
                      else page_table_ s1) ∧
    stored_ (disk_manager_ s2) =
      (if is_dirty_ pg then <[page_id_ pg := data_ pg]> (stored_ (disk_manager_ s1))
       else stored_ (disk_manager_ s1)) ∧
    frame (pages_ s2) f = Some (set_is_dirty false pg) ∧
    (∀ g, g ≠ f → frame (pages_ s2) g = frame (pages_ s1) g))
    as (s2 & -> & Ht2 & Hst2 & Hf2 & Hother2).
  { destruct (is_dirty_ pg) eqn:Hd.
    - eexists. split; [apply (fetch_write_back_dirty s1 (page_id_ pg) f pg); [split; auto|done]|].
      bpm_proj. split; [done|split; [done|split]].
      + by rewrite frame_update_eq, Hf.
      + intros g Hg. by apply frame_update_ne.
    - exists s1. split; [by apply (fetch_write_back_clean _ _ pg)|].
      split; [done|split; [done|split; [|done]]].
      rewrite Hf. destruct pg; simpl in *. by subst. }
  destruct (fetch_load_shape p f s2) as (_ & _ & _ & Ht' & Hst' & _ & _ & Hf' & Hother).
  assert (page_table_ s2 !! p = None) as Hp2.
  { rewrite Ht2. destruct (is_dirty_ pg); [|done]. apply lookup_delete_None. by right. }
  assert (stored_ (disk_manager_ s2) !! p = stored_ (disk_manager_ s1) !! p) as Hstp.
  { rewrite Hst2. destruct (is_dirty_ pg); [|done]. apply lookup_insert_ne.
    intros Heq. rewrite Heq in Hproper. rewrite Hproper in Hp; done. }
  split; [|split; [|split]].
  - rewrite Ht'. unfold table_insert. by rewrite Hp2, Ht2.
  - by rewrite Hst', Hst2.
  - by rewrite Hf', Hf2, Hstp.
  - intros g Hg. by rewrite (Hother _ Hg), (Hother2 _ Hg).
Qed.

(** The state after a [NewPageImpl] that obtained the victim [f], when [f],
    if dirty, is the frame of the page it is labelled with. *)
Lemma new_victim_state (s1 : BPM) f pg :
  frame (pages_ s1) f = Some pg →
  (is_dirty_ pg = true → page_table_ s1 !! page_id_ pg = Some f) →
  page_table_ (new_install f (new_write_back f s1)) =
    table_insert (next_page_id_ (disk_manager_ s1)) f
      (delete (page_id_ pg) (page_table_ s1)) ∧
  stored_ (disk_manager_ (new_install f (new_write_back f s1))) =
    (if is_dirty_ pg then <[page_id_ pg := data_ pg]> (stored_ (disk_manager_ s1))
     else stored_ (disk_manager_ s1)) ∧
  frame (pages_ (new_install f (new_write_back f s1))) f =
    Some (mkPage (zeroed (length (data_ pg))) (next_page_id_ (disk_manager_ s1)) 1 false) ∧
  (∀ g, g ≠ f → frame (pages_ (new_install f (new_write_back f s1))) g =
                frame (pages_ s1) g).
Proof.
  intros Hf Hproper.
  assert (∃ s2 : BPM, new_write_back f s1 = s2 ∧
    page_table_ s2 = delete (page_id_ pg) (page_table_ s1) ∧
    stored_ (disk_manager_ s2) =
      (if is_dirty_ pg then <[page_id_ pg := data_ pg]> (stored_ (disk_manager_ s1))
       else stored_ (disk_manager_ s1)) ∧
    next_page_id_ (disk_manager_ s2) = next_page_id_ (disk_manager_ s1) ∧
    frame (pages_ s2) f = Some (set_is_dirty false pg) ∧
    (∀ g, g ≠ f → frame (pages_ s2) g = frame (pages_ s1) g))
    as (s2 & -> & Ht2 & Hst2 & Hn2 & Hf2 & Hother2).
  { exists (new_write_back f s1). split; [done|].
    split; [|split; [|split; [apply new_write_back_next_page_id|]]].
    - destruct (is_dirty_ pg) eqn:Hd.
      + by rewrite (new_write_back_dirty s1 (page_id_ pg) f pg) by (auto || (split; auto)).
      + by rewrite (new_write_back_clean _ _ _ Hf Hd).
    - destruct (is_dirty_ pg) eqn:Hd.
      + by rewrite (new_write_back_dirty s1 (page_id_ pg) f pg) by (auto || (split; auto)).
      + by rewrite (new_write_back_clean _ _ _ Hf Hd).
    - destruct (is_dirty_ pg) eqn:Hd.
      + rewrite (new_write_back_dirty s1 (page_id_ pg) f pg) by (auto || (split; auto)).
        bpm_proj. split; [by rewrite frame_update_eq, Hf|].
        intros g Hg. by apply frame_update_ne.
      + rewrite (new_write_back_clean _ _ _ Hf Hd). bpm_proj. split; [|done].
        rewrite Hf. destruct pg; simpl in *. by subst. }
  destruct (new_install_shape f s2) as (_ & _ & _ & Ht' & Hst' & _ & _ & Hf' & Hother).
  rewrite Hn2 in Ht', Hf'.
  split; [|split; [|split]].
  - by rewrite Ht', Ht2.
  - by rewrite Hst', Hst2.
  - by rewrite Hf', Hf2.
  - intros g Hg. by rewrite (Hother _ Hg), (Hother2 _ Hg).
Qed.

Lemma UnpinPageImpl_page_at {A} (π : Page → A) (s : BPM) p d g :
  (∀ n pg, π (set_pin_count n pg) = π pg) → (∀ b pg, π (set_is_dirty b pg) = π pg) →
  π (page_at (snd (UnpinPageImpl p d s)) g) = π (page_at s g).
Proof.
  intros Hn Hb. unfold UnpinPageImpl. destruct (page_table_ s !! p) as [f|]; [|done].
  destruct (_ =? 0); [done|]. bpm_proj.
  assert (∀ s0 : BPM, pages_ s0 = update_frame f (λ pg, set_is_dirty (is_dirty_ pg || d) pg)
            (update_frame f (λ pg, set_pin_count (pin_count_ pg - 1) pg) (pages_ s)) →
          π (page_at s0 g) = π (page_at s g)) as Hl.
  { intros s0 Hpg. unfold page_at. rewrite Hpg, !frame_update.
    case_decide; [|done]. destruct (frame (pages_ s) g); simpl; by rewrite ?Hb, ?Hn. }
  by destruct (_ =? 0); apply Hl.
Qed.

Lemma UnpinPageImpl_dirty_from (s : BPM) p d g :
  is_dirty_ (page_at (snd (UnpinPageImpl p d s)) g) = true →
  is_dirty_ (page_at s g) = true ∨ page_table_ s !! p = Some g.
Proof.
  unfold UnpinPageImpl. destruct (page_table_ s !! p) as [f|]; [|auto].
  destruct (_ =? 0); [auto|]. bpm_proj.
  assert (∀ s0 : BPM, pages_ s0 = update_frame f (λ pg, set_is_dirty (is_dirty_ pg || d) pg)
            (update_frame f (λ pg, set_pin_count (pin_count_ pg - 1) pg) (pages_ s)) →
          is_dirty_ (page_at s0 g) = true →
          is_dirty_ (page_at s g) = true ∨ Some f = Some g) as Hl.
  { intros s0 Hpg. unfold page_at. rewrite Hpg, !frame_update.
    case_decide; [subst; auto|auto]. }
  by destruct (_ =? 0); apply Hl.
Qed.

Lemma sound_step o (s : BPM) : sound s → disciplined o s → sound (step o s).
Proof.
  intros Hs [Hk Hd]. pose proof Hs as (Hc & Hinv & Hdr).
  pose proof Hc as (HA & HB & HC & HD & HE & HF).
  split; [by apply consistent_step|].
  destruct o as [p|p d|p| | |p|f d]; simpl in *.
  - destruct (page_table_ s !! p) as [f|] eqn:Hp.
    { rewrite (FetchPageImpl_hit _ _ _ Hp). bpm_proj. split; [done|]. intros g.
      change (is_dirty_ (page_at (with_page f (λ pg, set_pin_count (pin_count_ pg + 1) pg) s) g)
              = true → ∃ q, page_table_ s !! q = Some g).
      rewrite (page_at_with_page_proj is_dirty_) by done. apply Hdr. }
    assert (∀ f (s1 : BPM) pg, pages_ s1 = pages_ s → page_table_ s1 = page_table_ s →
              frame (pages_ s) f = Some pg →
              (is_dirty_ pg = false → ∀ q, page_table_ s !! q ≠ Some f) →
      page_table_ (fetch_load p f (fetch_write_back f s1)) !! INVALID_PAGE_ID = None ∧
      (∀ g, is_dirty_ (page_at (fetch_load p f (fetch_write_back f s1)) g) = true →
         ∃ q, page_table_ (fetch_load p f (fetch_write_back f s1)) !! q = Some g)) as Hmiss.
    { intros f s1 pg Hpg Ht Hf Hfree.
      assert (is_dirty_ pg = true → page_table_ s !! page_id_ pg = Some f) as Hproper
        by apply (sound_proper _ _ _ Hs Hf).
      destruct (fetch_miss_state s1 p f pg) as (Ht' & _ & Hf' & Hother);
        [by rewrite Ht|by rewrite Hpg|by rewrite Ht|].
      rewrite Ht in Ht'. rewrite Ht'. split.
      - rewrite lookup_insert_ne by done. destruct (is_dirty_ pg); [|done].
        by apply lookup_delete_None; right.
      - intros g Hg. destruct (decide (g = f)) as [->|Hne].
        { by rewrite (page_at_frame _ _ _ Hf') in Hg. }
        rewrite (page_at_frame_eq s1 _ g (Hother _ Hne)) in Hg.
        rewrite (page_at_frame_eq s s1 g) in Hg by (by rewrite Hpg).
        destruct (Hdr _ Hg) as [q Hq]. exists q.
        rewrite lookup_insert_ne by congruence.
        destruct (is_dirty_ pg) eqn:Hdirty; [|done].
        rewrite lookup_delete_ne; [done|]. intros <-. rewrite (Hproper eq_refl) in Hq.
        congruence. }
    destruct (free_list_ s) as [|f rest] eqn:Hfl.
    + destruct (Victim (replacer_ s)) as [[f r]|] eqn:Hv;
        [|by rewrite (FetchPageImpl_exhausted _ _ Hp Hfl Hv)].
      rewrite (FetchPageImpl_victim _ _ _ _ Hp Hfl Hv). bpm_proj.
      pose proof (Hk eq_refl eq_refl f r eq_refl) as Hdirty.
      apply Victim_Some in Hv as [Hin _].
      destruct (HF _ Hin) as [pid (pg & Hf & _)%label_Some_frame].
      apply (Hmiss f _ pg); try done.
      rewrite (page_at_frame _ _ _ Hf) in Hdirty. congruence.
    + rewrite (FetchPageImpl_free _ _ _ _ Hp Hfl). bpm_proj.
      assert (f ∈ f :: rest) as Hfin by set_solver.
      pose proof (HD f Hfin) as (pg & Hf & _)%label_Some_frame.
      apply (Hmiss f _ pg); try done.
      intros _ q Hq. apply (HE _ _ Hq). set_solver.
  - destruct (UnpinPageImpl_keeps s p d) as (Ht & _). rewrite Ht. split; [done|].
    intros g [Hg|Hg]%UnpinPageImpl_dirty_from; eauto.
  - unfold FlushPageImpl. destruct (FlushPage_shape s p) as (Ht & _). rewrite Ht.
    split; [done|]. intros g Hg. apply Hdr.
    destruct (is_dirty_ (page_at s g)) eqn:Hd0; [done|].
    by rewrite (FlushPage_dirty_mono _ p _ Hd0) in Hg.
  - unfold FlushAllPagesImpl.
    destruct (flushed_FlushAll_from (pool_size_ s) 0 s) as (l & _ & _ & _ & _ & Ht & _ & Hmono).
    rewrite Ht. split; [done|]. intros g Hg. by apply Hdr, Hmono.
  - destruct Hd as [Hid _].
    destruct (free_list_ s) as [|f rest] eqn:Hfl.
    + destruct (Victim (replacer_ s)) as [[f r]|] eqn:Hv;
        [|by rewrite (NewPageImpl_exhausted _ Hfl Hv)].
      rewrite (NewPageImpl_victim _ _ _ Hfl Hv). bpm_proj.
      apply Victim_Some in Hv as [Hin _].
      destruct (HF _ Hin) as [pid (pg & Hf & Hpid)%label_Some_frame].
      destruct (new_victim_state (set_replacer r s) f pg Hf) as (Ht' & _ & Hf' & Hother);
        [apply (sound_proper _ _ _ Hs Hf)|].
      bpm_proj. rewrite Ht'.
      assert (delete (page_id_ pg) (page_table_ s) !! next_page_id_ (disk_manager_ s) = None)
        as Hfresh by (apply lookup_delete_None; by right).
      unfold table_insert. rewrite Hfresh. split.
      * rewrite lookup_insert_ne by done. apply lookup_delete_None. by right.
      * intros g Hg. destruct (decide (g = f)) as [->|Hne].
        { exists (next_page_id_ (disk_manager_ s)). apply lookup_insert_eq. }
        rewrite (page_at_frame_eq s _ g (Hother _ Hne)) in Hg.
        destruct (Hdr _ Hg) as [q Hq]. exists q.
        rewrite lookup_insert_ne by congruence.
        rewrite lookup_delete_ne; [done|]. intros <-.
        assert (page_table_ s !! page_id_ pg = Some f); [|congruence].
        apply HB; [apply label_Some_frame; eauto|congruence].
    + rewrite (NewPageImpl_free _ _ _ Hfl). bpm_proj.
      destruct (new_install_shape f (set_free rest s))
        as (_ & _ & _ & Ht' & _ & _ & _ & _ & Hother).
      bpm_proj. rewrite Ht'. unfold table_insert. rewrite Hk. split.
      * by rewrite lookup_insert_ne.
      * intros g Hg. destruct (decide (g = f)) as [->|Hne].
        { exists (next_page_id_ (disk_manager_ s)). apply lookup_insert_eq. }
        rewrite (page_at_frame_eq s _ g (Hother _ Hne)) in Hg.
        destruct (Hdr _ Hg) as [q Hq]. exists q. rewrite lookup_insert_ne; [done|congruence].
  - unfold DeletePageImpl. destruct (page_table_ s !! p) as [f|] eqn:Hp; [|done].
    destruct (0 <? _); [done|]. bpm_proj. split.
    + apply lookup_delete_None. by right.
    + intros g. unfold page_at. bpm_proj. rewrite !frame_update.
      case_decide as Hg; [by destruct (frame (pages_ s) g)|].
      intros Hdg. destruct (Hdr g Hdg) as [q Hq]. exists q.
      rewrite lookup_delete_ne; [done|]. intros <-. congruence.
  - split; [done|]. intros g.
    rewrite (page_at_with_page_proj is_dirty_) by done. apply Hdr.
Qed.

Lemma content_same (s s' : BPM) q :
  page_table_ s' !! q = page_table_ s !! q →
  (∀ g, page_table_ s !! q = Some g → data_ (page_at s' g) = data_ (page_at s g)) →
  (page_table_ s !! q = None →
   stored_ (disk_manager_ s') !! q = stored_ (disk_manager_ s) !! q) →
  content s' q = content s q.
Proof.
  unfold content. intros -> Hd Hst.
  destruct (page_table_ s !! q) as [g|]; [by rewrite (Hd g)|by apply Hst].
Qed.

Lemma content_flushed (s s' : BPM) l q : flushed s s' l → content s' q = content s q.
Proof.
  intros (_ & _ & Hst & _ & Ht & Hdata & _). apply content_same; [by rewrite Ht|auto|].
  intros Hq. destruct (Hst q) as [?|(f & [Hf _] & _)]; [done|congruence].
Qed.

Lemma content_step o (s : BPM) q :
  sound s → disciplined o s → ¬ touches o s q → content (step o s) q = content s q.
Proof.
  intros Hs [Hk Hd] Hq. pose proof Hs as (Hc & Hinv & Hdr).
  pose proof Hc as (HA & HB & HC & HD & HE & HF).
  destruct o as [p|p d|p| | |p|f d]; simpl in *.
  - destruct (page_table_ s !! p) as [f|] eqn:Hp.
    { rewrite (FetchPageImpl_hit _ _ _ Hp). apply content_same; [done| |done].
      intros g _.
      change (data_ (page_at (with_page f (λ pg, set_pin_count (pin_count_ pg + 1) pg) s) g)
              = data_ (page_at s g)).
      by apply (page_at_with_page_proj data_). }
    assert (∀ f (s1 : BPM) pg, pages_ s1 = pages_ s → page_table_ s1 = page_table_ s →
              disk_manager_ s1 = disk_manager_ s → frame (pages_ s) f = Some pg →
              (is_dirty_ pg = false → ∀ q, page_table_ s !! q ≠ Some f) →
      content (fetch_load p f (fetch_write_back f s1)) q = content s q) as Hmiss.
    { intros f s1 pg Hpg Ht Hdm Hf Hfree.
      assert (is_dirty_ pg = true → page_table_ s !! page_id_ pg = Some f) as Hproper
        by apply (sound_proper _ _ _ Hs Hf).
      destruct (fetch_miss_state s1 p f pg) as (Ht' & Hst' & Hf' & Hother);
        [by rewrite Ht|by rewrite Hpg|by rewrite Ht|].
      rewrite Ht, Hdm in *.
      assert (∀ g, g ≠ f →
        page_at (fetch_load p f (fetch_write_back f s1)) g = page_at s g) as Hat.
      { intros g Hg. apply page_at_frame_eq. by rewrite (Hother _ Hg), Hpg. }
      unfold content. rewrite Ht', Hst'. destruct (decide (q = p)) as [->|Hqp].
      - rewrite lookup_insert_eq, Hp, (page_at_frame _ _ _ Hf'). simpl.
        destruct (stored_ (disk_manager_ s) !! p) as [d|] eqn:Hst; [done|].
        exfalso. apply Hq. split; [done|]. unfold content. by rewrite Hp.
      - rewrite lookup_insert_ne by done. destruct (is_dirty_ pg) eqn:Hdirty.
        + pose proof (Hproper eq_refl) as Hpid.
          destruct (decide (q = page_id_ pg)) as [->|Hne].
          * by rewrite lookup_delete_eq, lookup_insert_eq, Hpid, (page_at_frame _ _ _ Hf).
          * rewrite lookup_delete_ne, lookup_insert_ne by done.
            destruct (page_table_ s !! q) as [g|] eqn:Hg; [|done].
            rewrite Hat; [done|]. intros ->. apply Hne. by apply (consistent_inj s _ _ f).
        + destruct (page_table_ s !! q) as [g|] eqn:Hg; [|done].
          rewrite Hat; [done|]. intros ->. by apply (Hfree eq_refl q). }
    destruct (free_list_ s) as [|f rest] eqn:Hfl.
    + destruct (Victim (replacer_ s)) as [[f r]|] eqn:Hv;
        [|by rewrite (FetchPageImpl_exhausted _ _ Hp Hfl Hv)].
      rewrite (FetchPageImpl_victim _ _ _ _ Hp Hfl Hv). bpm_proj.
      pose proof (Hk eq_refl eq_refl f r eq_refl) as Hdirty.
      apply Victim_Some in Hv as [Hin _].
      destruct (HF _ Hin) as [pid (pg & Hf & _)%label_Some_frame].
      apply (Hmiss f _ pg); try done.
      rewrite (page_at_frame _ _ _ Hf) in Hdirty. congruence.
    + rewrite (FetchPageImpl_free _ _ _ _ Hp Hfl). bpm_proj.
      assert (f ∈ f :: rest) as Hfin by set_solver.
      pose proof (HD f Hfin) as (pg & Hf & _)%label_Some_frame.
      apply (Hmiss f _ pg); try done.
      intros _ q' Hq'. apply (HE _ _ Hq'). set_solver.
  - destruct (UnpinPageImpl_keeps s p d) as (Ht & Hdm & _).
    apply content_same; [by rewrite Ht| |by rewrite Hdm].
    intros g _. by apply (UnpinPageImpl_page_at data_).
  - unfold FlushPageImpl. destruct (flushed_flush s p) as (l & Hl & _).
    by apply (content_flushed _ _ l).
  - unfold FlushAllPagesImpl.
    destruct (flushed_FlushAll_from (pool_size_ s) 0 s) as (l & Hl).
    by apply (content_flushed _ _ l).
  - destruct Hd as [Hid Hsync].
    destruct (free_list_ s) as [|f rest] eqn:Hfl.
    + destruct (Victim (replacer_ s)) as [[f r]|] eqn:Hv;
        [|by rewrite (NewPageImpl_exhausted _ Hfl Hv)].
      rewrite (NewPageImpl_victim _ _ _ Hfl Hv). bpm_proj.
      pose proof (Hsync eq_refl f r) as Hclean.
      apply Victim_Some in Hv as [Hin _].
      destruct (HF _ Hin) as [pid (pg & Hf & Hpid)%label_Some_frame].
      assert (is_dirty_ pg = true → page_table_ s !! page_id_ pg = Some f) as Hproper
        by apply (sound_proper _ _ _ Hs Hf).
      destruct (new_victim_state (set_replacer r s) f pg Hf Hproper)
        as (Ht' & Hst' & Hf' & Hother).
      bpm_proj.
      assert (∀ g, g ≠ f →
        page_at (new_install f (new_write_back f (set_replacer r s))) g = page_at s g) as Hat.
      { intros g Hg. apply page_at_frame_eq. by rewrite (Hother _ Hg). }
      assert (∀ g, page_table_ s !! page_id_ pg = Some g → g = f) as Hholder.
      { intros g Hg. assert (page_table_ s !! page_id_ pg = Some f); [|congruence].
        apply HB; [apply label_Some_frame; eauto|congruence]. }
      unfold content. rewrite Ht', Hst'. unfold table_insert.
      rewrite (proj2 (lookup_delete_None _ _ _)) by (by right).
      rewrite lookup_insert_ne by done.
      destruct (decide (q = page_id_ pg)) as [->|Hne].
      * rewrite lookup_delete_eq. destruct (is_dirty_ pg) eqn:Hdirty.
        -- by rewrite lookup_insert_eq, (Hproper eq_refl), (page_at_frame _ _ _ Hf).
        -- destruct (page_table_ s !! page_id_ pg) as [g|] eqn:Hg; [|done].
           rewrite (Hholder g eq_refl) in *.
           apply (Hclean (page_id_ pg) eq_refl); [|done].
           by rewrite (page_at_frame _ _ _ Hf).
      * rewrite lookup_delete_ne by done.
        assert (stored_ (disk_manager_ s) !! q =
                (if is_dirty_ pg then <[page_id_ pg := data_ pg]> (stored_ (disk_manager_ s))
                 else stored_ (disk_manager_ s)) !! q) as <-.
        { destruct (is_dirty_ pg); [by rewrite lookup_insert_ne|done]. }
        destruct (page_table_ s !! q) as [g|] eqn:Hg; [|done].
        rewrite Hat; [done|]. intros ->. apply Hne.
        pose proof (label_page_at _ _ _ (HA _ _ Hg)) as Hl.
        by rewrite (page_at_frame _ _ _ Hf) in Hl.
    + rewrite (NewPageImpl_free _ _ _ Hfl). bpm_proj.
      destruct (new_install_shape f (set_free rest s))
        as (_ & _ & _ & Ht' & Hst' & _ & _ & _ & Hother).
      bpm_proj. apply content_same.
      * rewrite Ht'. unfold table_insert. rewrite Hk. by rewrite lookup_insert_ne.
      * intros g Hg. f_equal. apply page_at_frame_eq, Hother. intros ->.
        apply (HE _ _ Hg). set_solver.
      * intros _. by rewrite Hst'.
  - unfold DeletePageImpl. destruct (page_table_ s !! p) as [f|] eqn:Hp; [|done].
    destruct (0 <? _); [done|]. bpm_proj. apply content_same; bpm_proj.
    + by rewrite lookup_delete_ne.
    + intros g Hg. assert (g ≠ f) as Hne.
      { intros ->. apply Hq. by apply (consistent_inj s _ _ f). }
      unfold page_at. bpm_proj. by rewrite !frame_update_ne.
    + done.
  - apply content_same; [done| |done]. intros g Hg.
    rewrite page_at_with_page_ne; [done|]. intros ->. by apply Hq.
Qed.

(** X16. In a sound pool, a call that evicts no unmodified page by
    [FetchPageImpl] and meets the conditions of [disciplined] leaves the
    pool sound and the bytes of every page it is not meant to change as
    they were: what a caller sees of a page, in its frame or in storage, is
    the same before and after, whether the call is a hit, loads a page,
    writes a dirty page back and reuses its frame, flushes, unpins, deletes
    another page or allocates one. *)
Theorem transparent_step o (s : BPM) :
  sound s → disciplined o s →
  sound (step o s) ∧ ∀ q, ¬ touches o s q → content (step o s) q = content s q.
Proof.
  intros Hs Hd. split; [by apply sound_step|]. intros q Hq. by apply content_step.
Qed.

Lemma leaves_alone_run os (s : BPM) q :
  sound s → leaves_alone os s q → sound (run os s) ∧ content (run os s) q = content s q.
Proof.
  revert s. induction os as [|o os IH]; intros s Hs Hos; [done|].
  destruct Hos as (Hd & Hq & Hos). rewrite run_cons.
  destruct (IH (step o s)) as [Hs' Hc]; [by apply sound_step|done|].
  split; [done|]. rewrite Hc. by apply content_step.
Qed.

Lemma sound_run os (s : BPM) : sound s → disciplined_run os s → sound (run os s).
Proof.
  revert s. induction os as [|o os IH]; intros s Hs Hos; [done|].
  destruct Hos as [Hd Hos]. rewrite run_cons. apply IH; [by apply sound_step|done].
Qed.

(** X17. Whatever disciplined calls were made on a pool since it was
    constructed, including writes to a page [q] through its frame, a run of
    disciplined calls that follows and of which none is meant to change [q]
    leaves the bytes a caller sees of [q] as they were when it began,
    through every eviction, write-back and reload of [q] and of other
    pages. *)
Theorem transparent_run os1 os2 n k dm q :
  disciplined_run os1 (BufferPoolManager_new n k dm) →
  leaves_alone os2 (run os1 (BufferPoolManager_new n k dm)) q →
  content (run (os1 ++ os2) (BufferPoolManager_new n k dm)) q =
    content (run os1 (BufferPoolManager_new n k dm)) q.
Proof.
  intros H1 H2. rewrite run_app.
  apply leaves_alone_run; [|done]. apply sound_run; [apply sound_new|done].
Qed.

(** ** A held page keeps its frame *)

Lemma label_UnpinPageImpl (s : BPM) p d g :
  label (snd (UnpinPageImpl p d s)) g = label s g.
Proof.
  unfold UnpinPageImpl. destruct (page_table_ s !! p) as [f|]; [|done].
  destruct (_ =? 0); [done|]. bpm_proj.
  assert (∀ s0 : BPM, pages_ s0 = update_frame f (λ pg, set_is_dirty (is_dirty_ pg || d) pg)
            (update_frame f (λ pg, set_pin_count (pin_count_ pg - 1) pg) (pages_ s)) →
          label s0 g = label s g) as Hl.
  { intros s0 Hpg. unfold label. rewrite Hpg, !frame_update.
    case_decide; [|done]. by destruct (frame (pages_ s) g). }
  by destruct (_ =? 0); apply Hl.
Qed.

Lemma free_list_UnpinPageImpl (s : BPM) p d :
  free_list_ (snd (UnpinPageImpl p d s)) = free_list_ s.
Proof.
  unfold UnpinPageImpl. destruct (page_table_ s !! p); [|done].
  destruct (_ =? 0); [done|]. bpm_proj. by destruct (_ =? 0).
Qed.

(** The label of a frame other than the one held is not the page held. *)
Lemma held_label_ne (s : BPM) p f g :
  p ≠ INVALID_PAGE_ID → (∀ h, label s h = Some p → h = f) → g ≠ f →
  page_id_ (page_at s g) ≠ p.
Proof.
  intros Hvalid Honly Hne Hid. unfold page_at in Hid.
  destruct (frame (pages_ s) g) as [pg|] eqn:Hg; simpl in Hid; [|done].
  apply Hne, Honly. apply label_Some_frame. eauto.
Qed.

(** X18. A page other than [INVALID_PAGE_ID] that is held in a frame stays
    held in that frame through every call but the [UnpinPageImpl] that takes
    the pin count of the page to zero and a [NewPageImpl] that allocates the
    id of the page; its bytes change only when a caller writes them.  No
    invariant of the pool is assumed. *)
Theorem held_page_stays o (s : BPM) p f :
  p ≠ INVALID_PAGE_ID → held_in s p f →
  (∀ d, o = OpUnpin p d → 1 < pin_count_at s f) →
  (o = OpNewPage → next_page_id_ (disk_manager_ s) ≠ p) →
  held_in (step o s) p f ∧
  ((∀ d, o ≠ OpWrite f d) → data_ (page_at (step o s) f) = data_ (page_at s f)).
Proof.
  intros Hvalid (HT & Hlab & Hinj & Honly & Hpin & Hnev & Hnfree) Hunpin Hnew.
  pose proof Hlab as (pg & Hf & Hid)%label_Some_frame.
  assert (∀ s' : BPM, page_table_ s' !! p = Some f →
            (∀ q, page_table_ s' !! q = Some f → page_table_ s !! q = Some f) →
            (∀ h, label s' h = Some p → label s h = Some p) →
            label s' f = Some p →
            pin_count_at s' f = pin_count_at s f →
            (∀ h, h ∈ evictable (replacer_ s') → h ∈ evictable (replacer_ s) ∨ h ≠ f) →
            (∀ h, h ∈ free_list_ s' → h ∈ free_list_ s ∨ h ≠ f) →
            data_ (page_at s' f) = data_ (page_at s f) →
    held_in s' p f ∧
    ((∀ d, o ≠ OpWrite f d) → data_ (page_at s' f) = data_ (page_at s f))) as Hkeep.
  { intros s' HT' Hold Hlabs Hlab' Hpin' Hev Hfree Hdata. split; [|done].
    split; [done|]. split; [done|]. split; [auto|]. split; [auto|].
    split; [by rewrite Hpin'|]. split.
    - intros [?|?]%Hev; done.
    - intros [?|?]%Hfree; done. }
  destruct o as [p'|p' d|p'| | |p'|g d]; simpl in *.
  - destruct (page_table_ s !! p') as [g|] eqn:Hp'.
    { rewrite (FetchPageImpl_hit _ _ _ Hp').
      set (s1 := with_page g (λ pg, set_pin_count (pin_count_ pg + 1) pg) s).
      assert (∀ h, label (replacer_Pin p' s1) h = label s h) as Hl'.
      { intros h. by apply (label_update_keep s (replacer_Pin p' s1) g
                              (λ pg, set_pin_count (pin_count_ pg + 1) pg) h). }
      split; [|intros _; by apply (page_at_with_page_proj data_)].
      split; [done|]. split; [by rewrite Hl'|]. split; [done|].
      split; [intros h; rewrite Hl'; auto|]. split; [|split; [|done]].
      - unfold pin_count_at, page_at in *. subst s1. bpm_proj.
        rewrite frame_update, Hf in *. case_decide; simpl in *; lia.
      - bpm_proj. rewrite evictable_Pin. set_solver. }
    assert (∀ g (s1 : BPM), pages_ s1 = pages_ s → page_table_ s1 = page_table_ s →
              g ≠ f →
              (∀ h, h ∈ evictable (replacer_ s1) → h ∈ evictable (replacer_ s)) →
              (∀ h, h ∈ free_list_ s1 → h ∈ free_list_ s) →
      held_in (fetch_load p' g (fetch_write_back g s1)) p f ∧
      ((∀ d, OpFetch p' ≠ OpWrite f d) →
       data_ (page_at (fetch_load p' g (fetch_write_back g s1)) f) = data_ (page_at s f)))
      as Hmiss.
    { intros g s1 Hpg Ht Hne Hev Hfree.
      destruct (fetch_load_shape p' g (fetch_write_back g s1))
        as (Hfl' & Hr' & _ & Ht' & _ & _ & _ & _ & Hother).
      destruct (fetch_write_back_shape g s1) as (Hfl2 & Hr2 & _ & Ht2 & _).
      assert (page_at s1 g = page_at s g) as Hatg by (unfold page_at; by rewrite Hpg).
      assert (∀ q h, page_table_ (fetch_write_back g s1) !! q = Some h →
                page_table_ s !! q = Some h) as Hsub.
      { intros q h. destruct Ht2 as [->| ->]; rewrite ?Ht; [done|].
        by intros [_ ?]%lookup_delete_Some. }
      assert (page_table_ (fetch_write_back g s1) !! p = Some f) as HT2.
      { destruct Ht2 as [->| ->]; rewrite Ht; [done|].
        rewrite lookup_delete_ne; [done|]. rewrite Hatg.
        by apply (held_label_ne s p f g). }
      assert (page_at (fetch_load p' g (fetch_write_back g s1)) f =
              page_at (fetch_write_back g s1) f) as Hat
        by (apply page_at_frame_eq, Hother; congruence).
      assert (∀ {A} (π : Page → A), (∀ b pg, π (set_is_dirty b pg) = π pg) →
                π (page_at (fetch_load p' g (fetch_write_back g s1)) f) = π (page_at s f))
        as Hproj.
      { intros A π Hπ. rewrite Hat, (fetch_write_back_page_at π) by done.
        unfold page_at. by rewrite Hpg. }
      assert (∀ h, h ≠ g → label (fetch_load p' g (fetch_write_back g s1)) h = label s h)
        as Hlabs.
      { intros h Hh. rewrite label_fetch_load, decide_False by done.
        rewrite label_fetch_write_back. by rewrite (label_pages_eq s s1). }
      apply Hkeep.
      - rewrite Ht', table_insert_lookup. rewrite decide_False by congruence. done.
      - intros q. rewrite Ht', table_insert_lookup. case_decide as Hq; [|by apply Hsub].
        subst q. destruct (page_table_ (fetch_write_back g s1) !! p') as [h|] eqn:Hh.
        + apply Hsub in Hh. congruence.
        + simpl. congruence.
      - intros h. destruct (decide (h = g)) as [->|Hh]; [|by rewrite Hlabs].
        rewrite label_fetch_load, decide_True by done.
        destruct (label (fetch_write_back g s1) g); simpl; [|done]. congruence.
      - rewrite Hlabs; [done|congruence].
      - apply (Hproj _ pin_count_). done.
      - intros h. rewrite Hr', Hr2. auto.
      - intros h. rewrite Hfl', Hfl2. auto.
      - apply (Hproj _ data_). done. }
    destruct (free_list_ s) as [|g rest] eqn:Hfl.
    + destruct (Victim (replacer_ s)) as [[g r]|] eqn:Hv.
      * rewrite (FetchPageImpl_victim _ _ _ _ Hp' Hfl Hv). bpm_proj.
        apply Victim_Some in Hv as [Hin Hr].
        apply (Hmiss g _); try done; [by intros ->| |].
        -- intros h. bpm_proj. rewrite Hr. set_solver.
        -- intros h. bpm_proj. by rewrite Hfl.
      * rewrite (FetchPageImpl_exhausted _ _ Hp' Hfl Hv).
        apply Hkeep; simpl; rewrite ?Hfl; auto.
    + rewrite (FetchPageImpl_free _ _ _ _ Hp' Hfl). bpm_proj.
      apply (Hmiss g _); try done.
      * intros ->. apply Hnfree. set_solver.
      * intros h. bpm_proj. set_solver.
  - destruct (UnpinPageImpl_keeps s p' d) as (Ht & _).
    split; [|intros _; by apply (UnpinPageImpl_page_at data_)].
    split; [by rewrite Ht|]. split; [by rewrite label_UnpinPageImpl|].
    split; [by rewrite Ht|]. split; [intros h; rewrite label_UnpinPageImpl; auto|].
    rewrite free_list_UnpinPageImpl. split; [|split; [|done]].
    + unfold UnpinPageImpl. destruct (page_table_ s !! p') as [g|] eqn:Hp'; [|done].
      destruct (Z.eqb_spec (GetPinCount (page_at s g)) 0); [done|]. bpm_proj.
      assert (∀ s0 : BPM, pages_ s0 =
                update_frame g (λ pg, set_is_dirty (is_dirty_ pg || d) pg)
                  (update_frame g (λ pg, set_pin_count (pin_count_ pg - 1) pg) (pages_ s)) →
              0 < pin_count_at s0 f) as Hl0.
      { intros s0 Hpg0. unfold pin_count_at, page_at in *. rewrite Hpg0, !frame_update.
        rewrite Hf in *. case_decide as Hg; simpl in *; [|done]. subst g.
        assert (p' = p) as -> by auto.
        pose proof (Hunpin d eq_refl). lia. }
      by destruct (_ =? 0); apply Hl0.
    + unfold UnpinPageImpl. destruct (page_table_ s !! p') as [g|] eqn:Hp'; [|done].
      destruct (Z.eqb_spec (GetPinCount (page_at s g)) 0); [done|]. bpm_proj.
      destruct (Z.eqb_spec (GetPinCount (page_at
                  (with_page g (λ pg, set_is_dirty (is_dirty_ pg || d) pg)
                     (with_page g (λ pg, set_pin_count (pin_count_ pg - 1) pg) s)) g)) 0)
        as [H0|]; [|done].
      bpm_proj. rewrite evictable_Unpin.
      intros [?|Hfg%elem_of_singleton]%elem_of_union; [done|]. subst g.
      assert (p' = p) as -> by auto.
      pose proof (Hunpin d eq_refl) as Hgt.
      unfold GetPinCount, pin_count_at, page_at in *. bpm_proj.
      rewrite !frame_update_eq, Hf in H0. rewrite Hf in Hgt. simpl in *. lia.
  - unfold FlushPageImpl. destruct (FlushPage_shape s p') as (Ht & Hfl & Hr & _).
    apply Hkeep.
    + by rewrite Ht.
    + intros q. by rewrite Ht.
    + intros h. by rewrite label_flush.
    + by rewrite label_flush.
    + by apply (FlushPage_page_at pin_count_).
    + rewrite Hr. auto.
    + rewrite Hfl. auto.
    + by apply (FlushPage_page_at data_).
  - unfold FlushAllPagesImpl.
    destruct (FlushAll_from_shape (pool_size_ s) 0 s) as (Ht & Hfl & Hr).
    apply Hkeep.
    + by rewrite Ht.
    + intros q. by rewrite Ht.
    + intros h. by rewrite label_FlushAll_from.
    + by rewrite label_FlushAll_from.
    + by apply (FlushAll_from_page_at pin_count_).
    + rewrite Hr. auto.
    + rewrite Hfl. auto.
    + by apply (FlushAll_from_page_at data_).
  - pose proof (Hnew eq_refl) as Hfresh.
    assert (∀ g (s2 : BPM), g ≠ f →
              next_page_id_ (disk_manager_ s2) = next_page_id_ (disk_manager_ s) →
              page_table_ s2 !! p = Some f →
              (∀ q h, page_table_ s2 !! q = Some h → page_table_ s !! q = Some h) →
              (∀ h, label s2 h = label s h) →
              (∀ h, page_at s2 h = page_at s h ∨
                    ∃ b, page_at s2 h = set_is_dirty b (page_at s h)) →
              (∀ h, h ∈ evictable (replacer_ s2) → h ∈ evictable (replacer_ s)) →
              (∀ h, h ∈ free_list_ s2 → h ∈ free_list_ s ∧ h ≠ f) →
      held_in (new_install g s2) p f ∧
      ((∀ d, OpNewPage ≠ OpWrite f d) →
       data_ (page_at (new_install g s2) f) = data_ (page_at s f))) as Hinstall.
    { intros g s2 Hne Hnext HT2 Hsub Hlabs2 Hpages Hev Hfree.
      destruct (new_install_shape g s2) as (Hfl' & Hr' & _ & Ht' & _ & _ & _ & _ & Hother).
      rewrite Hnext in Ht'.
      assert (page_at (new_install g s2) f = page_at s2 f) as Hat
        by (apply page_at_frame_eq, Hother; congruence).
      assert (∀ {A} (π : Page → A), (∀ b pg, π (set_is_dirty b pg) = π pg) →
                π (page_at (new_install g s2) f) = π (page_at s f)) as Hproj.
      { intros A π Hπ. rewrite Hat.
        destruct (Hpages f) as [->|[b ->]]; [done|apply Hπ]. }
      apply Hkeep.
      - rewrite Ht', table_insert_lookup. by rewrite decide_False.
      - intros q. rewrite Ht', table_insert_lookup. case_decide as Hq; [|by apply Hsub].
        subst q. destruct (page_table_ s2 !! next_page_id_ (disk_manager_ s)) as [h|] eqn:Hh.
        + simpl. intros [= ->]. apply Hsub in Hh. by apply Hinj in Hh.
        + simpl. congruence.
      - intros h. rewrite label_new_install, Hnext. case_decide as Hh; [|by rewrite Hlabs2].
        destruct (label s2 g); simpl; [|done]. congruence.
      - rewrite label_new_install, decide_False by congruence. by rewrite Hlabs2.
      - apply (Hproj _ pin_count_). done.
      - intros h. rewrite Hr'. auto.
      - intros h. rewrite Hfl'. intros [? ?]%Hfree. auto.
      - apply (Hproj _ data_). done. }
    destruct (free_list_ s) as [|g rest] eqn:Hfl.
    + destruct (Victim (replacer_ s)) as [[g r]|] eqn:Hv.
      * rewrite (NewPageImpl_victim _ _ _ Hfl Hv). bpm_proj.
        apply Victim_Some in Hv as [Hin Hr].
        assert (g ≠ f) as Hne by by intros ->.
        set (s1 := set_replacer r s).
        destruct (new_write_back_shape g s1) as (Hfl2 & Hr2 & _ & Ht2 & Hpg2).
        apply Hinstall; try done.
        -- exact (new_write_back_next_page_id g s1).
        -- rewrite Ht2. subst s1. bpm_proj. rewrite lookup_delete_ne; [done|].
           by apply (held_label_ne s p f g).
        -- intros q h. rewrite Ht2. by intros [_ ?]%lookup_delete_Some.
        -- intros h. by rewrite label_new_write_back.
        -- intros h. unfold page_at. destruct Hpg2 as [->|[f' ->]]; [by left|].
           subst s1. bpm_proj. rewrite frame_update. case_decide; [|by left].
           destruct (frame (pages_ s) h); simpl; [by right; exists false|by left].
        -- intros h. rewrite Hr2. subst s1. bpm_proj. rewrite Hr. set_solver.
        -- intros h. rewrite Hfl2. subst s1. bpm_proj. rewrite Hfl. set_solver.
      * rewrite (NewPageImpl_exhausted _ Hfl Hv).
        apply Hkeep; simpl; rewrite ?Hfl; auto.
    + rewrite (NewPageImpl_free _ _ _ Hfl). bpm_proj.
      assert (g ≠ f) as Hne by (intros ->; apply Hnfree; set_solver).
      apply Hinstall; try done; [by left|].
      intros h Hh. bpm_proj. split; [set_solver|]. intros ->. apply Hnfree. set_solver.
  - unfold DeletePageImpl.
    destruct (page_table_ s !! p') as [g|] eqn:Hp'; [|apply Hkeep; auto].
    destruct (Z.ltb_spec 0 (GetPinCount (page_at s g))) as [|Hle]; [apply Hkeep; auto|].
    assert (g ≠ f) as Hne by (intros ->; unfold pin_count_at, GetPinCount in *; lia).
    bpm_proj.
    assert (∀ s0 : BPM, pages_ s0 =
              update_frame g (set_is_dirty false) (update_frame g (set_pin_count 0)
                (update_frame g (set_page_id INVALID_PAGE_ID)
                   (update_frame g ResetMemory (pages_ s)))) →
            page_at s0 f = page_at s f ∧
            ∀ h, label s0 h = if decide (h = g) then (λ _, INVALID_PAGE_ID) <$> label s h
                              else label s h) as Hl0.
    { intros s0 Hpg0. unfold page_at, label. rewrite Hpg0. split.
      - by rewrite !frame_update_ne.
      - intros h. rewrite !frame_update. case_decide; [|by rewrite !decide_False].
        subst h. rewrite !decide_True by done. by destruct (frame (pages_ s) g). }
    match goal with |- held_in ?s' _ _ ∧ _ => destruct (Hl0 s' eq_refl) as [Hat Hl'] end.
    apply Hkeep; bpm_proj.
    + rewrite lookup_delete_ne; [done|]. intros <-. congruence.
    + intros q. by intros [_ ?]%lookup_delete_Some.
    + intros h. rewrite Hl'. case_decide; [|done].
      destruct (label s h); simpl; [|done]. congruence.
    + rewrite Hl'. by rewrite decide_False.
    + unfold pin_count_at. by rewrite Hat.
    + auto.
    + intros h [?| ->%list_elem_of_singleton]%elem_of_app; auto.
    + by rewrite Hat.
  - assert (∀ h, label (with_page g (λ pg, set_data (write_bytes d (data_ pg)) pg) s) h =
                 label s h) as Hl'.
    { intros h. by apply (label_update_keep s _ g
                            (λ pg, set_data (write_bytes d (data_ pg)) pg) h). }
    split.
    + split; [done|]. split; [by rewrite Hl'|]. split; [done|].
      split; [intros h; rewrite Hl'; auto|]. split; [|done].
      unfold pin_count_at. by rewrite (page_at_with_page_proj pin_count_).
    + intros Hw. apply f_equal, page_at_with_page_ne. intros ->. by apply (Hw d).
Qed.

(** ** Which calls change a pin count *)

Lemma fetch_miss_pin p f (s1 : BPM) g :
  pin_count_at (fetch_load p f (fetch_write_back f s1)) g ≠ pin_count_at s1 g →
  g = f ∧ pin_count_at (fetch_load p f (fetch_write_back f s1)) g = 1.
Proof.
  destruct (fetch_load_shape p f (fetch_write_back f s1))
    as (_ & _ & _ & _ & _ & _ & _ & Hf' & Hother).
  unfold pin_count_at. destruct (decide (g = f)) as [->|Hne].
  - intros Hch. split; [done|]. unfold page_at in *. rewrite Hf' in *.
    destruct (frame (pages_ (fetch_write_back f s1)) f) as [pg|] eqn:Hf2; [done|].
    exfalso. apply Hch. simpl.
    pose proof (fetch_write_back_page_at pin_count_ f s1 f (λ _ _, eq_refl)) as Hpin.
    unfold page_at in Hpin. by rewrite Hf2 in Hpin.
  - intros Hch. exfalso. apply Hch.
    rewrite (page_at_frame_eq (fetch_write_back f s1) _ g (Hother _ Hne)).
    by apply (fetch_write_back_page_at pin_count_).
Qed.

Lemma new_install_pin_change f (s2 : BPM) g :
  pin_count_at (new_install f s2) g ≠ pin_count_at s2 g →
  g = f ∧ pin_count_at (new_install f s2) g = 1.
Proof.
  destruct (new_install_shape f s2) as (_ & _ & _ & _ & _ & _ & _ & Hf' & Hother).
  unfold pin_count_at. destruct (decide (g = f)) as [->|Hne].
  - intros Hch. split; [done|]. unfold page_at in *. rewrite Hf' in *.
    by destruct (frame (pages_ s2) f) as [pg|].
  - intros Hch. exfalso. apply Hch. by rewrite (page_at_frame_eq s2 _ g (Hother _ Hne)).
Qed.

(** X19. An operation changes the pin count of a frame only in these
    ways: a hit of [FetchPageImpl] adds one to the count of the page's
    frame; a miss of [FetchPageImpl] and a [NewPageImpl] set the count of
    the frame they return to one; [UnpinPageImpl] takes one from the count
    of the page's frame; [DeletePageImpl] sets the count of the page's frame
    to zero, which changes it only if it was negative.  [FlushPageImpl],
    [FlushAllPagesImpl] and a caller's write change no pin count. *)
Theorem pin_count_of_step o (s : BPM) g :
  pin_count_at (step o s) g ≠ pin_count_at s g →
  match o with
  | OpFetch p =>
    (page_table_ s !! p = Some g ∧ pin_count_at (step o s) g = pin_count_at s g + 1) ∨
    (page_table_ s !! p = None ∧ fst (FetchPageImpl p s) = Some g ∧
     pin_count_at (step o s) g = 1)
  | OpUnpin p d =>
    page_table_ s !! p = Some g ∧ pin_count_at (step o s) g = pin_count_at s g - 1
  | OpNewPage =>
    (∃ id, fst (NewPageImpl s) = Some (id, g)) ∧ pin_count_at (step o s) g = 1
  | OpDelete p =>
    page_table_ s !! p = Some g ∧ pin_count_at s g < 0 ∧ pin_count_at (step o s) g = 0
  | _ => False
  end.
Proof.
  intros Hch. destruct (step_pin_count o s g) as [Heq|Hcase]; [done|].
  destruct o as [p|p d|p| | |p|f d]; try done; simpl in *.
  - destruct (page_table_ s !! p) as [f|] eqn:Hp.
    { left. destruct Hcase as [H1|[[= ->] Hinc]]; [|done].
      rewrite (FetchPageImpl_hit _ _ _ Hp) in *. bpm_proj.
      unfold pin_count_at, page_at in *. bpm_proj. rewrite frame_update in *.
      case_decide as Hg; [subst g|done].
      destruct (frame (pages_ s) f); simpl in *; [done|lia]. }
    right. split; [done|].
    destruct (free_list_ s) as [|f rest] eqn:Hfl.
    + destruct (Victim (replacer_ s)) as [[f r]|] eqn:Hv.
      * rewrite (FetchPageImpl_victim _ _ _ _ Hp Hfl Hv) in *. bpm_proj.
        by destruct (fetch_miss_pin p f (set_replacer r s) g Hch) as [-> ?].
      * by rewrite (FetchPageImpl_exhausted _ _ Hp Hfl Hv) in Hch.
    + rewrite (FetchPageImpl_free _ _ _ _ Hp Hfl) in *. bpm_proj.
      by destruct (fetch_miss_pin p f (set_free rest s) g Hch) as [-> ?].
  - destruct Hcase as (? & ? & ?). done.
  - destruct (free_list_ s) as [|f rest] eqn:Hfl.
    + destruct (Victim (replacer_ s)) as [[f r]|] eqn:Hv.
      * rewrite (NewPageImpl_victim _ _ _ Hfl Hv) in *. bpm_proj.
        destruct (new_install_pin_change f (new_write_back f (set_replacer r s)) g)
          as [-> ?]; [|by eauto].
        unfold pin_count_at in *. by rewrite (new_write_back_page_at pin_count_).
      * by rewrite (NewPageImpl_exhausted _ Hfl Hv) in Hch.
    + rewrite (NewPageImpl_free _ _ _ Hfl) in *. bpm_proj.
      destruct (new_install_pin_change f (set_free rest s) g Hch) as [-> ?]. by eauto.
  - destruct Hcase as (? & ? & ?). split; [done|]. split; [lia|done].
Qed.


End Properties.

(* ===================================================================== *)
(** * The theorems at work on the clock policy *)
(* ===================================================================== *)

(** C8 as stated fails on the first fetch into a new pool: the pin count of
    frame 0 goes from zero to one and no [Pin] call is made, the frame
    coming off the free list. *)
Lemma marks_follow_pins_fails : ¬ marks_follow_pins (OpFetch 10) clock_pool.
Proof.
  intros [Hpin _]. destruct (Hpin 0) as [_ Hback].
  assert (CallPin 0 ∈ new_marks (OpFetch 10) clock_pool) as Hin.
  { apply Hback. split; vm_compute; [reflexivity|discriminate]. }
  assert (new_marks (OpFetch 10) clock_pool = []) as Hnone by (vm_compute; reflexivity).
  rewrite Hnone in Hin. by apply elem_of_nil in Hin.
Qed.

(** [marks_of_step] on the unpin of the only pin of page 10. *)
Lemma marks_of_step_witness :
  pins_nonneg held ∧
  unpin_marks_reach_zero (OpUnpin 10 false) held ∧
  new_marks (OpUnpin 10 false) held = [CallUnpin 0] ∧
  new_marks (OpFetch 10) held = [CallPin 10] ∧
  pin_count_at held 0 = 1.
Proof.
  assert (pins_nonneg held) as Hpins.
  { unfold pins_nonneg.
    assert (pages_ held = [mkPage [x0a; x0a] 10 1 false]) as -> by (vm_compute; reflexivity).
    repeat constructor. simpl. lia. }
  split; [exact Hpins|].
  split; [exact (proj1 (marks_of_step (OpUnpin 10 false) held Hpins))|].
  repeat split; vm_compute; reflexivity.
Defined.

(** [FetchPageImpl_hit_frame] on a second fetch of page 10. *)
Lemma FetchPageImpl_hit_frame_witness :
  page_table_ held !! 10 = Some 0 ∧
  ∃ s', FetchPageImpl 10 held = (Some 0, s') ∧
    disk_manager_ s' = disk_manager_ held ∧
    frame (pages_ s') 0 = Some (mkPage [x0a; x0a] 10 2 false).
Proof.
  split; [vm_compute; reflexivity|].
  destruct (FetchPageImpl_hit_frame held 10 0) as (s' & Heq & Hdm & _ & _ & Hf & _);
    [vm_compute; reflexivity|].
  exists s'. split; [exact Heq|]. split; [exact Hdm|]. rewrite Hf. vm_compute. reflexivity.
Defined.

(** [pool_exhausted] on the pool of one frame with page 10 pinned. *)
Lemma pool_exhausted_witness :
  size (page_table_ held) = 1%nat ∧
  FetchPageImpl 11 held = (None, held) ∧
  NewPageImpl held = (None, held).
Proof.
  split; [vm_compute; reflexivity|].
  destruct (pool_exhausted 1 2 disk3 [OpFetch 10] held) as (Hfetch & Hnew & _);
    [reflexivity|reflexivity|vm_compute; reflexivity|].
  split; [apply Hfetch; vm_compute; reflexivity|exact Hnew].
Defined.

(** [UnpinPageImpl_spec]: an id that is not resident, a pin count that is
    zero already, the unpin of the only pin, and a reachable state. *)
Lemma UnpinPageImpl_spec_witness :
  UnpinPageImpl 11 true held = (false, held) ∧
  UnpinPageImpl 10 true released = (false, released) ∧
  (∃ s', UnpinPageImpl 10 true held = (true, s') ∧
     frame (pages_ s') 0 = Some (mkPage [x0a; x0a] 10 0 true) ∧
     marks_ s' = marks_ held ++ [CallUnpin 0]) ∧
  (∀ f pg, frame (pages_ modified) f = Some pg → 0 ≤ pin_count_ pg).
Proof.
  split.
  { apply (proj1 (UnpinPageImpl_spec held 11 true)). vm_compute. reflexivity. }
  split.
  { apply (proj1 (proj2 (UnpinPageImpl_spec released 10 true)) 0 (mkPage [x0a; x0a] 10 0 false));
      vm_compute; reflexivity. }
  split.
  { destruct (proj1 (proj2 (proj2 (UnpinPageImpl_spec held 10 true)))
                0 (mkPage [x0a; x0a] 10 1 false))
      as (s' & Heq & Hf & _ & _ & _ & _ & Hmark); [vm_compute; reflexivity..|simpl; lia|].
    exists s'. split; [exact Heq|]. split; [exact Hf|]. exact (proj2 Hmark). }
  apply (proj2 (proj2 (proj2 (UnpinPageImpl_spec modified 10 true)))).
  exists 1%nat, 2%nat, disk3, [OpFetch 10; OpWrite 0 written; OpUnpin 10 true]. reflexivity.
Defined.

(** [DeletePageImpl_spec]: an id that is not resident, a pinned page, an
    unpinned page. *)
Lemma DeletePageImpl_spec_witness :
  DeletePageImpl 11 held = (true, held) ∧
  DeletePageImpl 10 held = (false, held) ∧
  ∃ s', DeletePageImpl 10 released = (true, s') ∧
    page_table_ s' = delete 10 (page_table_ released) ∧
    frame (pages_ s') 0 = Some (mkPage [x00; x00] INVALID_PAGE_ID 0 false) ∧
    free_list_ s' = [0] ∧
    calls_ (disk_manager_ s') = [CallReadPage 10; CallDeallocatePage 10].
Proof.
  split.
  { apply (proj1 (DeletePageImpl_spec held 11)). vm_compute. reflexivity. }
  split.
  { apply (proj1 (proj2 (DeletePageImpl_spec held 10)) 0 (mkPage [x0a; x0a] 10 1 false));
      [vm_compute; reflexivity..|simpl; lia]. }
  destruct (proj2 (proj2 (DeletePageImpl_spec released 10)) 0 (mkPage [x0a; x0a] 10 0 false))
    as (s' & Heq & Ht & Hf & _ & Hfl & _ & Hcalls & _); [vm_compute; reflexivity..|simpl; lia|].
  exists s'. split; [exact Heq|]. split; [exact Ht|]. split; [exact Hf|].
  split; [exact Hfl|exact Hcalls].
Defined.

(** [FlushPageImpl_spec]: an id that is not resident, a clean page, a dirty
    page, and two sweeps in a row. *)
Lemma FlushPageImpl_spec_witness :
  FlushPageImpl 11 held = (false, held) ∧
  FlushPageImpl 10 held = (true, held) ∧
  (∃ s', FlushPageImpl 10 modified = (true, s') ∧
     stored_ (disk_manager_ s') !! 10 = Some written ∧
     frame (pages_ s') 0 = Some (mkPage written 10 0 false)) ∧
  calls_ (disk_manager_ (FlushAllPagesImpl modified)) =
    [CallReadPage 10; CallWritePage 10 written] ∧
  calls_ (disk_manager_ (FlushAllPagesImpl (FlushAllPagesImpl modified))) =
    [CallReadPage 10; CallWritePage 10 written].
Proof.
  split.
  { apply (proj1 (FlushPageImpl_spec held 11)). vm_compute. reflexivity. }
  split.
  { apply (proj1 (proj2 (proj2 (FlushPageImpl_spec held 10))) 0 (mkPage [x0a; x0a] 10 1 false));
      vm_compute; reflexivity. }
  split.
  { destruct (proj1 (proj2 (FlushPageImpl_spec modified 10)) 0 (mkPage written 10 0 true))
      as (s' & Heq & Hdm & Hf & _); [vm_compute; reflexivity..|].
    exists s'. split; [exact Heq|]. split; [|exact Hf].
    rewrite Hdm. vm_compute. reflexivity. }
  split; [vm_compute; reflexivity|].
  rewrite (proj2 (proj2 (proj2 (proj2 (proj2 (FlushPageImpl_spec modified 10)))))).
  vm_compute. reflexivity.
Defined.

(** [fetch_round_trip]: page 10 written, unpinned dirty, evicted by the fetch
    of page 11, and fetched again once page 11 is unpinned. *)
Lemma fetch_round_trip_witness :
  resident_in edited 10 0 (mkPage written 10 1 false) ∧
  data_ (page_at (snd (FetchPageImpl 10 (snd (UnpinPageImpl 11 false
           (snd (FetchPageImpl 11 (snd (UnpinPageImpl 10 true edited)))))))) 0) = written.
Proof.
  assert (resident_in edited 10 0 (mkPage written 10 1 false)) as Hres.
  { repeat split; vm_compute; reflexivity. }
  split; [exact Hres|].
  apply (fetch_round_trip edited _ 10 11 0 0 _ Hres).
  - simpl. lia.
  - vm_compute. reflexivity.
  - vm_compute. reflexivity.
  - right. by exists false.
  - vm_compute. reflexivity.
  - vm_compute. eauto.
Defined.

(** [new_page_round_trip]: the same with the eviction by [NewPageImpl]. *)
Lemma new_page_round_trip_witness :
  resident_in edited 10 0 (mkPage written 10 1 false) ∧
  fst (NewPageImpl (snd (UnpinPageImpl 10 true edited))) = Some (13, 0) ∧
  data_ (page_at (snd (FetchPageImpl 10 (snd (UnpinPageImpl 13 false
           (snd (NewPageImpl (snd (UnpinPageImpl 10 true edited)))))))) 0) = written.
Proof.
  assert (resident_in edited 10 0 (mkPage written 10 1 false)) as Hres.
  { repeat split; vm_compute; reflexivity. }
  split; [exact Hres|]. split; [vm_compute; reflexivity|].
  apply (new_page_round_trip edited _ 10 13 0 0 _ Hres).
  - simpl. lia.
  - vm_compute. reflexivity.
  - vm_compute. discriminate.
  - vm_compute. reflexivity.
  - right. by exists false.
  - vm_compute. reflexivity.
  - vm_compute. eauto.
Defined.

(** [NewPageImpl_clean] on a dirty victim that is the frame of its page. *)
Lemma NewPageImpl_clean_witness :
  frame (pages_ modified) 0 = Some (mkPage written 10 0 true) ∧
  frame (pages_ (snd (NewPageImpl modified))) 0 = Some (mkPage [x00; x00] 13 1 false) ∧
  page_table_ (snd (NewPageImpl modified)) !! 13 = Some 0.
Proof.
  split; [vm_compute; reflexivity|].
  destruct (NewPageImpl_clean modified (snd (NewPageImpl modified)) 13 0
              (mkPage written 10 0 true)) as (_ & Hf & Ht).
  - vm_compute. reflexivity.
  - vm_compute. reflexivity.
  - intros _. split; vm_compute; reflexivity.
  - vm_compute. reflexivity.
  - split; [exact Hf|exact Ht].
Defined.

(** [reachable_frames_in_range] on a state of the pool of one frame. *)
Lemma reachable_frames_in_range_witness :
  reachable modified ∧ frames_in_range modified.
Proof.
  assert (reachable modified) as Hr.
  { exists 1%nat, 2%nat, disk3, [OpFetch 10; OpWrite 0 written; OpUnpin 10 true]. reflexivity. }
  split; [exact Hr|exact (reachable_frames_in_range modified Hr)].
Defined.

(** The run [dirty_round] under the clock policy: every call meets the
    condition, the one victim of a fetch being dirty. *)
Lemma consistent_preserved_witness :
  keeps_consistent_run (R := ClockReplacer) dirty_round (BufferPoolManager_new 1 2 disk3) ∧
  consistent (R := ClockReplacer) (run dirty_round (BufferPoolManager_new 1 2 disk3)) ∧
  page_table_inv (R := ClockReplacer) (run dirty_round (BufferPoolManager_new 1 2 disk3)).
Proof.
  assert (keeps_consistent_run (R := ClockReplacer) dirty_round
            (BufferPoolManager_new 1 2 disk3)) as Hos.
  { unfold dirty_round. cbn [keeps_consistent_run keeps_consistent].
    repeat match goal with |- _ ∧ _ => split | |- True => exact I end.
    - intros _ Hfl. vm_compute in Hfl. discriminate.
    - intros _ _ f r Hv. vm_compute in Hv. injection Hv as <- <-. vm_compute. reflexivity.
    - vm_compute. reflexivity. }
  split; [exact Hos|exact (consistent_preserved dirty_round 1 2 disk3 Hos)].
Defined.

(** Page 10, fetched and unpinned, is deleted. *)
Lemma DeletePageImpl_then_witness :
  fst (DeletePageImpl 10 released) = true ∧
  page_table_ (snd (DeletePageImpl 10 released)) !! 10 = None ∧
  DeletePageImpl 10 (snd (DeletePageImpl 10 released)) =
    (true, snd (DeletePageImpl 10 released)) ∧
  UnpinPageImpl 10 false (snd (DeletePageImpl 10 released)) =
    (false, snd (DeletePageImpl 10 released)) ∧
  FlushPageImpl 10 (snd (DeletePageImpl 10 released)) =
    (false, snd (DeletePageImpl 10 released)).
Proof.
  assert (fst (DeletePageImpl 10 released) = true) as Hres by (vm_compute; reflexivity).
  split; [exact Hres|exact (DeletePageImpl_then released 10 false Hres)].
Defined.

(** Page 10, held once, is fetched again and unpinned. *)
Lemma fetch_unpin_round_trip_witness :
  page_table_ held !! 10 = Some 0 ∧
  ∃ s1 s2, FetchPageImpl 10 held = (Some 0, s1) ∧ UnpinPageImpl 10 false s1 = (true, s2) ∧
    pages_ s2 = pages_ held ∧ page_table_ s2 = page_table_ held ∧
    free_list_ s2 = free_list_ held ∧ disk_manager_ s2 = disk_manager_ held ∧
    replacer_ s2 = Pin 10 (replacer_ held).
Proof.
  assert (page_table_ held !! 10 = Some 0) as Hp by (vm_compute; reflexivity).
  assert (frame (pages_ held) 0 = Some (mkPage [x0a; x0a] 10 1 false)) as Hf
    by (vm_compute; reflexivity).
  split; [exact Hp|].
  apply (fetch_unpin_round_trip held 10 0 (mkPage [x0a; x0a] 10 1 false) Hp Hf).
  simpl. lia.
Defined.

(** The unpin of page 10, held once, makes frame 0 eviction-eligible. *)
Lemma evictable_of_step_witness :
  0 ∈ evictable (replacer_ (step (OpUnpin 10 false) held)) ∧
  (0 ∉ evictable (replacer_ held)) ∧
  ∃ p d, OpUnpin 10 false = OpUnpin p d ∧ page_table_ held !! p = Some 0 ∧
    pin_count_at held 0 = 1 ∧ pin_count_at (step (OpUnpin 10 false) held) 0 = 0.
Proof.
  assert (0 ∈ evictable (replacer_ (step (OpUnpin 10 false) held))) as Hin.
  { change (0 ∈ clock_set (replacer_ (step (OpUnpin 10 false) held))).
    replace (replacer_ (step (OpUnpin 10 false) held)) with [(0, true)]
      by (vm_compute; reflexivity).
    unfold clock_set. simpl. set_solver. }
  assert (0 ∉ evictable (replacer_ held)) as Hnot.
  { change (0 ∉ clock_set (replacer_ held)).
    replace (replacer_ held) with (@nil (Z * bool)) by (vm_compute; reflexivity).
    unfold clock_set. simpl. set_solver. }
  split; [exact Hin|]. split; [exact Hnot|].
  exact (evictable_of_step (OpUnpin 10 false) held 0 Hin Hnot).
Defined.

(** Page 11 is fetched into the frame of page 10, unpinned dirty. *)
Lemma FetchPageImpl_miss_witness :
  page_table_ modified !! 11 = None ∧
  FetchPageImpl 11 modified = (Some 0, snd (FetchPageImpl 11 modified)) ∧
  frame (pages_ modified) 0 = Some (mkPage written 10 0 true) ∧
  frame (pages_ (snd (FetchPageImpl 11 modified))) 0 =
    Some (mkPage [x0b; x0b] 11 1 false) ∧
  page_table_ (snd (FetchPageImpl 11 modified)) = <[11 := 0]> (delete 10 (page_table_ modified)).
Proof.
  assert (page_table_ modified !! 11 = None) as Hp by (vm_compute; reflexivity).
  assert (FetchPageImpl 11 modified = (Some 0, snd (FetchPageImpl 11 modified))) as Hres
    by (vm_compute; reflexivity).
  assert (frame (pages_ modified) 0 = Some (mkPage written 10 0 true)) as Hf
    by (vm_compute; reflexivity).
  destruct (FetchPageImpl_miss modified _ 11 0 _ Hp Hres Hf) as (Hf' & _ & _ & _ & Hrest).
  destruct Hrest as [_ Ht].
  { intros _. left. vm_compute. reflexivity. }
  repeat split; try assumption.
Defined.

(** Page 10, unpinned dirty, is made persistent. *)
Lemma FlushAllPagesImpl_persists_witness :
  resident_in modified 10 0 (mkPage written 10 0 true) ∧
  resident_in (FlushAllPagesImpl modified) 10 0 (mkPage written 10 0 false) ∧
  stored_ (disk_manager_ (FlushAllPagesImpl modified)) !! 10 = Some written.
Proof.
  assert (resident_in modified 10 0 (mkPage written 10 0 true)) as Hres
    by (repeat split; vm_compute; reflexivity).
  assert (∀ q, page_table_ modified !! q = Some 0 → q = 10) as Hinj.
  { replace (page_table_ modified) with ({[10 := 0]} : gmap Z Z) by (vm_compute; reflexivity).
    by intros q [-> _]%lookup_singleton_Some. }
  split; [exact Hres|].
  apply (FlushAllPagesImpl_persists modified 10 0 _ Hinj Hres). unfold INVALID_PAGE_ID. lia.
Defined.

(** Pages 10 and 11 are fetched into a new pool of two frames. *)
Lemma new_pool_fetches_witness :
  NoDup [10; 11] ∧
  resident_in (R := ClockReplacer)
    (run (OpFetch <$> [10; 11]) (BufferPoolManager_new 2 2 disk3)) 11 1
    (mkPage [x0b; x0b] 11 1 false) ∧
  free_list_ (R := ClockReplacer)
    (run (OpFetch <$> [10; 11]) (BufferPoolManager_new 2 2 disk3)) = [] ∧
  calls_ (disk_manager_ (R := ClockReplacer)
    (run (OpFetch <$> [10; 11]) (BufferPoolManager_new 2 2 disk3))) =
    [CallReadPage 10; CallReadPage 11].
Proof.
  assert (NoDup [10; 11]) as Hnd by (repeat constructor; set_solver).
  assert (length [10; 11] ≤ 2)%nat as Hlen by (simpl; lia).
  destruct (new_pool_fetches (R := ClockReplacer) 2 2 disk3 [10; 11] Hnd Hlen)
    as (Hres & _ & _ & Hfl & _ & _ & _ & Hc).
  split; [exact Hnd|]. split; [exact (Hres 1%nat 11 eq_refl)|]. split; [exact Hfl|exact Hc].
Defined.

(** Two pages are allocated in a new pool of two frames. *)
Lemma new_pool_new_pages_witness :
  (2 ≤ 2)%nat ∧
  resident_in (R := ClockReplacer)
    (run (replicate 2 OpNewPage) (BufferPoolManager_new 2 2 disk3)) 14 1
    (mkPage [x00; x00] 14 1 false) ∧
  calls_ (disk_manager_ (R := ClockReplacer)
    (run (replicate 2 OpNewPage) (BufferPoolManager_new 2 2 disk3))) =
    [CallAllocatePage 13; CallAllocatePage 14].
Proof.
  assert (2 ≤ 2)%nat as Hlen by lia.
  destruct (new_pool_new_pages (R := ClockReplacer) 2 2 disk3 2 Hlen)
    as (Hres & _ & _ & _ & _ & _ & _ & _ & Hc).
  split; [exact Hlen|]. split; [exact (Hres 1%nat ltac:(lia))|exact Hc].
Defined.

(** The calls of [write_round] are disciplined on the pool of one frame. *)
Lemma write_round_disciplined :
  disciplined_run (R := ClockReplacer) write_round (BufferPoolManager_new 1 2 disk3).
Proof.
  unfold write_round. cbn [disciplined_run]. unfold disciplined. cbn [keeps_consistent].
  repeat match goal with |- _ ∧ _ => split | |- True => exact I end.
  - intros _ Hfl. vm_compute in Hfl. discriminate.
  - unfold INVALID_PAGE_ID. lia.
Qed.

Lemma sound_modified : sound modified.
Proof. apply (sound_run write_round); [apply sound_new|apply write_round_disciplined]. Qed.

(** The fetch of page 11 evicts page 10, written and dirty. *)
Lemma transparent_step_witness :
  sound modified ∧ disciplined (OpFetch 11) modified ∧
  sound (step (OpFetch 11) modified) ∧
  content (step (OpFetch 11) modified) 10 = Some written.
Proof.
  assert (disciplined (OpFetch 11) modified) as Hd.
  { split; [|unfold INVALID_PAGE_ID; lia].
    intros _ _ f r Hv. vm_compute in Hv. injection Hv as <- <-. vm_compute. reflexivity. }
  destruct (transparent_step (OpFetch 11) modified sound_modified Hd) as [Hs Hc].
  split; [exact sound_modified|]. split; [exact Hd|]. split; [exact Hs|].
  assert (¬ touches (OpFetch 11) modified 10) as Hq by (simpl; intros [? _]; lia).
  rewrite (Hc 10 Hq). vm_compute. reflexivity.
Defined.

(** Page 10 keeps the bytes written through the round that evicts it. *)
Lemma transparent_run_witness :
  disciplined_run (R := ClockReplacer) write_round (BufferPoolManager_new 1 2 disk3) ∧
  leaves_alone (R := ClockReplacer) evict_round
    (run write_round (BufferPoolManager_new 1 2 disk3)) 10 ∧
  content (R := ClockReplacer)
    (run (write_round ++ evict_round) (BufferPoolManager_new 1 2 disk3)) 10 = Some written.
Proof.
  assert (leaves_alone (R := ClockReplacer) evict_round
            (run write_round (BufferPoolManager_new 1 2 disk3)) 10) as Hos.
  { unfold evict_round.
    cbn [leaves_alone]. unfold disciplined, touches. cbn [keeps_consistent].
    repeat match goal with |- _ ∧ _ => split | |- True => exact I end;
      try (unfold INVALID_PAGE_ID; simpl; lia); try tauto.
    - intros _ _ f r Hv. vm_compute in Hv. injection Hv as <- <-. vm_compute. reflexivity.
    - vm_compute. intros [=].
    - intros _ f r q Hv. vm_compute in Hv. injection Hv as <- <-. intros _.
      replace (page_table_ _) with ({[11 := 0]} : gmap Z Z) by (vm_compute; reflexivity).
      intros [Hq _]%lookup_singleton_Some. subst q. vm_compute. reflexivity.
    - vm_compute. intros [=]. }
  split; [exact write_round_disciplined|]. split; [exact Hos|].
  rewrite (transparent_run write_round evict_round 1 2 disk3 10 write_round_disciplined Hos).
  vm_compute. reflexivity.
Defined.

(** Page 10 is held in frame 0 while page 11 is fetched into frame 1. *)
Lemma held_page_stays_witness :
  held_in pool2_held 10 0 ∧
  held_in (step (OpFetch 11) pool2_held) 10 0 ∧
  data_ (page_at (step (OpFetch 11) pool2_held) 0) = [x0a; x0a].
Proof.
  assert (held_in pool2_held 10 0) as Hheld.
  { split; [vm_compute; reflexivity|]. split; [vm_compute; reflexivity|]. split; [|split].
    - replace (page_table_ pool2_held) with ({[10 := 0]} : gmap Z Z)
        by (vm_compute; reflexivity).
      by intros q [Hq _]%lookup_singleton_Some.
    - intros g Hg. unfold label, frame in Hg.
      replace (pages_ pool2_held) with [mkPage [x0a; x0a] 10 1 false; Page_new 2] in Hg
        by (vm_compute; reflexivity).
      destruct (Z.leb_spec 0 g); [|done].
      destruct (Z.to_nat g) as [|[|n]] eqn:Hn; simpl in Hg; [lia|done|done].
    - split; [vm_compute; reflexivity|]. split.
      + change (0 ∉ clock_set (replacer_ pool2_held)).
        replace (replacer_ pool2_held) with (@nil (Z * bool)) by (vm_compute; reflexivity).
        unfold clock_set. simpl. set_solver.
      + replace (free_list_ pool2_held) with [1] by (vm_compute; reflexivity). set_solver. }
  assert (10 ≠ INVALID_PAGE_ID) as Hvalid by (unfold INVALID_PAGE_ID; lia).
  assert (∀ d, OpFetch 11 = OpUnpin 10 d → 1 < pin_count_at pool2_held 0) as Hunpin
    by (intros d [=]).
  assert (OpFetch 11 = OpNewPage → next_page_id_ (disk_manager_ pool2_held) ≠ 10) as Hnew
    by (intros [=]).
  destruct (held_page_stays (OpFetch 11) pool2_held 10 0 Hvalid Hheld Hunpin Hnew)
    as (Hheld' & Hdata).
  split; [exact Hheld|]. split; [exact Hheld'|].
  rewrite Hdata by (intros d [=]). vm_compute. reflexivity.
Defined.

(** The unpin of page 10, held once, changes the pin count of frame 0. *)
Lemma pin_count_of_step_witness :
  pin_count_at (step (OpUnpin 10 false) held) 0 ≠ pin_count_at held 0 ∧
  page_table_ held !! 10 = Some 0 ∧
  pin_count_at (step (OpUnpin 10 false) held) 0 = pin_count_at held 0 - 1.
Proof.
  assert (pin_count_at (step (OpUnpin 10 false) held) 0 ≠ pin_count_at held 0) as Hch
    by (vm_compute; intros [=]).
  split; [exact Hch|]. exact (pin_count_of_step (OpUnpin 10 false) held 0 Hch).
Defined.
